(** * DailyCigs: the event store and the aggregation code of the screens

    A shallow embedding of [utils/storage.ts] (the AsyncStorage-backed event
    store and [getLogsByDay]) and of the aggregation code of the screens
    ([getTimeOfDay] and [updateTimeStats] of the home screen, the statistics
    of the trends screen, the spending series of the costs screen), followed
    by the properties of that code.

    Conventions of the embedding.
    - A JavaScript [Date] is its [getTime()]: an integer number of
      milliseconds since the epoch, in [Z].  The range limit of [Date]
      (8.64e15 ms around the epoch) is not modelled.
    - A calendar day is the number of days since 1970-01-01, so that the
      text [format(d, 'yyyy-MM-dd')] is represented by the day number of [d]
      in local time.  Two dates have the same text exactly when they have the
      same day number.
    - The time zone of the device is a function [tz] from a UTC instant to
      the offset of local time in force at that instant, in milliseconds.
    - A log entry holds the instant its ISO timestamp denotes
      ([toISOString] and [parseISO] are inverse to each other).
    - A number that counts days or logs is an integer, as are the goal and
      the readings of the clock: integers that a double holds exactly, the
      safe integers below 2^53 in magnitude.
    - Money and the quotients of averages are finite doubles, each given by
      the rational number it stands for.  An arithmetic operation on them
      yields the exact result rounded to the nearest double, ties to the even
      mantissa ([round64]).  Infinities are not represented: a result beyond
      the largest double is outside the embedding.  The daily average of the
      trends screen, read from the text of [toFixed(1)], is given by the
      decimal that text writes.
    - An [async] function is a function of the world (the stored items and
      the fate of the calls of AsyncStorage still to come) to the way its
      promise settles and the world after.  [loadData] of a screen yields
      the values it hands to the setters of the state of the screen.
    - [console.error] and [Alert.alert] are not modelled. *)

From Stdlib Require Import ZArith List String Bool Lia QArith Qround Lqa DecimalString.
From Stdlib Require Import Permutation Sorted FinFun Qminmax DecimalZ Qabs Qpower SpecFloat.
Import ListNotations.
Open Scope Z_scope.

(** ** Instants, calendar days and the time zone *)

Definition msPerMinute : Z := 60 * 1000.
Definition msPerHour : Z := 60 * 60 * 1000.
Definition msPerDay : Z := 24 * 60 * 60 * 1000.

(** Day number of a civil date of the proleptic Gregorian calendar; used to
    write the instants of the examples in a readable way. *)
Definition daysFromCivil (y m d : Z) : Z :=
  let y' := if m <=? 2 then y - 1 else y in
  let era := y' / 400 in
  let yoe := y' - era * 400 in
  let mp := if m >? 2 then m - 3 else m + 9 in
  let doy := (153 * mp + 2) / 5 + d - 1 in
  let doe := yoe * 365 + yoe / 4 - yoe / 100 + doy in
  era * 146097 + doe - 719468.

(** The instant [y-m-d hh:mm:00.000 UTC]. *)
Definition utcInstant (y m d hh mm : Z) : Z :=
  daysFromCivil y m d * msPerDay + hh * msPerHour + mm * msPerMinute.

(** Time zones used in the examples. *)
Definition fixedOffset (offset : Z) : Z -> Z := fun _ => offset.

Definition utc : Z -> Z := fixedOffset 0.

(** Europe/Berlin in the autumn of 2024: UTC+2 until 2024-10-27 01:00 UTC
    (03:00 local), UTC+1 from then on. *)
Definition berlinAutumn2024 : Z -> Z :=
  fun t => if t <? utcInstant 2024 10 27 1 0 then 2 * msPerHour else 1 * msPerHour.

(** America/New_York in winter: UTC-5. *)
Definition newYorkWinter : Z -> Z := fixedOffset (- 5 * msPerHour).

(** [new Date('yyyy-MM-dd')]: a date-only text is read as midnight UTC. *)
Definition dateOfKey (dateKey : Z) : Z := dateKey * msPerDay.

(** ** Numbers *)

(** The exponent of the power of two at or below a positive number: the [e]
    with [2^e <= x < 2^(e+1)]. *)
Definition floorLog2 (x : Q) : Z :=
  let e := Z.log2 (Qnum x) - Z.log2 (Zpos (Qden x)) in
  if Qle_bool (2 ^ e) x then e else e - 1.

(** The integer nearest to [y], the even one of two that are as near. *)
Definition roundTiesToEven (y : Q) : Z :=
  let f := Qfloor y in
  match (y - inject_Z f ?= 1 # 2)%Q with
  | Lt => f
  | Gt => f + 1
  | Eq => if Z.even f then f else f + 1
  end.

(** The double nearest to a positive number: a multiple of the unit in the
    last place, which is [2^(e-52)] for a number between [2^e] and [2^(e+1)]
    and [2^-1074] for the subnormal numbers. *)
Definition roundPositive (x : Q) : Q :=
  let ulp := (2 ^ Z.max (floorLog2 x - 52) (-1074))%Q in
  (inject_Z (roundTiesToEven (x / ulp)) * ulp)%Q.

(** The result of an arithmetic operation of JavaScript whose exact result
    is [x]: IEEE 754 binary64, roundTiesToEven. *)
Definition round64 (x : Q) : Q :=
  match (x ?= 0)%Q with
  | Eq => 0%Q
  | Gt => roundPositive x
  | Lt => (- roundPositive (- x))%Q
  end.

(** Half the distance between 1 and the next double: the relative error of
    one rounding is at most this. *)
Definition unitRoundoff : Q := 1 # (2 ^ 53).

(** The binary64 operations as the Standard Library specifies them, to
    compare [round64] with: the double of an integer, and the number a finite
    double stands for. *)
Definition binary64OfZ (n : Z) : spec_float := binary_normalize 53 1024 n 0 false.

Definition SF2Q (x : spec_float) : Q :=
  match x with
  | S754_finite s m e => (inject_Z (if s then Zneg m else Zpos m) * 2 ^ e)%Q
  | _ => 0%Q
  end.

(** A price of [cents] hundredths, as [parseFloat] reads it: the double
    nearest to [cents / 100]. *)
Definition priceOfCents (cents : Z) : spec_float :=
  SFdiv 53 1024 (binary64OfZ cents) (binary64OfZ 100).

Definition range (first : Z) (n : nat) : list Z := map (fun j => first + Z.of_nat j) (seq 0 n).

(** ** Data *)

Record CigaretteLog : Type := { id : string; timestamp : Z }.

(** [{date: Date; count: number}]: an element of the array [getLogsByDay]
    returns (the interface [DailyData] of the trends screen). *)
Record DailyData : Type := { date : Z; count : nat }.

(** The dates that date-fns builds at local midnight ([startOfDay],
    [eachDayOfInterval]) are represented by their calendar day, which is what
    [toDateString] reads of them.  [FilledDay.t] is an element of [filledData]
    of the trends screen, [DailySpending.t] one of [spendingData] of the costs
    screen. *)
Module FilledDay.
Record t : Type := { date : Z; count : nat }.
End FilledDay.

Module DailySpending.
Record t : Type := { date : Z; count : nat; amount : Q }.
End DailySpending.

(** The counters of the home screen. *)
Record TimeStats : Type := { morning : nat; afternoon : nat; evening : nat; night : nat }.

Inductive TimeOfDay : Type := Morning | Afternoon | Evening | Night.

Inductive TimeRange : Type := week | month.

(** The statistics of the trends screen and of the costs screen. *)
Module TrendsStats.
Record t : Type := { dailyAverage : Q; total : nat; changeFromLastPeriod : Z }.
End TrendsStats.

Module CostsStats.
Record t : Type := { totalSpent : Q; dailyAverage : Q; totalCigarettes : nat }.
End CostsStats.

(** The state of the home screen that its handlers set. *)
Module Home.
Record t : Type := {
  count : nat;
  todayLogs : list CigaretteLog;
  dailyGoal : Z;
  timeStats : TimeStats
}.
End Home.

(** What the index route ends up with: the welcome screen shown, or
    [router.replace('/(tabs)/')]. *)
Inductive Launch : Type := ShowWelcome | ReplaceWithTabs.

(** ** AsyncStorage and promises *)

(** The text kept under the key of the logs, as [JSON.parse] reads it: the
    serialization of an array of logs, the empty text, or a text that
    [JSON.parse] rejects.  (A text that is valid JSON of another shape is
    outside the model.) *)
Inductive StoredText : Type :=
| LogsJson (logs : list CigaretteLog)
| EmptyText
| Garbled.

(** One field per key; [None] is a key that was never written. *)
Record AsyncStorage : Type := {
  logsItem : option StoredText;          (* '@DailyCigs:logs' *)
  dailyGoalItem : option string;         (* '@DailyCigs:dailyGoal' *)
  cigaretteCostItem : option string;     (* '@DailyCigs:cigaretteCost' *)
  currencyItem : option string;          (* '@DailyCigs:currency' *)
  hasSeenWelcomeItem : option string     (* '@DailyCigs:hasSeenWelcome' *)
}.

Definition emptyStorage : AsyncStorage :=
  {| logsItem := None; dailyGoalItem := None; cigaretteCostItem := None;
     currencyItem := None; hasSeenWelcomeItem := None |}.

(** A key is the pair of its reader and its writer. *)
Record Key (A : Type) : Type := {
  readKey : AsyncStorage -> option A;
  writeKey : A -> AsyncStorage -> AsyncStorage
}.
Arguments readKey {A} _ _.
Arguments writeKey {A} _ _ _.

Definition STORAGE_KEY : Key StoredText :=
  {| readKey := logsItem;
     writeKey := fun v s =>
       {| logsItem := Some v; dailyGoalItem := dailyGoalItem s;
          cigaretteCostItem := cigaretteCostItem s; currencyItem := currencyItem s;
          hasSeenWelcomeItem := hasSeenWelcomeItem s |} |}.

Definition GOAL_KEY : Key string :=
  {| readKey := dailyGoalItem;
     writeKey := fun v s =>
       {| logsItem := logsItem s; dailyGoalItem := Some v;
          cigaretteCostItem := cigaretteCostItem s; currencyItem := currencyItem s;
          hasSeenWelcomeItem := hasSeenWelcomeItem s |} |}.

Definition COST_KEY : Key string :=
  {| readKey := cigaretteCostItem;
     writeKey := fun v s =>
       {| logsItem := logsItem s; dailyGoalItem := dailyGoalItem s;
          cigaretteCostItem := Some v; currencyItem := currencyItem s;
          hasSeenWelcomeItem := hasSeenWelcomeItem s |} |}.

Definition CURRENCY_KEY : Key string :=
  {| readKey := currencyItem;
     writeKey := fun v s =>
       {| logsItem := logsItem s; dailyGoalItem := dailyGoalItem s;
          cigaretteCostItem := cigaretteCostItem s; currencyItem := Some v;
          hasSeenWelcomeItem := hasSeenWelcomeItem s |} |}.

Definition HAS_SEEN_WELCOME_KEY : Key string :=
  {| readKey := hasSeenWelcomeItem;
     writeKey := fun v s =>
       {| logsItem := logsItem s; dailyGoalItem := dailyGoalItem s;
          cigaretteCostItem := cigaretteCostItem s; currencyItem := currencyItem s;
          hasSeenWelcomeItem := Some v |} |}.

Definition DEFAULT_GOAL : Z := 0.
Definition DEFAULT_COST : Q := 0%Q.

(** What the process sees of the device: the stored items and, for the calls
    of AsyncStorage still to come, whether each one rejects ([true]) or goes
    through ([false]; so does every call past the end of the list). *)
Record World : Type := { disk : AsyncStorage; faults : list bool }.

Inductive error : Type :=
| StorageError     (* a rejected AsyncStorage call *)
| SyntaxError.     (* thrown by JSON.parse *)

Inductive outcome (A : Type) : Type :=
| Resolved (a : A)
| Rejected (e : error).
Arguments Resolved {A} a.
Arguments Rejected {A} e.

(** An [async] function: from the world before the call to the way its
    promise settles and the world after. *)
Definition Async (A : Type) : Type := World -> outcome A * World.

Definition ret {A} (a : A) : Async A := fun w => (Resolved a, w).

Definition throw {A} (e : error) : Async A := fun w => (Rejected e, w).

Definition bind {A B} (c : Async A) (k : A -> Async B) : Async B :=
  fun w =>
    match c w with
    | (Resolved a, w') => k a w'
    | (Rejected e, w') => (Rejected e, w')
    end.

(** [try { c } catch (error) { handler }]. *)
Definition tryCatch {A} (c : Async A) (handler : error -> Async A) : Async A :=
  fun w =>
    match c w with
    | (Resolved a, w') => (Resolved a, w')
    | (Rejected e, w') => handler e w'
    end.

Declare Scope async_scope.
Delimit Scope async_scope with async.
Notation "x <- c ;; k" := (bind c (fun x => k))
  (at level 61, c at next level, right associativity) : async_scope.

Definition nextCallRejects (w : World) : bool :=
  match faults w with
  | [] => false
  | f :: _ => f
  end.

(** [AsyncStorage.getItem(key)]. *)
Definition getItem {A} (key : Key A) : Async (option A) :=
  fun w =>
    let w' := {| disk := disk w; faults := tl (faults w) |} in
    if nextCallRejects w then (Rejected StorageError, w')
    else (Resolved (readKey key (disk w)), w').

(** [AsyncStorage.setItem(key, value)]: a rejected call writes nothing. *)
Definition setItem {A} (key : Key A) (value : A) : Async unit :=
  fun w =>
    if nextCallRejects w
    then (Rejected StorageError, {| disk := disk w; faults := tl (faults w) |})
    else (Resolved tt, {| disk := writeKey key value (disk w); faults := tl (faults w) |}).

(** [JSON.stringify] of an array of logs, and [JSON.parse]. *)
Definition JSON_stringify (logs : list CigaretteLog) : StoredText := LogsJson logs.

Definition JSON_parse (text : StoredText) : Async (list CigaretteLog) :=
  match text with
  | LogsJson logs => ret logs
  | EmptyText | Garbled => throw SyntaxError
  end.

(** Truthiness of a text: only the empty one is falsy. *)
Definition truthyText (text : StoredText) : bool :=
  match text with
  | EmptyText => false
  | _ => true
  end.

Definition truthyString (s : string) : bool := negb (String.eqb s EmptyString).

(** [n.toString()] and [String(n)] of an integer: its decimal digits, after
    a minus sign if it is negative.  This is the text of JavaScript for the
    integers that a double holds and that are below 10^21 in magnitude, the
    safe integers among them. *)
Definition toString (n : Z) : string := NilZero.string_of_int (Z.to_int n).

(** ** Sample inputs *)

Definition worldWith (logs : list CigaretteLog) (faults : list bool) : World :=
  {| disk := writeKey STORAGE_KEY (LogsJson logs) emptyStorage; faults := faults |}.

(** Two logs on 2024-01-09 (08:00 and 14:00 UTC) and one on 2024-01-10
    (09:00 UTC), read at noon UTC of 2024-01-10. *)
Definition sampleNow : Z := utcInstant 2024 1 10 12 0.

Definition sampleLogs : list CigaretteLog :=
  [ {| id := "a"; timestamp := utcInstant 2024 1 9 8 0 |};
    {| id := "b"; timestamp := utcInstant 2024 1 9 14 0 |};
    {| id := "c"; timestamp := utcInstant 2024 1 10 9 0 |} ].

(** A collection in which two entries share the id "1". *)
Definition sharedIdLogs : list CigaretteLog :=
  [ {| id := "1"; timestamp := utcInstant 2024 1 9 8 0 |};
    {| id := "2"; timestamp := utcInstant 2024 1 9 14 0 |};
    {| id := "1"; timestamp := utcInstant 2024 1 10 9 0 |} ].

(** Berlin, Sunday 2024-10-27 at 23:30 local time (22:30 UTC), the day on
    which summer time has ended; and a log of the day before at noon local
    time (10:00 UTC). *)
Definition berlinNow : Z := utcInstant 2024 10 27 22 30.

Definition berlinLogs : list CigaretteLog :=
  [ {| id := "a"; timestamp := utcInstant 2024 10 26 10 0 |} ].

(** New York, 2024-01-10 at noon local time (17:00 UTC). *)
Definition newYorkNow : Z := utcInstant 2024 1 10 17 0.

(** Period buckets of three days with one log in all. *)
Definition oneLogInThreeDays : list FilledDay.t :=
  [ {| FilledDay.date := daysFromCivil 2024 1 8; FilledDay.count := 1 |};
    {| FilledDay.date := daysFromCivil 2024 1 9; FilledDay.count := 0 |};
    {| FilledDay.date := daysFromCivil 2024 1 10; FilledDay.count := 0 |} ].

(** Period buckets of twenty days with three logs in all: the quotient 3/20
    lies halfway between two tenths, and no double holds it. *)
Definition threeLogsInTwentyDays : list FilledDay.t :=
  map (fun j => {| FilledDay.date := daysFromCivil 2024 1 1 + Z.of_nat j;
                   FilledDay.count := if (j =? 0)%nat then 3%nat else 0%nat |})
      (seq 0 20).

(** Stand-ins for the parsers and the period tests where they play no part. *)
Definition notANumber {A : Type} : string -> option A := fun _ => None.

Definition everyDay : Z -> Z -> bool := fun _ _ => true.

(** A reader of decimal numerals, which [parseInt] agrees with on the texts
    that [toString] makes. *)
Definition parseDecimal (text : string) : option Z :=
  option_map Z.of_int (NilZero.int_of_string text).

(** Asia/Kolkata: UTC+5:30 all year. *)
Definition kolkata : Z -> Z := fixedOffset (5 * msPerHour + 30 * msPerMinute).

(** A store that holds a collection of logs and the text of a cost. *)
Definition worldWithCost (logs : list CigaretteLog) (cost : string) : World :=
  {| disk := writeKey COST_KEY cost (disk (worldWith logs [])); faults := [] |}.

(** A cost of one half, its text, and a reader of that text. *)
Definition textOfHalf : Q -> string := fun _ => "0.5"%string.

Definition readHalf (text : string) : option Q :=
  if String.eqb text "0.5" then Some (1 # 2)%Q else None.

(** ** The device: time zone, number parsing, calendar periods *)

Section Device.

Set Default Proof Using "Type".
Set Proof Using Clear Unused.

(** Offset of local time from UTC, in milliseconds, in force at a UTC instant. *)
Variable tz : Z -> Z.

(** [parseInt(text, 10)] and [parseFloat(text)]; [None] is [NaN] (an
    infinite result of [parseFloat] is outside the model). *)
Variable parseInt : string -> option Z.
Variable parseFloat : string -> option Q.

(** [isThisWeek(d)] and [isThisMonth(d)] of date-fns for a date [d] at local
    midnight of a calendar day, read at the instant given first. *)
Variable isThisWeek : Z -> Z -> bool.
Variable isThisMonth : Z -> Z -> bool.

(** The local calendar day of an instant: what [format(d, 'yyyy-MM-dd')],
    [d.toDateString()] and [isSameDay] read. *)
Definition localDay (d : Z) : Z := (d + tz d) / msPerDay.

(** [d.getHours()] and [d.getMinutes()]. *)
Definition getHours (d : Z) : Z := ((d + tz d) mod msPerDay) / msPerHour.

Definition getMinutes (d : Z) : Z := ((d + tz d) mod msPerHour) / msPerMinute.

(** ** utils/storage.ts *)

Local Open Scope async_scope.

(** Save logs to storage. *)
Definition saveLogs (logs : list CigaretteLog) : Async unit :=
  tryCatch
    (setItem STORAGE_KEY (JSON_stringify logs))
    (fun error => throw error).

(** Get all logs from storage. *)
Definition getLogs : Async (list CigaretteLog) :=
  tryCatch
    (logs <- getItem STORAGE_KEY ;;
     match logs with
     | Some text => if truthyText text then JSON_parse text else ret []
     | None => ret []
     end)
    (fun _ => ret []).

(** Add a new log; [now] is the reading of the clock ([Date.now()],
    [new Date()]). *)
Definition addLog (now : Z) (log : option CigaretteLog) : Async (list CigaretteLog) :=
  tryCatch
    (logs <- getLogs ;;
     let newLog :=
       match log with
       | Some l => l
       | None => {| id := toString now; timestamp := now |}
       end in
     let updatedLogs := logs ++ [newLog] in
     _ <- saveLogs updatedLogs ;;
     ret updatedLogs)
    (fun error => throw error).

(** Remove a log by ID. *)
Definition removeLog (i : string) : Async (list CigaretteLog) :=
  tryCatch
    (logs <- getLogs ;;
     let updatedLogs := filter (fun log => negb (String.eqb (id log) i)) logs in
     _ <- saveLogs updatedLogs ;;
     ret updatedLogs)
    (fun error => throw error).

(** Get logs for a specific date. *)
Definition getLogsForDate (d : Z) : Async (list CigaretteLog) :=
  tryCatch
    (logs <- getLogs ;;
     ret (filter (fun log => localDay (timestamp log) =? localDay d) logs))
    (fun _ => ret []).

(** The object [result] of [getLogsByDay]: its own properties in the order
    of their creation, each a date key with its count. *)
Definition Counts : Type := list (Z * nat).

Fixpoint hasOwnProperty (result : Counts) (dateKey : Z) : bool :=
  match result with
  | [] => false
  | (k, _) :: rest => (k =? dateKey) || hasOwnProperty rest dateKey
  end.

(** [result[dateKey] = 0]: an existing property keeps its place. *)
Fixpoint setZero (result : Counts) (dateKey : Z) : Counts :=
  match result with
  | [] => [(dateKey, 0%nat)]
  | (k, c) :: rest =>
      if k =? dateKey then (k, 0%nat) :: rest else (k, c) :: setZero rest dateKey
  end.

(** [result[dateKey]++] on an existing property. *)
Fixpoint increment (result : Counts) (dateKey : Z) : Counts :=
  match result with
  | [] => []
  | (k, c) :: rest =>
      if k =? dateKey then (k, S c) :: rest else (k, c) :: increment rest dateKey
  end.

(** The values [0, 1, ..., days - 1] of the loop variable [i] (none when
    [days <= 0]). *)
Definition loopIndices (days : Z) : list Z := map Z.of_nat (seq 0 (Z.to_nat days)).

(** Initialize last N days with 0 counts. *)
Definition initCounts (today days : Z) : Counts :=
  fold_left
    (fun result i => setZero result (localDay (today - i * 24 * 60 * 60 * 1000)))
    (loopIndices days) [].

(** Count logs for each day. *)
Definition countLogs (logs : list CigaretteLog) (result : Counts) : Counts :=
  fold_left
    (fun result log =>
       let dateKey := localDay (timestamp log) in
       if hasOwnProperty result dateKey then increment result dateKey else result)
    logs result.

(** [Array.prototype.sort] with the comparator
    [(a, b) => a.date.getTime() - b.date.getTime()]: a stable sort, written
    as insertion sort. *)
Fixpoint insertByDate (a : DailyData) (sorted : list DailyData) : list DailyData :=
  match sorted with
  | [] => [a]
  | b :: rest => if date a - date b <=? 0 then a :: sorted else b :: insertByDate a rest
  end.

Definition sortByDate (l : list DailyData) : list DailyData :=
  fold_right insertByDate [] l.

(** Convert to array of objects with date and count. *)
Definition toDailyData (result : Counts) : list DailyData :=
  sortByDate (map (fun '(dateKey, c) => {| date := dateOfKey dateKey; count := c |}) result).

(** The body of [getLogsByDay] once the logs are read. *)
Definition logsByDay (today : Z) (logs : list CigaretteLog) (days : Z) : list DailyData :=
  toDailyData (countLogs logs (initCounts today days)).

(** Get logs grouped by day for the last N days; [today] is [new Date()]. *)
Definition getLogsByDay (today : Z) (days : Z) : Async (list DailyData) :=
  tryCatch
    (logs <- getLogs ;;
     ret (logsByDay today logs days))
    (fun _ => ret []).

(** [x || fallback] for a number [x]: [NaN] and [0] are falsy. *)
Definition orZ (x : option Z) (fallback : Z) : Z :=
  match x with
  | Some v => if v =? 0 then fallback else v
  | None => fallback
  end.

Definition orQ (x : option Q) (fallback : Q) : Q :=
  match x with
  | Some v => if Qeq_bool v 0 then fallback else v
  | None => fallback
  end.

Definition getDailyGoal : Async Z :=
  tryCatch
    (value <- getItem GOAL_KEY ;;
     ret (match value with
          | Some text =>
              if truthyString text then orZ (parseInt text) DEFAULT_GOAL else DEFAULT_GOAL
          | None => DEFAULT_GOAL
          end))
    (fun _ => ret DEFAULT_GOAL).

Definition getCigaretteCost : Async Q :=
  tryCatch
    (value <- getItem COST_KEY ;;
     ret (match value with
          | Some text =>
              if truthyString text then orQ (parseFloat text) DEFAULT_COST else DEFAULT_COST
          | None => DEFAULT_COST
          end))
    (fun _ => ret DEFAULT_COST).

(** [None] is [null]. *)
Definition getCurrency : Async (option string) :=
  tryCatch
    (getItem CURRENCY_KEY)
    (fun _ => ret None).

Definition hasSeenWelcome : Async bool :=
  tryCatch
    (value <- getItem HAS_SEEN_WELCOME_KEY ;;
     ret (match value with
          | Some text => String.eqb text "true"
          | None => false
          end))
    (fun _ => ret false).

(** [AsyncStorage.removeItem(key)], the key given by what erasing it does. *)
Definition removeItem (erase : AsyncStorage -> AsyncStorage) : Async unit :=
  fun w =>
    if nextCallRejects w
    then (Rejected StorageError, {| disk := disk w; faults := tl (faults w) |})
    else (Resolved tt, {| disk := erase (disk w); faults := tl (faults w) |}).

Definition eraseHasSeenWelcome (s : AsyncStorage) : AsyncStorage :=
  {| logsItem := logsItem s; dailyGoalItem := dailyGoalItem s;
     cigaretteCostItem := cigaretteCostItem s; currencyItem := currencyItem s;
     hasSeenWelcomeItem := None |}.

(** [cost.toString()] of a number that is not an integer. *)
Variable numberToString : Q -> string.

Definition setDailyGoal (goal : Z) : Async unit :=
  tryCatch
    (setItem GOAL_KEY (toString goal))
    (fun error => throw error).

Definition setCigaretteCost (cost : Q) : Async unit :=
  tryCatch
    (setItem COST_KEY (numberToString cost))
    (fun error => throw error).

Definition setCurrency (currency : string) : Async unit :=
  tryCatch
    (setItem CURRENCY_KEY currency)
    (fun error => throw error).

Definition setHasSeenWelcome : Async unit :=
  tryCatch
    (setItem HAS_SEEN_WELCOME_KEY "true"%string)
    (fun error => throw error).

Definition resetWelcome : Async unit :=
  tryCatch
    (removeItem eraseHasSeenWelcome)
    (fun error => throw error).

(** ** app/(tabs)/index.tsx *)

Definition getTimeOfDay (d : Z) : TimeOfDay :=
  let hour := getHours d in
  if (hour >=? 5) && (hour <? 12) then Morning
  else if (hour >=? 12) && (hour <? 17) then Afternoon
  else if (hour >=? 17) && (hour <? 21) then Evening
  else Night.

(** [newTimeStats[timeOfDay]++]. *)
Definition countTimeOfDay (newTimeStats : TimeStats) (timeOfDay : TimeOfDay) : TimeStats :=
  match timeOfDay with
  | Morning =>
      {| morning := S (morning newTimeStats); afternoon := afternoon newTimeStats;
         evening := evening newTimeStats; night := night newTimeStats |}
  | Afternoon =>
      {| morning := morning newTimeStats; afternoon := S (afternoon newTimeStats);
         evening := evening newTimeStats; night := night newTimeStats |}
  | Evening =>
      {| morning := morning newTimeStats; afternoon := afternoon newTimeStats;
         evening := S (evening newTimeStats); night := night newTimeStats |}
  | Night =>
      {| morning := morning newTimeStats; afternoon := afternoon newTimeStats;
         evening := evening newTimeStats; night := S (night newTimeStats) |}
  end.

(** The value [updateTimeStats] hands to [setTimeStats]. *)
Definition updateTimeStats (logs : list CigaretteLog) : TimeStats :=
  fold_left
    (fun newTimeStats log => countTimeOfDay newTimeStats (getTimeOfDay (timestamp log)))
    logs
    {| morning := 0; afternoon := 0; evening := 0; night := 0 |}.

(** The state the handlers of the home screen set from the logs of today. *)
Definition homeOf (logs : list CigaretteLog) (goal : Z) : Home.t :=
  {| Home.count := List.length logs;
     Home.todayLogs := logs;
     Home.dailyGoal := goal;
     Home.timeStats := updateTimeStats logs |}.

(** [loadTodayData]; [now] is [new Date()].  A failure leaves the state as
    it is. *)
Definition loadTodayData (now : Z) (state : Home.t) : Async Home.t :=
  tryCatch
    (logs <- getLogsForDate now ;;
     goal <- getDailyGoal ;;
     ret (homeOf logs goal))
    (fun _ => ret state).

(** [addCigarette]; [now] is the reading of the clock. *)
Definition addCigarette (now : Z) (state : Home.t) : Async Home.t :=
  tryCatch
    (let newLog := {| id := toString now; timestamp := now |} in
     _ <- addLog now (Some newLog) ;;
     let updatedLogs := Home.todayLogs state ++ [newLog] in
     ret (homeOf updatedLogs (Home.dailyGoal state)))
    (fun _ => ret state).

Definition removeCigarette (i : string) (state : Home.t) : Async Home.t :=
  tryCatch
    (_ <- removeLog i ;;
     let updatedLogs :=
       filter (fun log => negb (String.eqb (id log) i)) (Home.todayLogs state) in
     ret (homeOf updatedLogs (Home.dailyGoal state)))
    (fun _ => ret state).

(** The figures of the goal card. *)
Definition goalProgress (count : nat) (dailyGoal : Z) : Q :=
  if dailyGoal >? 0
  then Qmin (inject_Z (Z.of_nat count) / inject_Z dailyGoal) 1
  else 0%Q.

Definition hasExceeded (count : nat) (dailyGoal : Z) : bool :=
  (dailyGoal >? 0) && (Z.of_nat count >? dailyGoal).

Definition remaining (count : nat) (dailyGoal : Z) : Z :=
  Z.max (dailyGoal - Z.of_nat count) 0.

Definition emberOffset (count : nat) (dailyGoal : Z) : Q :=
  Qmin (goalProgress count dailyGoal * 100) 98.

(** The line under the goal card. *)
Inductive GoalLine : Type :=
| StartTomorrow            (* 'No problem, we start tomorrow.' *)
| Left (n : Z)             (* `${remaining} left` *)
| KeepItSteady.            (* 'Alright, lets keep it steady. No more for the day.' *)

Definition goalLine (count : nat) (dailyGoal : Z) : GoalLine :=
  if hasExceeded count dailyGoal then StartTomorrow
  else if remaining count dailyGoal >? 0 then Left (remaining count dailyGoal)
  else KeepItSteady.

(** ** app/welcome.tsx and the index route *)

(** [handleGetStarted]: the route is replaced whether the flag is saved or
    not. *)
Definition handleGetStarted : Async Launch :=
  tryCatch
    (_ <- setHasSeenWelcome ;;
     ret ReplaceWithTabs)
    (fun _ => ret ReplaceWithTabs).

(** [checkWelcome] of the index route, for a value of its constant
    [FORCE_WELCOME]. *)
Definition checkWelcome (forceWelcome : bool) : Async Launch :=
  tryCatch
    (if forceWelcome then ret ShowWelcome
     else
       hasSeen <- hasSeenWelcome ;;
       if negb hasSeen then ret ShowWelcome else ret ReplaceWithTabs)
    (fun _ => ret ReplaceWithTabs).

Definition FORCE_WELCOME : bool := true.

(** ** app/(tabs)/settings.tsx *)

(** The state of the settings screen is the text [inputValue] of its goal
    field; a handler yields the text it leaves there. *)

(** [text.replace(/[^0-9]/g, '')]. *)
Definition isDigit (c : Ascii.ascii) : bool :=
  ((48 <=? Ascii.nat_of_ascii c) && (Ascii.nat_of_ascii c <=? 57))%nat.

Fixpoint digitsOnly (text : string) : string :=
  match text with
  | EmptyString => EmptyString
  | String c rest => if isDigit c then String c (digitsOnly rest) else digitsOnly rest
  end.

Definition loadGoal (inputValue : string) : Async string :=
  tryCatch
    (storedGoal <- getDailyGoal ;;
     ret (toString storedGoal))
    (fun _ => ret inputValue).

Definition onChangeText (text : string) : string := digitsOnly text.

(** The input is set to the text of [next] before the save is awaited, so it
    shows [next] whether or not the save fails. *)
Definition adjustGoal (delta : Z) (inputValue : string) : Async string :=
  let current := orZ (parseInt (digitsOnly inputValue)) 0 in
  let next := Z.max 0 (current + delta) in
  tryCatch
    (_ <- setDailyGoal next ;;
     ret (toString next))
    (fun _ => ret (toString next)).

Definition onBlur (inputValue : string) : Async unit :=
  let parsedGoal := orZ (parseInt inputValue) 0 in
  tryCatch
    (setDailyGoal parsedGoal)
    (fun _ => ret tt).

(** ** app/(tabs)/trends.tsx *)

Definition daysOfRange (timeRange : TimeRange) : Z :=
  match timeRange with
  | week => 7
  | month => 30
  end.

(** [eachDayOfInterval] between two dates at local midnight: the calendar
    days from the first to the last. *)
Definition eachDayOfInterval (startDay endDay : Z) : list Z :=
  map (fun j => startDay + Z.of_nat j) (seq 0 (Z.to_nat (endDay - startDay + 1))).

(** [allDays]: from [startOfDay(subDays(today, days - 1))] to [startOfDay(today)]. *)
Definition allDays (today days : Z) : list Z :=
  eachDayOfInterval (localDay today - (days - 1)) (localDay today).

(** [logsByDay.find(d => d.date.toDateString() === day.toDateString())]. *)
Definition existingOn (logsByDay : list DailyData) (day : Z) : option DailyData :=
  find (fun d => localDay (date d) =? day) logsByDay.

Definition filledData (logsByDay : list DailyData) (days : list Z) : list FilledDay.t :=
  map (fun day =>
         let existing := existingOn logsByDay day in
         {| FilledDay.date := day;
            FilledDay.count := match existing with Some e => count e | None => 0%nat end |})
      days.

(** [x.toFixed(1)] of the double that stands for [x]: the text of the
    multiple of a tenth nearest to [x], the one farther from zero when two
    are as near.  [Number] reads the text back as the double nearest to that
    decimal, which prints as the same text; the statistics hold it as the
    decimal the text writes. *)
Definition toFixed1 (x : Q) : Q :=
  (if Qle_bool 0 x then inject_Z (Qfloor (x * 10 + (1 # 2))) / 10
   else - (inject_Z (Qfloor (- x * 10 + (1 # 2))) / 10))%Q.

Definition trendsTotal (periodData : list FilledDay.t) : nat :=
  fold_left (fun sum day => (sum + FilledDay.count day)%nat) periodData 0%nat.

Definition trendsDailyAverage (periodData : list FilledDay.t) : Q :=
  if (0 <? List.length periodData)%nat
  then toFixed1 (round64 (inject_Z (Z.of_nat (trendsTotal periodData))
                          / inject_Z (Z.of_nat (List.length periodData))))%Q
  else 0%Q.

(** What [loadData] of the trends screen sets: the data of the chart (the
    labels are left out) and the statistics. *)
Record TrendsScreen : Type := { trendsChart : list nat; trendsStats : TrendsStats.t }.

Definition trendsLoadData (today : Z) (timeRange : TimeRange) : Async TrendsScreen :=
  let days := daysOfRange timeRange in
  logsByDay <- getLogsByDay today days ;;
  let filled := filledData logsByDay (allDays today days) in
  let periodData :=
    match timeRange with
    | week => filter (fun d => isThisWeek today (FilledDay.date d)) filled
    | month => filter (fun d => isThisMonth today (FilledDay.date d)) filled
    end in
  ret {| trendsChart := map FilledDay.count filled;
         trendsStats :=
           {| TrendsStats.dailyAverage := trendsDailyAverage periodData;
              TrendsStats.total := trendsTotal periodData;
              TrendsStats.changeFromLastPeriod := 0 |} |}.

(** ** app/(tabs)/costs.tsx *)

(** [spendingData]: one record for each day of [allDays]. *)
Definition spendingData (cost : Q) (logsByDay : list DailyData) (days : list Z)
  : list DailySpending.t :=
  map (fun day =>
         let existing := existingOn logsByDay day in
         let count := match existing with Some e => count e | None => 0%nat end in
         {| DailySpending.date := day;
            DailySpending.count := count;
            DailySpending.amount := round64 (inject_Z (Z.of_nat count) * cost) |})
      days.

Definition totalSpent (periodData : list DailySpending.t) : Q :=
  fold_left (fun sum day => round64 (sum + DailySpending.amount day)) periodData 0%Q.

Definition totalCigarettes (periodData : list DailySpending.t) : nat :=
  fold_left (fun sum day => (sum + DailySpending.count day)%nat) periodData 0%nat.

Definition costsDailyAverage (periodData : list DailySpending.t) : Q :=
  if (0 <? List.length periodData)%nat
  then round64 (totalSpent periodData / inject_Z (Z.of_nat (List.length periodData)))
  else 0%Q.

(** What [loadData] of the costs screen sets: the cost, the values of the
    points of the chart (their labels are left out) and the statistics. *)
Record CostsScreen : Type := {
  cigaretteCost : Q;
  chartData : list Q;
  stats : CostsStats.t
}.

Definition costsLoadData (today : Z) (timeRange : TimeRange) : Async CostsScreen :=
  cost <- getCigaretteCost ;;
  _ <- getCurrency ;;
  if Qeq_bool cost 0
  then ret {| cigaretteCost := cost;
              chartData := [];
              stats := {| CostsStats.totalSpent := 0%Q; CostsStats.dailyAverage := 0%Q;
                          CostsStats.totalCigarettes := 0%nat |} |}
  else
    let days := daysOfRange timeRange in
    logsByDay <- getLogsByDay today days ;;
    let spending := spendingData cost logsByDay (allDays today days) in
    let periodData :=
      match timeRange with
      | week => filter (fun d => isThisWeek today (DailySpending.date d)) spending
      | month => filter (fun d => isThisMonth today (DailySpending.date d)) spending
      end in
    ret {| cigaretteCost := cost;
           chartData := map DailySpending.amount spending;
           stats := {| CostsStats.totalSpent := totalSpent periodData;
                       CostsStats.dailyAverage := costsDailyAverage periodData;
                       CostsStats.totalCigarettes := totalCigarettes periodData |} |}.

(** ** Notions the statements use *)

(** The collection the store holds: what [getLogs] makes of the stored text
    when AsyncStorage answers. *)
Definition storedLogs (s : AsyncStorage) : list CigaretteLog :=
  match logsItem s with
  | Some (LogsJson logs) => logs
  | _ => []
  end.

(** The world after one call of AsyncStorage that wrote nothing. *)
Definition advance (w : World) : World := {| disk := disk w; faults := tl (faults w) |}.

(** No call of AsyncStorage still to come is rejected. *)
Definition noFaults (w : World) : Prop := Forall (fun f => f = false) (faults w).

(** [s] is [l] with some of its elements left out, the others in their order. *)
Inductive Subsequence {A : Type} : list A -> list A -> Prop :=
| Subsequence_nil : Subsequence [] []
| Subsequence_drop (x : A) (s l : list A) : Subsequence s l -> Subsequence s (x :: l)
| Subsequence_keep (x : A) (s l : list A) : Subsequence s l -> Subsequence (x :: s) (x :: l).

Definition CigaretteLog_eq_dec (a b : CigaretteLog) : {a = b} + {a <> b}.
Proof.
  decide equality; [apply Z.eq_dec | apply string_dec].
Defined.

(** How often a log occurs in a collection. *)
Definition occurrences (logs : list CigaretteLog) (log : CigaretteLog) : nat :=
  count_occ CigaretteLog_eq_dec logs log.

(** The local clock of an instant reads [hh:mm]. *)
Definition atClock (d hh mm : Z) : Prop := getHours d = hh /\ getMinutes d = mm.

Definition TimeOfDay_eqb (a b : TimeOfDay) : bool :=
  match a, b with
  | Morning, Morning | Afternoon, Afternoon | Evening, Evening | Night, Night => true
  | _, _ => false
  end.

(** How many of the logs fall into a time of day. *)
Definition logsAt (timeOfDay : TimeOfDay) (logs : list CigaretteLog) : nat :=
  List.length
    (filter (fun log => TimeOfDay_eqb (getTimeOfDay (timestamp log)) timeOfDay) logs).

(** How many of the logs fall on a local calendar day. *)
Definition logsOn (day : Z) (logs : list CigaretteLog) : nat :=
  List.length (filter (fun log => localDay (timestamp log) =? day) logs).

(** The sum of the counts of a sequence of buckets. *)
Definition sumOfCounts (buckets : list DailyData) : nat := list_sum (map count buckets).

(** The date keys the loop visits, in the order of the loop. *)
Definition visitedKeys (today days : Z) : list Z :=
  map (fun i => localDay (today - i * 24 * 60 * 60 * 1000)) (loopIndices days).

(** One log more on the day [dateKey]. *)
Definition bump (dateKey : Z) (kc : Z * nat) : Z * nat :=
  (fst kc, (snd kc + (if (fst kc =? dateKey)%Z then 1 else 0))%nat).

(** The test of the trailing window of [days] calendar days that ends on the
    day of [today]. *)
Definition inWindow (today days : Z) (log : CigaretteLog) : bool :=
  (localDay today - days <? localDay (timestamp log))
  && (localDay (timestamp log) <=? localDay today).

(** The bucket the code makes for a calendar day. *)
Definition bucketOf (logs : list CigaretteLog) (day : Z) : DailyData :=
  {| date := dateOfKey day; count := logsOn day logs |}.

(** The entry [addLog()] makes at a reading of the clock. *)
Definition defaultLog (now : Z) : CigaretteLog := {| id := toString now; timestamp := now |}.

(** [addLog()] called once at each of the given readings of the clock, in
    that order. *)
Fixpoint addLogsAt (nows : list Z) : Async unit :=
  match nows with
  | [] => ret tt
  | now :: later => _ <- addLog now None ;; addLogsAt later
  end.

(** The collection [getLogs] yields in a world. *)
Definition readLogs (w : World) : list CigaretteLog :=
  if nextCallRejects w then [] else storedLogs (disk w).

(** [x] stands for the exact sum [exact] of amounts of at least [cost] each,
    up to the relative error [K] below and [2 * K] above; an exact sum of 0 is
    met exactly. *)
Definition nearTotal (cost K exact x : Q) : Prop :=
  (exact == 0 /\ x == 0)%Q \/
  (cost <= exact /\ exact * (1 - K) <= x <= exact * (1 + 2 * K))%Q.

(** [Number.isSafeInteger]: an integer that a double holds exactly, as it does
    its neighbours; sums of safe integers that are safe are exact, and
    [toString] writes the decimal digits of a safe integer. *)
Definition safeInteger (n : Z) : Prop := - 2 ^ 53 < n < 2 ^ 53.


(** The logs of a collection that fall on the local calendar day of [now]. *)
Definition logsOfToday (now : Z) (logs : list CigaretteLog) : list CigaretteLog :=
  filter (fun log => localDay (timestamp log) =? localDay now) logs.

(** * Properties *)

(** ** The event store *)

Lemma noFaults_next (w : World) : noFaults w -> nextCallRejects w = false.
Proof.
  unfold noFaults, nextCallRejects. destruct (faults w) as [|f fs]; [reflexivity|].
  intros H. inversion H; assumption.
Qed.

Lemma noFaults_tl (s s' : AsyncStorage) (fs : list bool) :
  noFaults {| disk := s; faults := fs |} -> noFaults {| disk := s'; faults := tl fs |}.
Proof.
  unfold noFaults; simpl. destruct fs as [|f fs]; simpl; [trivial|].
  intros H. inversion H; assumption.
Qed.

Lemma noFaults_advance (w : World) : noFaults w -> noFaults (advance w).
Proof.
  destruct w as [s fs]. apply noFaults_tl.
Qed.

(** [getLogs] never rejects: it yields the stored collection, or the empty
    one when the call is rejected or the text is unusable. *)
Lemma getLogs_eq (w : World) :
  getLogs w = (Resolved (if nextCallRejects w then [] else storedLogs (disk w)), advance w).
Proof.
  unfold getLogs, tryCatch, bind, getItem, storedLogs, advance.
  destruct (nextCallRejects w); simpl; [reflexivity|].
  destruct (logsItem (disk w)) as [[logs| |]|]; reflexivity.
Qed.

Lemma saveLogs_eq (logs : list CigaretteLog) (w : World) :
  saveLogs logs w =
  if nextCallRejects w then (Rejected StorageError, advance w)
  else (Resolved tt, {| disk := writeKey STORAGE_KEY (LogsJson logs) (disk w);
                        faults := tl (faults w) |}).
Proof.
  unfold saveLogs, tryCatch, setItem, throw, JSON_stringify, advance.
  destruct (nextCallRejects w); reflexivity.
Qed.

Lemma storedLogs_written (logs : list CigaretteLog) (s : AsyncStorage) :
  storedLogs (writeKey STORAGE_KEY (LogsJson logs) s) = logs.
Proof. reflexivity. Qed.

(** With AsyncStorage answering, [removeLog] filters the stored collection
    and writes the result back. *)
Lemma removeLog_noFaults (i : string) (w : World) :
  noFaults w ->
  let updatedLogs := filter (fun log => negb (String.eqb (id log) i)) (storedLogs (disk w)) in
  removeLog i w =
  (Resolved updatedLogs,
   {| disk := writeKey STORAGE_KEY (LogsJson updatedLogs) (disk w);
      faults := tl (tl (faults w)) |}).
Proof.
  intros Hw updatedLogs. unfold removeLog, tryCatch, bind.
  rewrite getLogs_eq, (noFaults_next w Hw), saveLogs_eq.
  rewrite (noFaults_next _ (noFaults_advance w Hw)). reflexivity.
Qed.

Lemma addLog_noFaults (now : Z) (log : option CigaretteLog) (w : World) :
  noFaults w ->
  let newLog := match log with
                | Some l => l
                | None => {| id := toString now; timestamp := now |}
                end in
  addLog now log w =
  (Resolved (storedLogs (disk w) ++ [newLog]),
   {| disk := writeKey STORAGE_KEY (LogsJson (storedLogs (disk w) ++ [newLog])) (disk w);
      faults := tl (tl (faults w)) |}).
Proof.
  intros Hw newLog. unfold addLog, tryCatch, bind.
  rewrite getLogs_eq, (noFaults_next w Hw), saveLogs_eq.
  rewrite (noFaults_next _ (noFaults_advance w Hw)). reflexivity.
Qed.

Lemma filter_Subsequence {A : Type} (f : A -> bool) (l : list A) :
  Subsequence (filter f l) l.
Proof.
  induction l as [|x l IH]; simpl.
  - constructor.
  - destruct (f x); constructor; exact IH.
Qed.

Lemma occurrences_filter (f : CigaretteLog -> bool) (logs : list CigaretteLog)
      (log : CigaretteLog) :
  f log = true -> occurrences (filter f logs) log = occurrences logs log.
Proof.
  intros Hf. unfold occurrences.
  induction logs as [|x logs IH]; simpl; [reflexivity|].
  destruct (CigaretteLog_eq_dec x log) as [->|Hne].
  - rewrite Hf. simpl. destruct (CigaretteLog_eq_dec log log); congruence.
  - destruct (f x); simpl; [|exact IH].
    destruct (CigaretteLog_eq_dec x log); congruence.
Qed.

Lemma otherId_true (i : string) (log : CigaretteLog) :
  negb (String.eqb (id log) i) = true <-> id log <> i.
Proof.
  rewrite negb_true_iff. split.
  - intros H E. apply String.eqb_eq in E. congruence.
  - intros H. apply String.eqb_neq. exact H.
Qed.

Lemma filter_all {A : Type} (f : A -> bool) (l : list A) :
  (forall x, In x l -> f x = true) -> filter f l = l.
Proof.
  induction l as [|x l IH]; simpl; intros H; [reflexivity|].
  rewrite (H x (or_introl eq_refl)). f_equal. apply IH. intros y Hy. apply H. right; exact Hy.
Qed.

Lemma filter_none {A : Type} (f : A -> bool) (l : list A) :
  (forall x, In x l -> f x = false) -> filter f l = [].
Proof.
  induction l as [|x l IH]; simpl; intros H; [reflexivity|].
  rewrite (H x (or_introl eq_refl)). apply IH. intros y Hy. apply H. right; exact Hy.
Qed.

Lemma filter_twice {A : Type} (f : A -> bool) (l : list A) :
  filter f (filter f l) = filter f l.
Proof.
  apply filter_all. intros x Hx. apply filter_In in Hx. tauto.
Qed.

Lemma occurrences_snoc (logs : list CigaretteLog) (log : CigaretteLog) :
  occurrences (logs ++ [log]) log = S (occurrences logs log).
Proof.
  unfold occurrences. rewrite count_occ_app. simpl.
  destruct (CigaretteLog_eq_dec log log); [lia | congruence].
Qed.

(** C7, as amended.  While AsyncStorage answers: [addLog] followed by
    [getLogs] yields the prior collection with the new entry appended, so the
    new entry occurs once more than before, and it is the only entry with its
    id when no prior entry had that id (the store does not check ids);
    [removeLog(id)] followed by [getLogs] yields a collection whose entries
    are exactly the prior entries with another id. *)
Theorem addLog_removeLog_then_getLogs
        (now : Z) (log : option CigaretteLog) (i : string) (w : World) :
  noFaults w ->
  let prior := storedLogs (disk w) in
  let newLog := match log with
                | Some l => l
                | None => {| id := toString now; timestamp := now |}
                end in
  (exists w1 w2,
      addLog now log w = (Resolved (prior ++ [newLog]), w1) /\
      getLogs w1 = (Resolved (prior ++ [newLog]), w2)) /\
  occurrences (prior ++ [newLog]) newLog = S (occurrences prior newLog) /\
  ((forall l, In l prior -> id l <> id newLog) ->
   filter (fun l => String.eqb (id l) (id newLog)) (prior ++ [newLog]) = [newLog]) /\
  (exists updatedLogs w1 w2,
      removeLog i w = (Resolved updatedLogs, w1) /\
      getLogs w1 = (Resolved updatedLogs, w2) /\
      (forall l, In l updatedLogs <-> In l prior /\ id l <> i)).
Proof.
  intros Hw prior newLog.
  assert (Hw2 : forall s, noFaults {| disk := s; faults := tl (tl (faults w)) |}).
  { intros s. apply (noFaults_tl (disk w)), (noFaults_tl (disk w)).
    destruct w; exact Hw. }
  repeat split.
  - eexists; eexists; split.
    + apply addLog_noFaults; exact Hw.
    + rewrite getLogs_eq, (noFaults_next _ (Hw2 _)). reflexivity.
  - apply occurrences_snoc.
  - intros Hfresh. rewrite filter_app. simpl. rewrite String.eqb_refl.
    rewrite filter_none; [reflexivity|].
    intros x Hx. apply String.eqb_neq. apply Hfresh; exact Hx.
  - eexists; eexists; eexists; split; [|split].
    + apply removeLog_noFaults; exact Hw.
    + rewrite getLogs_eq, (noFaults_next _ (Hw2 _)). reflexivity.
    + intros l. rewrite filter_In, otherId_true. reflexivity.
Qed.

(** C8.  [removeLog] is idempotent: for every stored collection and every
    id, calling [removeLog] twice with the same id fails neither time and
    returns the same collection both times, which is also the collection the
    store holds after each call; for an id that no stored entry has, that
    collection is the stored one, unchanged.  (The calls of AsyncStorage are
    answered; a rejected write is the error of the store, as for [addLog].) *)
Theorem removeLog_twice (i : string) (w : World) :
  noFaults w ->
  exists updatedLogs w1 w2,
    removeLog i w = (Resolved updatedLogs, w1) /\
    removeLog i w1 = (Resolved updatedLogs, w2) /\
    storedLogs (disk w1) = updatedLogs /\
    storedLogs (disk w2) = updatedLogs /\
    ((forall log, In log (storedLogs (disk w)) -> id log <> i) ->
     updatedLogs = storedLogs (disk w)).
Proof.
  intros Hw.
  assert (Hw1 : forall s, noFaults {| disk := s; faults := tl (tl (faults w)) |}).
  { intros s. apply (noFaults_tl (disk w)), (noFaults_tl (disk w)).
    destruct w; exact Hw. }
  eexists; eexists; eexists; split; [|split; [|split; [|split]]].
  - apply removeLog_noFaults; exact Hw.
  - rewrite (removeLog_noFaults i _ (Hw1 _)). cbn [disk faults].
    rewrite storedLogs_written, filter_twice. reflexivity.
  - reflexivity.
  - cbn [disk]. rewrite storedLogs_written. reflexivity.
  - intros Habsent. apply filter_all.
    intros x Hx. apply otherId_true. apply Habsent; exact Hx.
Qed.

(** C9.  Read operations never fail the caller: [getLogs] and the getters
    of the preferences resolve in every world; when the call of AsyncStorage
    is rejected or nothing is stored under the key (for the logs, also when
    the stored text is empty or not JSON), [getLogs] yields the empty
    collection, [getDailyGoal] and [getCigaretteCost] their defaults,
    [getCurrency] [null] and [hasSeenWelcome] [false]. *)
Theorem reads_never_fail (w : World) :
  (exists logs, getLogs w = (Resolved logs, advance w)) /\
  (exists goal, getDailyGoal w = (Resolved goal, advance w)) /\
  (exists cost, getCigaretteCost w = (Resolved cost, advance w)) /\
  (exists currency, getCurrency w = (Resolved currency, advance w)) /\
  (exists seen, hasSeenWelcome w = (Resolved seen, advance w)) /\
  (nextCallRejects w = true \/ logsItem (disk w) = None \/
   logsItem (disk w) = Some EmptyText \/ logsItem (disk w) = Some Garbled ->
   fst (getLogs w) = Resolved []) /\
  (nextCallRejects w = true \/ dailyGoalItem (disk w) = None ->
   fst (getDailyGoal w) = Resolved DEFAULT_GOAL) /\
  (nextCallRejects w = true \/ cigaretteCostItem (disk w) = None ->
   fst (getCigaretteCost w) = Resolved DEFAULT_COST) /\
  (nextCallRejects w = true \/ currencyItem (disk w) = None ->
   fst (getCurrency w) = Resolved None) /\
  (nextCallRejects w = true \/ hasSeenWelcomeItem (disk w) = None ->
   fst (hasSeenWelcome w) = Resolved false).
Proof.
  unfold getDailyGoal, getCigaretteCost, getCurrency, hasSeenWelcome,
    tryCatch, bind, getItem, ret, advance.
  rewrite getLogs_eq. unfold storedLogs, advance.
  destruct (nextCallRejects w); simpl.
  - repeat split; eauto.
  - repeat split; eauto.
    + intros [H|[H|[H|H]]]; [discriminate| | |]; rewrite H; reflexivity.
    + intros [H|H]; [discriminate|]; rewrite H; reflexivity.
    + intros [H|H]; [discriminate|]; rewrite H; reflexivity.
    + intros [H|H]; [discriminate|]; rewrite H; reflexivity.
    + intros [H|H]; [discriminate|]; rewrite H; reflexivity.
Qed.

(** C10.  [removeLog(id)] removes every entry whose id is the argument, not
    just the first: the returned (and stored) collection holds no entry with
    that id, it is a subsequence of the prior collection, and every entry with
    another id occurs in it as often as before. *)
Theorem removeLog_removes_every_match (i : string) (w : World) :
  noFaults w ->
  exists updatedLogs w',
    removeLog i w = (Resolved updatedLogs, w') /\
    storedLogs (disk w') = updatedLogs /\
    (forall log, In log updatedLogs -> id log <> i) /\
    Subsequence updatedLogs (storedLogs (disk w)) /\
    (forall log, id log <> i ->
                 occurrences updatedLogs log = occurrences (storedLogs (disk w)) log).
Proof.
  intros Hw. eexists; eexists; split; [|split; [|split; [|split]]].
  - apply removeLog_noFaults; exact Hw.
  - reflexivity.
  - intros log Hin. apply filter_In in Hin. apply otherId_true. exact (proj2 Hin).
  - apply filter_Subsequence.
  - intros log Hid. apply occurrences_filter. apply otherId_true. exact Hid.
Qed.

(** ** The event store: preferences, failures, round trips *)

Lemma to_int_proper (n : Z) :
  Z.to_int n <> Decimal.Pos Decimal.Nil /\ Z.to_int n <> Decimal.Neg Decimal.Nil.
Proof.
  destruct n as [|p|p]; simpl; split; try discriminate; intros H; injection H as H;
    apply (DecimalPos.Unsigned.to_uint_nonnil p); exact H.
Qed.

Lemma int_of_toString (n : Z) : NilZero.int_of_string (toString n) = Some (Z.to_int n).
Proof.
  unfold toString. apply NilZero.isi; apply to_int_proper.
Qed.

Lemma toString_inj (n m : Z) : toString n = toString m -> n = m.
Proof.
  intros H. apply to_int_inj.
  pose proof (int_of_toString n) as Hn. rewrite H, int_of_toString in Hn. congruence.
Qed.

Lemma toString_truthy (n : Z) : truthyString (toString n) = true.
Proof.
  unfold truthyString. apply negb_true_iff. apply String.eqb_neq. intros H.
  pose proof (int_of_toString n) as Hn. rewrite H in Hn. discriminate Hn.
Qed.

Lemma noFaults_written {A : Type} (key : Key A) (value : A) (w : World) :
  noFaults w -> noFaults {| disk := writeKey key value (disk w); faults := tl (faults w) |}.
Proof.
  intros H. apply (noFaults_tl (disk w)). destruct w; exact H.
Qed.

(** X4.  While AsyncStorage answers, [setDailyGoal(goal)] followed by
    [getDailyGoal] yields [goal] for a safe integer [goal] (given that
    [parseInt] reads the decimal text of [goal] back), [setCurrency(c)]
    followed by [getCurrency] yields [c], and neither setter touches the
    stored logs. *)
Theorem setDailyGoal_then_getDailyGoal (goal : Z) (currency : string) (w : World) :
  noFaults w ->
  safeInteger goal ->
  parseInt (toString goal) = Some goal ->
  (exists w1 w2,
      setDailyGoal goal w = (Resolved tt, w1) /\
      getDailyGoal w1 = (Resolved goal, w2) /\
      storedLogs (disk w1) = storedLogs (disk w)) /\
  (exists w1 w2,
      setCurrency currency w = (Resolved tt, w1) /\
      getCurrency w1 = (Resolved (Some currency), w2) /\
      storedLogs (disk w1) = storedLogs (disk w)).
Proof.
  intros Hw _ Hparse. split.
  - eexists; eexists. split; [|split].
    + unfold setDailyGoal, tryCatch, setItem. rewrite (noFaults_next w Hw). reflexivity.
    + unfold getDailyGoal, tryCatch, bind, getItem, ret.
      rewrite (noFaults_next _ (noFaults_written GOAL_KEY (toString goal) w Hw)).
      cbn [disk readKey writeKey GOAL_KEY dailyGoalItem faults].
      rewrite toString_truthy, Hparse. unfold orZ, DEFAULT_GOAL.
      destruct (Z.eqb_spec goal 0) as [->|_]; reflexivity.
    + reflexivity.
  - eexists; eexists. split; [|split].
    + unfold setCurrency, tryCatch, setItem. rewrite (noFaults_next w Hw). reflexivity.
    + unfold getCurrency, tryCatch, getItem, ret.
      rewrite (noFaults_next _ (noFaults_written CURRENCY_KEY currency w Hw)). reflexivity.
    + reflexivity.
Qed.

(** X5.  While AsyncStorage answers, [setCigaretteCost(cost)] followed by
    [getCigaretteCost] yields a number equal to [cost], given that the text
    of [cost] is not empty and [parseFloat] reads it back. *)
Theorem setCigaretteCost_then_getCigaretteCost (cost : Q) (w : World) :
  noFaults w ->
  numberToString cost <> EmptyString ->
  parseFloat (numberToString cost) = Some cost ->
  exists stored w1 w2,
    setCigaretteCost cost w = (Resolved tt, w1) /\
    getCigaretteCost w1 = (Resolved stored, w2) /\
    (stored == cost)%Q.
Proof.
  intros Hw Htext Hparse.
  assert (Htruthy : truthyString (numberToString cost) = true).
  { unfold truthyString. apply negb_true_iff, String.eqb_neq. exact Htext. }
  eexists; eexists; eexists. split; [|split].
  - unfold setCigaretteCost, tryCatch, setItem. rewrite (noFaults_next w Hw). reflexivity.
  - unfold getCigaretteCost, tryCatch, bind, getItem, ret.
    rewrite (noFaults_next _ (noFaults_written COST_KEY (numberToString cost) w Hw)).
    cbn [disk readKey writeKey COST_KEY cigaretteCostItem faults].
    rewrite Htruthy, Hparse. reflexivity.
  - unfold orQ, DEFAULT_COST. destruct (Qeq_bool cost 0) eqn:E.
    + apply Qeq_bool_iff in E. symmetry. exact E.
    + reflexivity.
Qed.

(** X6.  While AsyncStorage answers, [hasSeenWelcome] yields [true] after
    [setHasSeenWelcome] and [false] after [resetWelcome], whatever was stored
    before. *)
Theorem welcome_flag_round_trip (w : World) :
  noFaults w ->
  (exists w1 w2,
      setHasSeenWelcome w = (Resolved tt, w1) /\
      hasSeenWelcome w1 = (Resolved true, w2)) /\
  (exists w1 w2,
      resetWelcome w = (Resolved tt, w1) /\
      hasSeenWelcome w1 = (Resolved false, w2)).
Proof.
  intros Hw. split.
  - eexists; eexists. split.
    + unfold setHasSeenWelcome, tryCatch, setItem. rewrite (noFaults_next w Hw). reflexivity.
    + unfold hasSeenWelcome, tryCatch, bind, getItem, ret.
      rewrite (noFaults_next _ (noFaults_written HAS_SEEN_WELCOME_KEY "true"%string w Hw)).
      reflexivity.
  - eexists; eexists. split.
    + unfold resetWelcome, tryCatch, removeItem. rewrite (noFaults_next w Hw). reflexivity.
    + unfold hasSeenWelcome, tryCatch, bind, getItem, ret.
      assert (Hq : nextCallRejects {| disk := eraseHasSeenWelcome (disk w);
                                      faults := tl (faults w) |} = false).
      { apply noFaults_next. apply (noFaults_tl (disk w)). destruct w; exact Hw. }
      rewrite Hq. reflexivity.
Qed.

(** X7.  A rejected write is passed on and changes nothing: when the call
    of AsyncStorage is rejected, [saveLogs] and every setter reject with the
    error of the call and the stored items stay as they were; [addLog] and
    [removeLog], whose write is their second call, do the same when that
    call is rejected. *)
Theorem rejected_write_changes_nothing
        (logs : list CigaretteLog) (goal : Z) (cost : Q) (currency i : string)
        (now : Z) (log : option CigaretteLog) (w : World) :
  (nextCallRejects w = true ->
   saveLogs logs w = (Rejected StorageError, advance w) /\
   setDailyGoal goal w = (Rejected StorageError, advance w) /\
   setCigaretteCost cost w = (Rejected StorageError, advance w) /\
   setCurrency currency w = (Rejected StorageError, advance w) /\
   setHasSeenWelcome w = (Rejected StorageError, advance w) /\
   resetWelcome w = (Rejected StorageError, advance w)) /\
  (nextCallRejects (advance w) = true ->
   addLog now log w = (Rejected StorageError, advance (advance w)) /\
   removeLog i w = (Rejected StorageError, advance (advance w))) /\
  disk (advance w) = disk w.
Proof.
  split; [|split].
  - intros H.
    unfold saveLogs, setDailyGoal, setCigaretteCost, setCurrency, setHasSeenWelcome,
      resetWelcome, tryCatch, setItem, removeItem, throw, advance.
    rewrite H. repeat split.
  - intros H. unfold addLog, removeLog, tryCatch, bind. rewrite getLogs_eq, !saveLogs_eq, H.
    split; reflexivity.
  - reflexivity.
Qed.

(** X8.  When the read inside [addLog] or [removeLog] is rejected and the
    write goes through, the stored collection is overwritten: after [addLog]
    the store holds the new entry alone, after [removeLog] it holds no entry,
    whatever it held before. *)
Theorem rejected_read_overwrites_the_store
        (now : Z) (log : option CigaretteLog) (i : string) (w : World) :
  nextCallRejects w = true ->
  nextCallRejects (advance w) = false ->
  let newLog := match log with Some l => l | None => defaultLog now end in
  (exists w', addLog now log w = (Resolved [newLog], w') /\ storedLogs (disk w') = [newLog]) /\
  (exists w', removeLog i w = (Resolved [], w') /\ storedLogs (disk w') = []).
Proof.
  intros Hread Hwrite newLog. split.
  - eexists. unfold addLog, tryCatch, bind. rewrite getLogs_eq, Hread, saveLogs_eq, Hwrite.
    split; reflexivity.
  - eexists. unfold removeLog, tryCatch, bind. rewrite getLogs_eq, Hread, saveLogs_eq, Hwrite.
    split; reflexivity.
Qed.

(** X9.  While AsyncStorage answers, adding an entry whose id no stored
    entry has and then removing that id gives back the collection as it was,
    in the result of [removeLog] and in the store. *)
Theorem addLog_then_removeLog_restores (now : Z) (log : option CigaretteLog) (w : World) :
  noFaults w ->
  let newLog := match log with Some l => l | None => defaultLog now end in
  (forall l, In l (storedLogs (disk w)) -> id l <> id newLog) ->
  exists w1 w2,
    addLog now log w = (Resolved (storedLogs (disk w) ++ [newLog]), w1) /\
    removeLog (id newLog) w1 = (Resolved (storedLogs (disk w)), w2) /\
    storedLogs (disk w2) = storedLogs (disk w).
Proof.
  intros Hw newLog Hfresh. unfold defaultLog in *. subst newLog.
  set (newLog := match log with
                 | Some l => l
                 | None => {| id := toString now; timestamp := now |}
                 end) in *.
  assert (Hw1 : forall s, noFaults {| disk := s; faults := tl (tl (faults w)) |}).
  { intros s0. apply (noFaults_tl (disk w)), (noFaults_tl (disk w)). destruct w; exact Hw. }
  assert (Hfilter : filter (fun l => negb (String.eqb (id l) (id newLog)))
                           (storedLogs (disk w) ++ [newLog]) = storedLogs (disk w)).
  { rewrite filter_app. cbn [filter]. rewrite String.eqb_refl. cbn [negb].
    rewrite app_nil_r. apply filter_all. intros x Hx. apply otherId_true, Hfresh, Hx. }
  eexists; eexists. split; [|split].
  - apply addLog_noFaults; exact Hw.
  - rewrite (removeLog_noFaults _ _ (Hw1 _)). cbn [disk faults].
    rewrite storedLogs_written. fold newLog. rewrite Hfilter. reflexivity.
  - cbn [disk]. rewrite storedLogs_written. reflexivity.
Qed.

Lemma filter_swap {A : Type} (f g : A -> bool) (l : list A) :
  filter f (filter g l) = filter g (filter f l).
Proof.
  induction l as [|x l IH]; simpl; [reflexivity|].
  destruct (f x) eqn:Ef; destruct (g x) eqn:Eg; simpl; rewrite ?Ef, ?Eg, IH; reflexivity.
Qed.

(** X10.  While AsyncStorage answers, removing two ids one after the other
    leaves the same collection in either order. *)
Theorem removeLog_order_is_irrelevant (a b : string) (w : World) :
  noFaults w ->
  exists la lab lb lba w1 w2 w3 w4,
    removeLog a w = (Resolved la, w1) /\ removeLog b w1 = (Resolved lab, w2) /\
    removeLog b w = (Resolved lb, w3) /\ removeLog a w3 = (Resolved lba, w4) /\
    lab = lba /\
    storedLogs (disk w2) = lab /\ storedLogs (disk w4) = lba.
Proof.
  intros Hw.
  assert (Hw1 : forall s, noFaults {| disk := s; faults := tl (tl (faults w)) |}).
  { intros s0. apply (noFaults_tl (disk w)), (noFaults_tl (disk w)). destruct w; exact Hw. }
  do 8 eexists. split; [|split; [|split; [|split; [|split; [|split]]]]].
  - apply removeLog_noFaults; exact Hw.
  - rewrite (removeLog_noFaults _ _ (Hw1 _)). cbn [disk faults].
    rewrite storedLogs_written. reflexivity.
  - apply removeLog_noFaults; exact Hw.
  - rewrite (removeLog_noFaults _ _ (Hw1 _)). cbn [disk faults].
    rewrite storedLogs_written. reflexivity.
  - apply filter_swap.
  - reflexivity.
  - reflexivity.
Qed.

Lemma addLogsAt_noFaults (nows : list Z) (w : World) :
  noFaults w ->
  exists w',
    addLogsAt nows w = (Resolved tt, w') /\
    storedLogs (disk w') = storedLogs (disk w) ++ map defaultLog nows.
Proof.
  revert w. induction nows as [|now later IH]; intros w Hw.
  - exists w. split; [reflexivity|]. simpl. symmetry. apply app_nil_r.
  - cbn [addLogsAt]. unfold bind. rewrite (addLog_noFaults now None w Hw).
    destruct (IH {| disk := writeKey STORAGE_KEY
                              (LogsJson (storedLogs (disk w) ++ [defaultLog now])) (disk w);
                    faults := tl (tl (faults w)) |}) as (w' & Hrun & Hstored).
    { apply (noFaults_tl (disk w)), (noFaults_tl (disk w)). destruct w; exact Hw. }
    exists w'. split; [exact Hrun|]. rewrite Hstored. cbn [disk].
    rewrite storedLogs_written, <- app_assoc. reflexivity.
Qed.

(** X11.  Entries that [addLog()] makes at different readings of the clock
    have different ids.  So, while AsyncStorage answers, calling [addLog()]
    at pairwise different readings on a collection with pairwise different
    ids, none of them the decimal text of one of the readings, appends one
    entry for each reading and keeps the ids pairwise different. *)
Theorem addLog_at_distinct_instants_keeps_ids_distinct (nows : list Z) (w : World) :
  noFaults w ->
  NoDup nows ->
  NoDup (map id (storedLogs (disk w))) ->
  (forall now l, In now nows -> In l (storedLogs (disk w)) -> id l <> toString now) ->
  exists w',
    addLogsAt nows w = (Resolved tt, w') /\
    storedLogs (disk w') = storedLogs (disk w) ++ map defaultLog nows /\
    NoDup (map id (storedLogs (disk w'))).
Proof.
  intros Hw Hnows Hids Hfresh.
  destruct (addLogsAt_noFaults nows w Hw) as (w' & Hrun & Hstored).
  exists w'. split; [exact Hrun|]. split; [exact Hstored|].
  rewrite Hstored, map_app, map_map. cbn [defaultLog id].
  apply NoDup_app; [exact Hids | |].
  - apply Injective_map_NoDup; [|exact Hnows]. intros x y. apply toString_inj.
  - intros text Hold Hnew. apply in_map_iff in Hold. destruct Hold as (l & <- & Hl).
    apply in_map_iff in Hnew. destruct Hnew as (now & Heq & Hnow).
    apply (Hfresh now l Hnow Hl). symmetry. exact Heq.
Qed.

(** X12.  [getLogsForDate] never fails.  It yields the logs read from the
    store that fall on the local calendar day of the date, in their stored order
    and as often as stored, so it yields the same for two dates of one local
    day; the empty collection when the read is rejected. *)
Theorem getLogsForDate_logs_of_the_local_day (d d' : Z) (w : World) :
  exists logs,
    getLogsForDate d w = (Resolved logs, advance w) /\
    Subsequence logs (readLogs w) /\
    (forall l, In l logs -> localDay (timestamp l) = localDay d) /\
    (forall l, localDay (timestamp l) = localDay d ->
               occurrences logs l = occurrences (readLogs w) l) /\
    List.length logs = logsOn (localDay d) (readLogs w) /\
    (localDay d' = localDay d -> getLogsForDate d' w = (Resolved logs, advance w)).
Proof.
  eexists. split; [|split; [|split; [|split; [|split]]]].
  - unfold getLogsForDate, tryCatch, bind. rewrite getLogs_eq. reflexivity.
  - apply filter_Subsequence.
  - intros l Hl. apply filter_In in Hl. apply Z.eqb_eq. exact (proj2 Hl).
  - intros l Hl. apply occurrences_filter. apply Z.eqb_eq. exact Hl.
  - reflexivity.
  - intros Hsame. unfold getLogsForDate, tryCatch, bind. rewrite getLogs_eq, Hsame.
    reflexivity.
Qed.

(** ** The home screen: times of day *)

Lemma getHours_range (d : Z) : 0 <= getHours d < 24.
Proof.
  unfold getHours.
  assert (H : 0 <= (d + tz d) mod msPerDay < msPerDay)
    by (apply Z.mod_pos_bound; reflexivity).
  split.
  - apply Z.div_pos; [exact (proj1 H) | reflexivity].
  - apply Z.div_lt_upper_bound; [reflexivity|]. exact (proj2 H).
Qed.

Lemma getTimeOfDay_cases (d : Z) :
  (5 <= getHours d < 12 /\ getTimeOfDay d = Morning) \/
  (12 <= getHours d < 17 /\ getTimeOfDay d = Afternoon) \/
  (17 <= getHours d < 21 /\ getTimeOfDay d = Evening) \/
  ((21 <= getHours d \/ getHours d < 5) /\ getTimeOfDay d = Night).
Proof.
  unfold getTimeOfDay. cbv zeta. generalize (getHours d) as hour. intros hour.
  rewrite !Z.geb_leb.
  destruct (Z.leb_spec 5 hour); destruct (Z.ltb_spec hour 12);
    destruct (Z.leb_spec 12 hour); destruct (Z.ltb_spec hour 17);
    destruct (Z.leb_spec 17 hour); destruct (Z.ltb_spec hour 21); cbn;
    solve [ exfalso; lia
          | left; split; [lia | reflexivity]
          | right; left; split; [lia | reflexivity]
          | right; right; left; split; [lia | reflexivity]
          | right; right; right; split; [lia | reflexivity] ].
Qed.

Lemma countTimeOfDay_fold (logs : list CigaretteLog) (s : TimeStats) :
  let s' := fold_left
              (fun newTimeStats log =>
                 countTimeOfDay newTimeStats (getTimeOfDay (timestamp log)))
              logs s in
  morning s' = (morning s + logsAt Morning logs)%nat /\
  afternoon s' = (afternoon s + logsAt Afternoon logs)%nat /\
  evening s' = (evening s + logsAt Evening logs)%nat /\
  night s' = (night s + logsAt Night logs)%nat.
Proof.
  revert s. unfold logsAt.
  induction logs as [|log logs IH]; intros s; cbn [fold_left filter List.length].
  - cbv zeta. repeat split; lia.
  - specialize (IH (countTimeOfDay s (getTimeOfDay (timestamp log)))).
    cbv zeta in IH |- *. destruct IH as (Hm & Ha & He & Hn).
    rewrite Hm, Ha, He, Hn.
    destruct (getTimeOfDay (timestamp log)); cbn; repeat split; lia.
Qed.

Lemma logsAt_total (logs : list CigaretteLog) :
  (logsAt Morning logs + logsAt Afternoon logs + logsAt Evening logs
   + logsAt Night logs = List.length logs)%nat.
Proof.
  unfold logsAt. induction logs as [|log logs IH]; [reflexivity|].
  cbn [filter List.length].
  destruct (getTimeOfDay (timestamp log)); cbn; lia.
Qed.

(** C5.  [getTimeOfDay] puts an instant into exactly one of four buckets by
    its local hour: [5,12) morning, [12,17) afternoon, [17,21) evening, and
    night for the other hours, [21,24) and [0,5); so 4:59 is night, 5:00
    morning, 11:59 morning, 12:00 afternoon, 16:59 afternoon, 17:00 evening,
    20:59 evening and 21:00 night.  [updateTimeStats] counts every entry in
    the bucket of its hour, and in no other. *)
Theorem getTimeOfDay_fixed_boundaries (d : Z) (logs : list CigaretteLog) :
  0 <= getHours d < 24 /\
  (getTimeOfDay d = Morning <-> 5 <= getHours d < 12) /\
  (getTimeOfDay d = Afternoon <-> 12 <= getHours d < 17) /\
  (getTimeOfDay d = Evening <-> 17 <= getHours d < 21) /\
  (getTimeOfDay d = Night <-> 21 <= getHours d < 24 \/ 0 <= getHours d < 5) /\
  (atClock d 4 59 -> getTimeOfDay d = Night) /\
  (atClock d 5 0 -> getTimeOfDay d = Morning) /\
  (atClock d 11 59 -> getTimeOfDay d = Morning) /\
  (atClock d 12 0 -> getTimeOfDay d = Afternoon) /\
  (atClock d 16 59 -> getTimeOfDay d = Afternoon) /\
  (atClock d 17 0 -> getTimeOfDay d = Evening) /\
  (atClock d 20 59 -> getTimeOfDay d = Evening) /\
  (atClock d 21 0 -> getTimeOfDay d = Night) /\
  morning (updateTimeStats logs) = logsAt Morning logs /\
  afternoon (updateTimeStats logs) = logsAt Afternoon logs /\
  evening (updateTimeStats logs) = logsAt Evening logs /\
  night (updateTimeStats logs) = logsAt Night logs /\
  (morning (updateTimeStats logs) + afternoon (updateTimeStats logs)
   + evening (updateTimeStats logs) + night (updateTimeStats logs)
   = List.length logs)%nat.
Proof.
  pose proof (getHours_range d) as Hr.
  pose proof (getTimeOfDay_cases d) as Hc.
  pose proof (countTimeOfDay_fold logs
                {| morning := 0; afternoon := 0; evening := 0; night := 0 |}) as Hf.
  cbv zeta in Hf. fold (updateTimeStats logs) in Hf. cbn [morning afternoon evening night] in Hf.
  destruct Hf as (Hm & Ha & He & Hn).
  pose proof (logsAt_total logs) as Ht.
  unfold atClock.
  repeat match goal with |- _ /\ _ => split end;
    try (intros [Hh _]);
    try solve [ lia
              | destruct Hc as [[? E]|[[? E]|[[? E]|[? E]]]]; rewrite E;
                split; (discriminate || lia || reflexivity || (intros; lia))
              | destruct Hc as [[? E]|[[? E]|[[? E]|[? E]]]]; rewrite E;
                (reflexivity || lia) ].
Qed.

(** ** The home screen: state and goal card *)



Lemma getDailyGoal_resolves (w : World) :
  exists goal, getDailyGoal w = (Resolved goal, advance w).
Proof.
  unfold getDailyGoal, tryCatch, bind, getItem, ret, advance.
  destruct (nextCallRejects w); eexists; reflexivity.
Qed.

Lemma loadTodayData_eq (now : Z) (state : Home.t) (w : World) :
  exists goal,
    getDailyGoal (advance w) = (Resolved goal, advance (advance w)) /\
    loadTodayData now state w
    = (Resolved (homeOf (logsOfToday now (readLogs w)) goal), advance (advance w)).
Proof.
  destruct (getDailyGoal_resolves (advance w)) as [goal Hgoal].
  exists goal. split; [exact Hgoal|].
  unfold loadTodayData, getLogsForDate, tryCatch, bind. rewrite getLogs_eq.
  unfold ret at 1. rewrite Hgoal. reflexivity.
Qed.


(** X16.  While AsyncStorage answers, the list of the home screen stays the
    list of the stored logs of today.  [loadTodayData] makes it so; if it is
    so, then after [addCigarette] at an instant of the same local day, and
    after [removeCigarette], it is so again for the store as it then is, and
    [addCigarette] raises the count by one. *)
Theorem home_list_follows_the_store (now : Z) (i : string) (state : Home.t) (w : World) :
  noFaults w ->
  (exists state' w',
      loadTodayData now state w = (Resolved state', w') /\
      Home.todayLogs state' = logsOfToday now (storedLogs (disk w'))) /\
  (Home.todayLogs state = logsOfToday now (storedLogs (disk w)) ->
   (exists state' w',
       addCigarette now state w = (Resolved state', w') /\
       Home.todayLogs state' = logsOfToday now (storedLogs (disk w')) /\
       Home.count state' = S (List.length (Home.todayLogs state))) /\
   (exists state' w',
       removeCigarette i state w = (Resolved state', w') /\
       Home.todayLogs state' = logsOfToday now (storedLogs (disk w')))).
Proof.
  intros Hw. split.
  - destruct (loadTodayData_eq now state w) as (goal & _ & Hload).
    eexists; eexists. split; [exact Hload|].
    unfold readLogs. rewrite (noFaults_next w Hw). reflexivity.
  - intros Hsync. split.
    + unfold addCigarette, tryCatch, bind. cbv zeta.
      rewrite (addLog_noFaults now (Some {| id := toString now; timestamp := now |}) w Hw).
      eexists; eexists. split; [reflexivity|]. split.
      * cbn [disk homeOf Home.todayLogs]. rewrite storedLogs_written, Hsync.
        unfold logsOfToday. rewrite filter_app. cbn [filter timestamp].
        rewrite Z.eqb_refl. reflexivity.
      * cbn [homeOf Home.count]. rewrite length_app. cbn [List.length]. lia.
    + unfold removeCigarette, tryCatch, bind. cbv zeta.
      rewrite (removeLog_noFaults i w Hw).
      eexists; eexists. split; [reflexivity|].
      cbn [disk homeOf Home.todayLogs]. rewrite storedLogs_written, Hsync.
      unfold logsOfToday. apply filter_swap.
Qed.

Lemma goalProgress_positive_goal (count : nat) (dailyGoal : Z) :
  0 < dailyGoal ->
  goalProgress count dailyGoal
  = Qmin (inject_Z (Z.of_nat count) / inject_Z dailyGoal) 1.
Proof.
  intros H. unfold goalProgress.
  destruct (Z.gtb_spec dailyGoal 0); [reflexivity | lia].
Qed.

Lemma goalProgress_range (count : nat) (dailyGoal : Z) :
  (0 <= goalProgress count dailyGoal)%Q /\ (goalProgress count dailyGoal <= 1)%Q.
Proof.
  unfold goalProgress. destruct (Z.gtb_spec dailyGoal 0) as [Hpos|Hnot].
  - split; [|apply Q.le_min_r].
    apply Q.min_glb; [|discriminate].
    apply Qle_shift_div_l.
    + change 0%Q with (inject_Z 0). rewrite <- Zlt_Qlt. exact Hpos.
    + rewrite Qmult_0_l. change 0%Q with (inject_Z 0). rewrite <- Zle_Qle. lia.
  - split; discriminate.
Qed.

(** X17.  The figures of the goal card.  The progress lies between 0 and 1,
    the offset of the ember between 0 and 98, and what remains is never
    negative.  With a goal above 0: below the goal the card says how many are
    left, goal minus count, and the progress is below 1; at the goal it says to
    keep it steady and the progress is 1; above the goal it says to start
    tomorrow, the progress stays 1 and nothing remains.  With no goal (0 or
    below) the progress is 0 and the goal is never exceeded. *)
Theorem goal_card_figures (count : nat) (dailyGoal : Z) :
  (0 <= goalProgress count dailyGoal <= 1)%Q /\
  (0 <= emberOffset count dailyGoal <= 98)%Q /\
  0 <= remaining count dailyGoal /\
  (dailyGoal <= 0 ->
   goalProgress count dailyGoal = 0%Q /\ hasExceeded count dailyGoal = false) /\
  (0 < dailyGoal -> Z.of_nat count < dailyGoal ->
   goalLine count dailyGoal = Left (dailyGoal - Z.of_nat count) /\
   (goalProgress count dailyGoal < 1)%Q /\ hasExceeded count dailyGoal = false) /\
  (0 < dailyGoal -> Z.of_nat count = dailyGoal ->
   goalLine count dailyGoal = KeepItSteady /\
   (goalProgress count dailyGoal == 1)%Q /\ hasExceeded count dailyGoal = false) /\
  (0 < dailyGoal -> dailyGoal < Z.of_nat count ->
   goalLine count dailyGoal = StartTomorrow /\
   (goalProgress count dailyGoal == 1)%Q /\ remaining count dailyGoal = 0).
Proof.
  pose proof (goalProgress_range count dailyGoal) as [Hlow Hhigh].
  split; [split; assumption|]. split; [|split; [|split; [|split; [|split]]]].
  - unfold emberOffset. split; [|apply Q.le_min_r].
    apply Q.min_glb; [|discriminate].
    setoid_replace 0%Q with (0 * 100)%Q by reflexivity.
    apply Qmult_le_compat_r; [exact Hlow | discriminate].
  - unfold remaining. lia.
  - intros Hgoal. unfold goalProgress, hasExceeded.
    destruct (Z.gtb_spec dailyGoal 0); [lia|]. split; reflexivity.
  - intros Hgoal Hbelow.
    assert (Hexceeded : hasExceeded count dailyGoal = false).
    { unfold hasExceeded. destruct (Z.gtb_spec (Z.of_nat count) dailyGoal); [lia|].
      apply andb_false_r. }
    split; [|split; [|exact Hexceeded]].
    + unfold goalLine. rewrite Hexceeded. unfold remaining.
      rewrite Z.max_l by lia. destruct (Z.gtb_spec (dailyGoal - Z.of_nat count) 0); [reflexivity|lia].
    + rewrite goalProgress_positive_goal by exact Hgoal.
      eapply Qle_lt_trans; [apply Q.le_min_l|].
      apply Qlt_shift_div_r.
      * change 0%Q with (inject_Z 0). rewrite <- Zlt_Qlt. exact Hgoal.
      * rewrite Qmult_1_l. rewrite <- Zlt_Qlt. exact Hbelow.
  - intros Hgoal Hat.
    assert (Hexceeded : hasExceeded count dailyGoal = false).
    { unfold hasExceeded. destruct (Z.gtb_spec (Z.of_nat count) dailyGoal); [lia|].
      apply andb_false_r. }
    split; [|split; [|exact Hexceeded]].
    + unfold goalLine. rewrite Hexceeded. unfold remaining.
      rewrite Z.max_r by lia. reflexivity.
    + rewrite goalProgress_positive_goal by exact Hgoal.
      apply Q.min_r. apply Qle_shift_div_l.
      * change 0%Q with (inject_Z 0). rewrite <- Zlt_Qlt. exact Hgoal.
      * rewrite Qmult_1_l. rewrite <- Zle_Qle. lia.
  - intros Hgoal Habove. split; [|split].
    + unfold goalLine, hasExceeded.
      destruct (Z.gtb_spec dailyGoal 0); [|lia].
      destruct (Z.gtb_spec (Z.of_nat count) dailyGoal); [reflexivity|lia].
    + rewrite goalProgress_positive_goal by exact Hgoal.
      apply Q.min_r. apply Qle_shift_div_l.
      * change 0%Q with (inject_Z 0). rewrite <- Zlt_Qlt. exact Hgoal.
      * rewrite Qmult_1_l. rewrite <- Zle_Qle. lia.
    + unfold remaining. lia.
Qed.

(** ** The welcome screen and the index route *)

(** X18.  [handleGetStarted] replaces the route in every world, also when
    the flag cannot be saved.  With [FORCE_WELCOME] as it is set, [true], the
    index route shows the welcome screen in every world and makes no call of
    AsyncStorage, also right after [handleGetStarted].  With the constant
    [false] the route never fails, and it goes to the tabs exactly when the
    read is answered and the stored flag is the text 'true'; so it goes there
    after a [handleGetStarted] whose write went through. *)
Theorem welcome_is_always_shown (w : World) :
  (exists w', handleGetStarted w = (Resolved ReplaceWithTabs, w') /\
              checkWelcome FORCE_WELCOME w' = (Resolved ShowWelcome, w') /\
              (nextCallRejects w = false -> nextCallRejects w' = false ->
               checkWelcome false w' = (Resolved ReplaceWithTabs, advance w'))) /\
  checkWelcome FORCE_WELCOME w = (Resolved ShowWelcome, w) /\
  (exists launch,
      checkWelcome false w = (Resolved launch, advance w) /\
      (launch = ReplaceWithTabs <->
       nextCallRejects w = false /\ hasSeenWelcomeItem (disk w) = Some "true"%string)).
Proof.
  split; [|split].
  - unfold handleGetStarted, setHasSeenWelcome, tryCatch, bind, setItem, throw, ret.
    destruct (nextCallRejects w) eqn:Hwrite.
    + eexists. split; [reflexivity|]. split; [reflexivity|]. discriminate.
    + eexists. split; [reflexivity|]. split; [reflexivity|]. intros _ Hread.
      unfold checkWelcome, hasSeenWelcome, tryCatch, bind, getItem, ret.
      rewrite Hread. reflexivity.
  - reflexivity.
  - unfold checkWelcome, hasSeenWelcome, tryCatch, bind, getItem, ret, advance.
    destruct (nextCallRejects w).
    + eexists. split; [reflexivity|]. split; [discriminate | intros [H _]; discriminate].
    + cbn [readKey HAS_SEEN_WELCOME_KEY].
      destruct (hasSeenWelcomeItem (disk w)) as [text|].
      * destruct (String.eqb_spec text "true") as [->|Hne]; cbn [negb].
        -- eexists. split; [reflexivity|]. split; [intros _; split; reflexivity | reflexivity].
        -- eexists. split; [reflexivity|]. split; [discriminate|].
           intros [_ H]. congruence.
      * eexists. split; [reflexivity|]. split; [discriminate | intros [_ H]; discriminate].
Qed.

(** ** [getLogsByDay]: the object of counts *)

Lemma fold_left_map {A B C : Type} (f : A -> C -> A) (g : B -> C) (l : list B) (a : A) :
  fold_left (fun acc x => f acc (g x)) l a = fold_left f (map g l) a.
Proof.
  revert a. induction l as [|x l IH]; intros a; simpl; [reflexivity | apply IH].
Qed.

Lemma initCounts_keys (today days : Z) :
  initCounts today days = fold_left setZero (visitedKeys today days) [].
Proof.
  unfold initCounts, visitedKeys. apply fold_left_map.
Qed.

Lemma hasOwnProperty_In (result : Counts) (dateKey : Z) :
  hasOwnProperty result dateKey = true <-> In dateKey (map fst result).
Proof.
  induction result as [|[k c] rest IH]; simpl.
  - split; [discriminate | tauto].
  - rewrite orb_true_iff, Z.eqb_eq, IH. reflexivity.
Qed.

Lemma setZero_keys (result : Counts) (dateKey : Z) :
  map fst (setZero result dateKey) =
  if hasOwnProperty result dateKey then map fst result else map fst result ++ [dateKey].
Proof.
  induction result as [|[k c] rest IH]; simpl; [reflexivity|].
  destruct (Z.eqb_spec k dateKey) as [->|Hne]; simpl; [reflexivity|].
  rewrite IH. destruct (hasOwnProperty rest dateKey); reflexivity.
Qed.

Lemma setZero_NoDup (result : Counts) (dateKey : Z) :
  NoDup (map fst result) -> NoDup (map fst (setZero result dateKey)).
Proof.
  intros H. rewrite setZero_keys.
  destruct (hasOwnProperty result dateKey) eqn:E; [exact H|].
  apply NoDup_app; [exact H | repeat constructor; simpl; tauto |].
  intros x Hx [<-|[]]. apply hasOwnProperty_In in Hx. congruence.
Qed.

Lemma setZero_zero (result : Counts) (dateKey : Z) :
  Forall (fun kc => snd kc = 0%nat) result ->
  Forall (fun kc => snd kc = 0%nat) (setZero result dateKey).
Proof.
  induction result as [|[k c] rest IH]; simpl; intros H.
  - repeat constructor.
  - inversion H as [|? ? Hc Hrest]; subst.
    destruct (k =? dateKey); constructor; auto.
Qed.

Lemma fold_setZero_invariant (keys : list Z) (result : Counts) :
  NoDup (map fst result) /\ Forall (fun kc => snd kc = 0%nat) result ->
  NoDup (map fst (fold_left setZero keys result)) /\
  Forall (fun kc => snd kc = 0%nat) (fold_left setZero keys result).
Proof.
  revert result. induction keys as [|k keys IH]; intros result [Hn Hz]; simpl.
  - split; assumption.
  - apply IH. split; [apply setZero_NoDup | apply setZero_zero]; assumption.
Qed.

Lemma initCounts_NoDup (today days : Z) : NoDup (map fst (initCounts today days)).
Proof.
  rewrite initCounts_keys. apply fold_setZero_invariant. split; constructor.
Qed.

Lemma initCounts_zero (today days : Z) :
  Forall (fun kc => snd kc = 0%nat) (initCounts today days).
Proof.
  rewrite initCounts_keys. apply fold_setZero_invariant. split; constructor.
Qed.

Lemma fold_setZero_keys (keys : list Z) (result : Counts) (dateKey : Z) :
  In dateKey (map fst (fold_left setZero keys result)) <->
  In dateKey (map fst result) \/ In dateKey keys.
Proof.
  revert result. induction keys as [|k keys IH]; intros result; simpl; [tauto|].
  rewrite IH, setZero_keys.
  destruct (hasOwnProperty result k) eqn:E.
  - apply hasOwnProperty_In in E. split; [tauto|].
    intros [H|[<-|H]]; tauto.
  - rewrite in_app_iff. simpl. tauto.
Qed.

(** The properties of [result] after the first loop are the visited keys. *)
Lemma initCounts_hasOwnProperty (today days dateKey : Z) :
  hasOwnProperty (initCounts today days) dateKey = true <->
  In dateKey (visitedKeys today days).
Proof.
  rewrite hasOwnProperty_In, initCounts_keys, fold_setZero_keys. simpl. tauto.
Qed.

Lemma increment_NoDup (result : Counts) (dateKey : Z) :
  NoDup (map fst result) -> increment result dateKey = map (bump dateKey) result.
Proof.
  induction result as [|[k c] rest IH]; simpl; intros H; [reflexivity|].
  inversion H as [|? ? Hk Hrest]; subst. unfold bump at 1. simpl.
  destruct (Z.eqb_spec k dateKey) as [->|Hne].
  - f_equal; [f_equal; lia|].
    symmetry. rewrite <- (map_id rest) at 2. apply map_ext_in.
    intros [k' c'] Hin. unfold bump. simpl.
    destruct (Z.eqb_spec k' dateKey) as [->|]; [|f_equal; lia].
    exfalso. apply Hk. apply in_map_iff. exists (dateKey, c'). split; [reflexivity | exact Hin].
  - f_equal; [f_equal; lia | apply IH; exact Hrest].
Qed.

Lemma bump_absent (result : Counts) (dateKey : Z) :
  hasOwnProperty result dateKey = false -> map (bump dateKey) result = result.
Proof.
  induction result as [|[k c] rest IH]; simpl; intros H; [reflexivity|].
  apply orb_false_iff in H. destruct H as [Hk Hrest].
  unfold bump at 1. simpl. rewrite Hk. f_equal; [f_equal; lia | apply IH; exact Hrest].
Qed.

(** With distinct keys, the second loop adds to each count the number of
    logs of that day. *)
Lemma countLogs_NoDup (logs : list CigaretteLog) (result : Counts) :
  NoDup (map fst result) ->
  countLogs logs result =
  map (fun kc => (fst kc, (snd kc + logsOn (fst kc) logs)%nat)) result.
Proof.
  unfold countLogs. revert result.
  induction logs as [|log logs IH]; intros result Hn; cbn [fold_left].
  - rewrite <- (map_id result) at 1. apply map_ext. intros [k c]. simpl.
    unfold logsOn. simpl. f_equal. lia.
  - cbv zeta.
    assert (Hstep : (if hasOwnProperty result (localDay (timestamp log))
                     then increment result (localDay (timestamp log)) else result)
                    = map (bump (localDay (timestamp log))) result).
    { destruct (hasOwnProperty result (localDay (timestamp log))) eqn:E.
      - apply increment_NoDup; exact Hn.
      - symmetry. apply bump_absent; exact E. }
    rewrite Hstep, IH.
    + rewrite map_map. apply map_ext. intros [k c]. unfold bump, logsOn. cbn [fst snd filter].
      rewrite (Z.eqb_sym k). destruct (localDay (timestamp log) =? k); simpl; f_equal; lia.
    + rewrite map_map. cbn [bump fst]. exact Hn.
Qed.

Lemma countLogs_nil (logs : list CigaretteLog) : countLogs logs [] = [].
Proof.
  unfold countLogs. induction logs as [|log logs IH]; simpl; [reflexivity | exact IH].
Qed.

(** ** [getLogsByDay]: the sort *)

Lemma insertByDate_Permutation (a : DailyData) (l : list DailyData) :
  Permutation (insertByDate a l) (a :: l).
Proof.
  induction l as [|b l IH]; simpl; [apply Permutation_refl|].
  destruct (date a - date b <=? 0); [apply Permutation_refl|].
  eapply Permutation_trans; [apply perm_skip, IH | apply perm_swap].
Qed.

Lemma sortByDate_Permutation (l : list DailyData) : Permutation (sortByDate l) l.
Proof.
  induction l as [|a l IH]; simpl; [constructor|].
  eapply Permutation_trans; [apply insertByDate_Permutation | apply perm_skip, IH].
Qed.

Lemma insertByDate_Sorted (a : DailyData) (l : list DailyData) :
  Sorted (fun x y => date x <= date y) l ->
  Sorted (fun x y => date x <= date y) (insertByDate a l).
Proof.
  induction l as [|b l IH]; simpl; intros Hs.
  - repeat constructor.
  - destruct (Z.leb_spec (date a - date b) 0) as [Hle|Hgt].
    + constructor; [exact Hs | constructor; lia].
    + inversion Hs as [|? ? Hl Hb]; subst. constructor; [apply IH; exact Hl|].
      destruct l as [|c l]; simpl; [constructor; lia|].
      inversion Hb; subst.
      destruct (date a - date c <=? 0); constructor; lia.
Qed.

Lemma sortByDate_Sorted (l : list DailyData) :
  Sorted (fun x y => date x <= date y) (sortByDate l).
Proof.
  induction l as [|a l IH]; simpl; [constructor | apply insertByDate_Sorted, IH].
Qed.

Lemma sumOfCounts_Permutation (l l' : list DailyData) :
  Permutation l l' -> sumOfCounts l = sumOfCounts l'.
Proof.
  unfold sumOfCounts. induction 1; simpl; lia.
Qed.

Lemma getLogsByDay_eq (today days : Z) (w : World) :
  getLogsByDay today days w =
  (Resolved (logsByDay today (if nextCallRejects w then [] else storedLogs (disk w)) days),
   advance w).
Proof.
  unfold getLogsByDay, tryCatch, bind. rewrite getLogs_eq. reflexivity.
Qed.

(** ** [getLogsByDay]: the sum of the counts *)

Lemma existsb_hasOwnProperty (result : Counts) (dateKey : Z) :
  existsb (Z.eqb dateKey) (map fst result) = hasOwnProperty result dateKey.
Proof.
  induction result as [|[k c] rest IH]; simpl; [reflexivity|].
  rewrite IH, (Z.eqb_sym dateKey k). reflexivity.
Qed.

Lemma list_sum_indicator (dateKey : Z) (keys : list Z) :
  NoDup keys ->
  list_sum (map (fun k => if dateKey =? k then 1%nat else 0%nat) keys)
  = if existsb (Z.eqb dateKey) keys then 1%nat else 0%nat.
Proof.
  induction 1 as [|k keys Hk Hn IH]; simpl; [reflexivity|].
  rewrite IH. destruct (Z.eqb_spec dateKey k) as [->|Hne]; simpl; [|reflexivity].
  destruct (existsb (Z.eqb k) keys) eqn:E; [|reflexivity].
  exfalso. apply Hk. apply existsb_exists in E. destruct E as (x & Hx & Ex).
  apply Z.eqb_eq in Ex. subst. exact Hx.
Qed.

Lemma list_sum_map_add {A : Type} (f g : A -> nat) (l : list A) :
  list_sum (map (fun x => (f x + g x)%nat) l) = (list_sum (map f l) + list_sum (map g l))%nat.
Proof.
  induction l as [|x l IH]; simpl; [reflexivity | rewrite IH; lia].
Qed.

(** Over distinct days, the logs of those days are counted once each. *)
Lemma logsOn_sum (keys : list Z) (logs : list CigaretteLog) :
  NoDup keys ->
  list_sum (map (fun k => logsOn k logs) keys)
  = List.length (filter (fun log => existsb (Z.eqb (localDay (timestamp log))) keys) logs).
Proof.
  intros Hn. induction logs as [|log logs IH].
  - unfold logsOn. simpl. clear Hn. induction keys as [|k keys IHk]; simpl; [reflexivity | exact IHk].
  - cbn [filter].
    transitivity (list_sum (map (fun k => ((if (localDay (timestamp log) =? k)%Z then 1 else 0)
                                           + logsOn k logs)%nat) keys)).
    + f_equal. apply map_ext. intros k. unfold logsOn. cbn [filter].
      destruct (localDay (timestamp log) =? k); reflexivity.
    + rewrite list_sum_map_add, list_sum_indicator, IH by exact Hn.
      destruct (existsb (Z.eqb (localDay (timestamp log))) keys); reflexivity.
Qed.

Lemma sumOfCounts_counted (logs : list CigaretteLog) (result : Counts) :
  NoDup (map fst result) ->
  Forall (fun kc => snd kc = 0%nat) result ->
  sumOfCounts (toDailyData (countLogs logs result))
  = List.length (filter (fun log => hasOwnProperty result (localDay (timestamp log))) logs).
Proof.
  intros Hn Hz. unfold toDailyData.
  rewrite (sumOfCounts_Permutation _ _ (sortByDate_Permutation _)).
  rewrite countLogs_NoDup by exact Hn. unfold sumOfCounts. rewrite !map_map.
  transitivity (list_sum (map (fun k => logsOn k logs) (map fst result))).
  - rewrite map_map. f_equal. apply map_ext_in. intros [k c] Hin. simpl.
    rewrite Forall_forall in Hz. specialize (Hz _ Hin). simpl in Hz. subst. reflexivity.
  - rewrite logsOn_sum by exact Hn. f_equal. apply filter_ext.
    intros log. apply existsb_hasOwnProperty.
Qed.

(** X3.  In every time zone, the counts of [getLogsByDay] add up to the
    number of logs whose local day is one of the days the first loop has
    visited. *)
Theorem sumOfCounts_logsByDay (today days : Z) (logs : list CigaretteLog) :
  sumOfCounts (logsByDay today logs days)
  = List.length
      (filter (fun log => hasOwnProperty (initCounts today days) (localDay (timestamp log)))
              logs).
Proof.
  unfold logsByDay. apply sumOfCounts_counted; [apply initCounts_NoDup | apply initCounts_zero].
Qed.

(** ** [getLogsByDay] where the offset of local time does not change *)

Section FixedOffset.

Variable offset : Z.
Hypothesis tz_fixed : forall t, tz t = offset.

Lemma localDay_back (today i : Z) :
  localDay (today - i * 24 * 60 * 60 * 1000) = localDay today - i.
Proof using tz_fixed.
  unfold localDay. rewrite !tz_fixed.
  replace (today - i * 24 * 60 * 60 * 1000 + offset)
    with (today + offset + (- i) * msPerDay) by (unfold msPerDay; ring).
  rewrite Z.div_add by discriminate. ring.
Qed.

Lemma visitedKeys_fixed (today days : Z) :
  visitedKeys today days
  = map (fun j => localDay today - Z.of_nat j) (seq 0 (Z.to_nat days)).
Proof using tz_fixed.
  unfold visitedKeys, loopIndices. rewrite map_map. apply map_ext.
  intros j. apply localDay_back.
Qed.

Lemma visitedKeys_fixed_In (today days dateKey : Z) :
  In dateKey (visitedKeys today days) <->
  localDay today - days < dateKey <= localDay today /\ 0 <= days.
Proof using tz_fixed.
  rewrite visitedKeys_fixed, in_map_iff. split.
  - intros (j & <- & Hj). apply in_seq in Hj. lia.
  - intros [H Hd]. exists (Z.to_nat (localDay today - dateKey)). split; [lia|].
    apply in_seq. lia.
Qed.

Lemma countdown_NoDup (top : Z) (n : nat) :
  NoDup (map (fun j => top - Z.of_nat j) (seq 0 n)).
Proof.
  apply Injective_map_NoDup; [|apply seq_NoDup].
  intros x y H. lia.
Qed.

End FixedOffset.

Lemma setZero_fresh (result : Counts) (dateKey : Z) :
  hasOwnProperty result dateKey = false -> setZero result dateKey = result ++ [(dateKey, 0%nat)].
Proof.
  induction result as [|[k c] rest IH]; simpl; intros H; [reflexivity|].
  apply orb_false_iff in H. destruct H as [Hk Hrest]. rewrite Hk, IH by exact Hrest.
  reflexivity.
Qed.

Lemma fold_setZero_fresh (keys : list Z) (result : Counts) :
  NoDup (map fst result ++ keys) ->
  fold_left setZero keys result = result ++ map (fun k => (k, 0%nat)) keys.
Proof.
  revert result. induction keys as [|k keys IH]; intros result Hn; simpl.
  - symmetry. apply app_nil_r.
  - assert (Hk : hasOwnProperty result k = false).
    { destruct (hasOwnProperty result k) eqn:E; [|reflexivity].
      apply hasOwnProperty_In in E. apply NoDup_remove_2 in Hn.
      exfalso. apply Hn. apply in_or_app. left; exact E. }
    rewrite setZero_fresh by exact Hk. rewrite IH.
    + rewrite <- app_assoc. reflexivity.
    + rewrite map_app. simpl. rewrite <- app_assoc. exact Hn.
Qed.

Lemma insertByDate_latest (a : DailyData) (l : list DailyData) :
  Forall (fun b => date b < date a) l -> insertByDate a l = l ++ [a].
Proof.
  induction 1 as [|b l Hb Hl IH]; simpl; [reflexivity|].
  destruct (Z.leb_spec (date a - date b) 0); [lia | rewrite IH; reflexivity].
Qed.

(** Sorting a run of buckets that goes back in time day by day reverses it. *)
Lemma sortByDate_countdown (c : Z -> nat) (top : Z) (n start : nat) :
  let run := map (fun j => {| date := dateOfKey (top - Z.of_nat j);
                              count := c (top - Z.of_nat j) |}) (seq start n) in
  sortByDate run = rev run.
Proof.
  revert start. induction n as [|n IH]; intros start; cbv zeta; [reflexivity|].
  cbn [seq map sortByDate fold_right rev]. fold (sortByDate). 
  change (fold_right insertByDate []) with sortByDate.
  specialize (IH (S start)). cbv zeta in IH. rewrite IH.
  apply insertByDate_latest. apply Forall_forall. intros b Hb.
  apply in_rev, in_map_iff in Hb. destruct Hb as (j & <- & Hj). apply in_seq in Hj.
  cbn [date]. unfold dateOfKey, msPerDay. lia.
Qed.

Lemma rev_countdown {A : Type} (h : Z -> A) (top : Z) (n : nat) :
  rev (map (fun j => h (top - Z.of_nat j)) (seq 0 n))
  = map (fun j => h (top - (Z.of_nat n - 1) + Z.of_nat j)) (seq 0 n).
Proof.
  induction n as [|n IH]; [reflexivity|].
  rewrite seq_S at 1. rewrite map_app, rev_app_distr. cbn [map rev app plus].
  rewrite IH. cbn [seq map]. f_equal; [f_equal; lia|].
  rewrite <- seq_shift, map_map. apply map_ext. intros j. f_equal. lia.
Qed.

(** X1.  Where the offset of local time does not change, [getLogsByDay] with
    [days >= 0] makes exactly [days] buckets, one for each local calendar day
    from [days - 1] days before today up to today, in that order; the date of
    each is midnight UTC of its day and its count the number of logs of that
    local day, 0 when there is none. *)
Theorem logsByDay_fixed_offset (offset today days : Z) (logs : list CigaretteLog) :
  (forall t, tz t = offset) ->
  0 <= days ->
  logsByDay today logs days
  = map (bucketOf logs) (eachDayOfInterval (localDay today - (days - 1)) (localDay today))
  /\ List.length (logsByDay today logs days) = Z.to_nat days.
Proof.
  intros Hfixed Hdays.
  assert (E : logsByDay today logs days
              = map (bucketOf logs)
                    (eachDayOfInterval (localDay today - (days - 1)) (localDay today))).
  { unfold logsByDay. rewrite initCounts_keys, (visitedKeys_fixed offset Hfixed).
    rewrite fold_setZero_fresh by (simpl; apply countdown_NoDup). cbn [app].
    rewrite countLogs_NoDup
      by (rewrite map_map; cbn [fst]; rewrite map_id; apply countdown_NoDup).
    unfold toDailyData. rewrite !map_map. cbn [fst snd plus].
    rewrite (sortByDate_countdown (fun k => logsOn k logs) (localDay today) (Z.to_nat days) 0).
    rewrite (rev_countdown (fun day => {| date := dateOfKey day; count := logsOn day logs |})
                           (localDay today) (Z.to_nat days)).
    unfold eachDayOfInterval. rewrite map_map.
    replace (localDay today - (localDay today - (days - 1)) + 1) with days by ring.
    apply map_ext. intros j. unfold bucketOf.
    replace (localDay today - (Z.of_nat (Z.to_nat days) - 1) + Z.of_nat j)
      with (localDay today - (days - 1) + Z.of_nat j) by lia.
    reflexivity. }
  split; [exact E|].
  rewrite E. unfold eachDayOfInterval. rewrite !length_map, length_seq. f_equal. ring.
Qed.

(** X2.  Where the offset of local time does not change, the counts of
    [getLogsByDay] with [days >= 0] add up to the number of logs whose local
    calendar day lies in the window of [days] days that ends today; the other
    logs are left out. *)
Theorem sumOfCounts_fixed_offset (offset today days : Z) (logs : list CigaretteLog) :
  (forall t, tz t = offset) ->
  0 <= days ->
  sumOfCounts (logsByDay today logs days) = List.length (filter (inWindow today days) logs).
Proof.
  intros Hfixed Hdays. unfold logsByDay.
  rewrite sumOfCounts_counted by (apply initCounts_NoDup || apply initCounts_zero).
  f_equal. apply filter_ext.
  intros log. unfold inWindow. apply eq_true_iff_eq.
  rewrite initCounts_hasOwnProperty, (visitedKeys_fixed_In offset Hfixed).
  rewrite andb_true_iff, Z.ltb_lt, Z.leb_le. tauto.
Qed.

(** The date of a bucket is midnight UTC of its day: east of Greenwich (and
    less than a day off) its local calendar day is that day, west of
    Greenwich it is the day before. *)
Lemma localDay_dateOfKey (offset dateKey : Z) :
  (forall t, tz t = offset) ->
  (0 <= offset < msPerDay -> localDay (dateOfKey dateKey) = dateKey) /\
  (- msPerDay <= offset < 0 -> localDay (dateOfKey dateKey) = dateKey - 1).
Proof.
  intros Hfixed. unfold localDay, dateOfKey. rewrite Hfixed. split; intros H.
  - rewrite Z.add_comm, Z.div_add by discriminate. rewrite Z.div_small by exact H. ring.
  - replace (dateKey * msPerDay + offset)
      with (offset + msPerDay + (dateKey - 1) * msPerDay) by ring.
    rewrite Z.div_add by discriminate. rewrite Z.div_small by lia. ring.
Qed.

(** ** [getLogsByDay] in every time zone *)

(** The buckets are those of the keys of [result] after the first loop. *)
Lemma logsByDay_of_keys (today days : Z) (logs : list CigaretteLog) :
  logsByDay today logs days
  = sortByDate (map (bucketOf logs) (map fst (initCounts today days))).
Proof.
  unfold logsByDay, toDailyData. rewrite countLogs_NoDup by apply initCounts_NoDup.
  rewrite !map_map. f_equal. apply map_ext_in. intros [k c] Hin.
  pose proof (initCounts_zero today days) as Hz. rewrite Forall_forall in Hz.
  specialize (Hz _ Hin). simpl in Hz. subst c. reflexivity.
Qed.

Lemma logsByDay_In (today days : Z) (logs : list CigaretteLog) (b : DailyData) :
  In b (logsByDay today logs days) <->
  exists k, In k (visitedKeys today days) /\ b = bucketOf logs k.
Proof.
  rewrite logsByDay_of_keys. split.
  - intros Hb. apply (Permutation_in _ (sortByDate_Permutation _)) in Hb.
    apply in_map_iff in Hb. destruct Hb as (k & <- & Hk).
    exists k. split; [|reflexivity].
    apply initCounts_hasOwnProperty, hasOwnProperty_In. exact Hk.
  - intros (k & Hk & ->).
    apply (Permutation_in _ (Permutation_sym (sortByDate_Permutation _))).
    apply in_map. apply hasOwnProperty_In, initCounts_hasOwnProperty. exact Hk.
Qed.

Lemma dateOfKey_inj (k k' : Z) : dateOfKey k = dateOfKey k' -> k = k'.
Proof.
  unfold dateOfKey, msPerDay. lia.
Qed.

Lemma logsByDay_dates_NoDup (today days : Z) (logs : list CigaretteLog) :
  NoDup (map date (logsByDay today logs days)).
Proof.
  rewrite logsByDay_of_keys.
  eapply Permutation_NoDup.
  - apply Permutation_map, Permutation_sym, sortByDate_Permutation.
  - rewrite map_map. cbn [bucketOf date].
    apply Injective_map_NoDup; [|apply initCounts_NoDup].
    intros k k'. apply dateOfKey_inj.
Qed.

Lemma Sorted_strict (l : list DailyData) :
  Sorted (fun a b => date a <= date b) l ->
  NoDup (map date l) ->
  StronglySorted (fun a b => date a < date b) l.
Proof.
  intros Hs Hn. apply Sorted_StronglySorted in Hs; [|intros x y z; lia].
  induction Hs as [|a l Hl IH Ha]; [constructor|].
  cbn [map] in Hn. inversion Hn as [|? ? Hnot Hrest]; subst.
  constructor; [apply IH; exact Hrest|].
  rewrite Forall_forall in Ha |- *. intros b Hb. specialize (Ha b Hb).
  assert (date a <> date b); [|lia].
  intros E. apply Hnot. rewrite E. apply in_map. exact Hb.
Qed.

Lemma visitedKeys_length (today days : Z) :
  List.length (visitedKeys today days) = Z.to_nat days.
Proof.
  unfold visitedKeys, loopIndices. rewrite !length_map, length_seq. reflexivity.
Qed.

(** X13.  In every time zone and for every day count, the buckets of
    [getLogsByDay] are strictly increasing in date; they are exactly the
    buckets of the days the first loop visits, each with the date midnight
    UTC of its day and the number of logs of that local day; and there are
    at most [days] of them. *)
Theorem logsByDay_in_every_zone (today days : Z) (logs : list CigaretteLog) :
  StronglySorted (fun a b => date a < date b) (logsByDay today logs days) /\
  (forall b, In b (logsByDay today logs days) <->
             exists k, In k (visitedKeys today days) /\ b = bucketOf logs k) /\
  (List.length (logsByDay today logs days) <= Z.to_nat days)%nat.
Proof.
  split; [|split].
  - apply Sorted_strict; [|apply logsByDay_dates_NoDup].
    unfold logsByDay, toDailyData. apply sortByDate_Sorted.
  - intros b. apply logsByDay_In.
  - rewrite logsByDay_of_keys.
    rewrite (Permutation_length (sortByDate_Permutation _)), length_map.
    rewrite <- visitedKeys_length with (today := today).
    apply NoDup_incl_length; [apply initCounts_NoDup|].
    intros k Hk. apply initCounts_hasOwnProperty, hasOwnProperty_In. exact Hk.
Qed.

Lemma today_visited (today days : Z) :
  1 <= days -> In (localDay today) (visitedKeys today days).
Proof.
  intros Hdays. unfold visitedKeys, loopIndices. apply in_map_iff. exists 0. split.
  - f_equal. lia.
  - apply in_map_iff. exists 0%nat. split; [reflexivity|]. apply in_seq. lia.
Qed.

(** X14.  In every time zone and every world, for [days >= 1] the sequence
    of [getLogsByDay] holds the bucket of today, and its count is the number
    of logs [getLogsForDate] yields for today: the count of the home screen
    and the bucket of today agree. *)
Theorem today_bucket_agrees_with_getLogsForDate (today days : Z) (w : World) :
  1 <= days ->
  exists todays buckets bucket,
    getLogsForDate today w = (Resolved todays, advance w) /\
    getLogsByDay today days w = (Resolved buckets, advance w) /\
    In bucket buckets /\
    date bucket = dateOfKey (localDay today) /\
    count bucket = List.length todays.
Proof.
  intros Hdays.
  exists (filter (fun log => localDay (timestamp log) =? localDay today) (readLogs w)),
         (logsByDay today (readLogs w) days),
         (bucketOf (readLogs w) (localDay today)).
  split; [|split; [|split; [|split]]].
  - unfold getLogsForDate, tryCatch, bind. rewrite getLogs_eq. reflexivity.
  - apply getLogsByDay_eq.
  - apply logsByDay_In. exists (localDay today). split; [|reflexivity].
    apply today_visited. exact Hdays.
  - reflexivity.
  - reflexivity.
Qed.

(** ** Totality of the aggregation code *)

Lemma logsByDay_nonpositive (today days : Z) (logs : list CigaretteLog) :
  days <= 0 -> logsByDay today logs days = [].
Proof.
  intros H. unfold logsByDay, initCounts, loopIndices.
  replace (Z.to_nat days) with 0%nat by lia. cbn [seq map fold_left].
  rewrite countLogs_nil. reflexivity.
Qed.

Lemma logsByDay_no_logs (today days : Z) :
  Forall (fun b => count b = 0%nat) (logsByDay today [] days).
Proof.
  unfold logsByDay, toDailyData. cbn [countLogs fold_left].
  eapply Permutation_Forall; [apply Permutation_sym, sortByDate_Permutation|].
  apply Forall_map. eapply Forall_impl; [|apply initCounts_zero].
  intros [k c] H. exact H.
Qed.

(** C6, as amended.  The aggregation code is total and never signals an
    error.  [getLogsByDay] resolves for every day count and every world; a
    day count of zero or below yields the empty sequence (a negative count
    is handled like zero, no error is raised for it); with no logs stored
    every bucket has count 0.  On empty collections the other aggregations
    yield zeros: the counters of the times of day, the total and the daily
    average of the trends screen, the totals and the daily average of the
    costs screen. *)
Theorem aggregation_never_signals (today days : Z) (w : World) :
  (exists buckets,
      getLogsByDay today days w = (Resolved buckets, advance w) /\
      (days <= 0 -> buckets = []) /\
      (storedLogs (disk w) = [] -> Forall (fun b => count b = 0%nat) buckets)) /\
  updateTimeStats [] = {| morning := 0; afternoon := 0; evening := 0; night := 0 |} /\
  trendsTotal [] = 0%nat /\
  trendsDailyAverage [] = 0%Q /\
  totalSpent [] = 0%Q /\
  totalCigarettes [] = 0%nat /\
  costsDailyAverage [] = 0%Q.
Proof.
  split; [|repeat split].
  eexists. split; [apply getLogsByDay_eq|]. split.
  - apply logsByDay_nonpositive.
  - intros Hempty. rewrite Hempty.
    destruct (nextCallRejects w); apply logsByDay_no_logs.
Qed.

(** ** The statistics of the trends screen *)

Lemma fold_left_add_counts (periodData : list FilledDay.t) (start : nat) :
  fold_left (fun sum day => (sum + FilledDay.count day)%nat) periodData start
  = (start + list_sum (map FilledDay.count periodData))%nat.
Proof.
  revert start. induction periodData as [|day periodData IH]; intros start; simpl.
  - lia.
  - rewrite IH. lia.
Qed.

(** ** The rounding of doubles *)

Lemma roundTiesToEven_near (y : Q) :
  (y - (1 # 2) <= inject_Z (roundTiesToEven y) <= y + (1 # 2))%Q.
Proof.
  unfold roundTiesToEven.
  pose proof (Qfloor_le y) as H1. pose proof (Qlt_floor y) as H2.
  rewrite inject_Z_plus in H2. change (inject_Z 1) with 1%Q in H2.
  destruct (y - inject_Z (Qfloor y) ?= 1 # 2)%Q eqn:E.
  - apply Qeq_alt in E.
    destruct (Z.even (Qfloor y)); [|rewrite inject_Z_plus; change (inject_Z 1) with 1%Q]; lra.
  - apply Qlt_alt in E. lra.
  - apply Qgt_alt in E. rewrite inject_Z_plus. change (inject_Z 1) with 1%Q. lra.
Qed.

Lemma Qpower2_pos (e : Z) : (0 < 2 ^ e)%Q.
Proof.
  apply Qpower_0_lt. reflexivity.
Qed.

Lemma Qpower2_of_Z (k : Z) : 0 <= k -> (inject_Z (2 ^ k) == 2 ^ k)%Q.
Proof.
  intros H. rewrite (Zpower_Qpower 2 k H). reflexivity.
Qed.

Lemma Qpower2_plus (a b : Z) : (2 ^ (a + b) == 2 ^ a * 2 ^ b)%Q.
Proof.
  apply Qpower_plus. discriminate.
Qed.

Lemma floorLog2_le (x : Q) : (0 < x)%Q -> (2 ^ floorLog2 x <= x)%Q.
Proof.
  intros Hx. unfold floorLog2.
  set (n := Qnum x). set (d := Zpos (Qden x)).
  destruct (Qle_bool (2 ^ (Z.log2 n - Z.log2 d)) x) eqn:E; [apply Qle_bool_iff; exact E|].
  assert (Hn : 0 < n) by (unfold n; destruct x as [xn xd]; unfold Qlt in Hx; simpl in *; lia).
  assert (Hd : 0 < d) by (unfold d; lia).
  pose proof (Z.log2_spec n Hn) as [Hn1 _]. pose proof (Z.log2_spec d Hd) as [_ Hd2].
  pose proof (Z.log2_nonneg n) as Ln. pose proof (Z.log2_nonneg d) as Ld.
  (* 2^(log2 n) <= n and d < 2^(log2 d + 1) *)
  assert (Hx' : (x == inject_Z n / inject_Z d)%Q).
  { unfold n, d. destruct x as [xn xd]. simpl. rewrite <- (Qmake_Qdiv xn xd). reflexivity. }
  rewrite Hx'.
  apply Qle_shift_div_l; [change 0%Q with (inject_Z 0); rewrite <- Zlt_Qlt; exact Hd|].
  replace (Z.log2 n - Z.log2 d - 1) with (Z.log2 n + - (Z.succ (Z.log2 d))) by lia.
  rewrite Qpower2_plus, Qpower_opp.
  rewrite <- (Qpower2_of_Z (Z.log2 n)) by exact Ln.
  rewrite <- (Qpower2_of_Z (Z.succ (Z.log2 d))) by lia.
  assert (Hp : (0 < inject_Z (2 ^ Z.succ (Z.log2 d)))%Q).
  { change 0%Q with (inject_Z 0). rewrite <- Zlt_Qlt. lia. }
  assert (Hdq : (inject_Z d <= inject_Z (2 ^ Z.succ (Z.log2 d)))%Q) by (rewrite <- Zle_Qle; lia).
  assert (Hnq : (inject_Z (2 ^ Z.log2 n) <= inject_Z n)%Q) by (rewrite <- Zle_Qle; lia).
  assert (H0 : (0 <= inject_Z (2 ^ Z.log2 n))%Q).
  { change 0%Q with (inject_Z 0). rewrite <- Zle_Qle. lia. }
  set (a := inject_Z (2 ^ Z.log2 n)) in *. set (b := inject_Z (2 ^ Z.succ (Z.log2 d))) in *.
  assert (Hr : (inject_Z d / b <= 1)%Q).
  { apply Qle_shift_div_r; [exact Hp|]. rewrite Qmult_1_l. exact Hdq. }
  unfold Qdiv in Hr.
  assert (Hinv : (a * (inject_Z d * / b) <= a * 1)%Q).
  { rewrite !(Qmult_comm a). apply Qmult_le_compat_r; assumption. }
  rewrite Qmult_1_r in Hinv.
  setoid_replace (a * / b * inject_Z d)%Q with (a * (inject_Z d * / b))%Q by ring.
  apply (Qle_trans _ _ _ Hinv Hnq).
Qed.

Lemma roundPositive_near (x : Q) :
  (2 ^ (-1022) <= x)%Q ->
  (Qabs (roundPositive x - x) * 2 ^ 53 <= x)%Q.
Proof.
  intros Hnormal.
  assert (Hx : (0 < x)%Q)
    by (apply (Qlt_le_trans _ (2 ^ (-1022))); [apply Qpower2_pos | exact Hnormal]).
  pose proof (floorLog2_le x Hx) as Hlog.
  unfold roundPositive.
  set (u := Z.max (floorLog2 x - 52) (-1074)).
  pose proof (Qpower2_pos u) as Hulp.
  assert (Hu : (2 ^ u * 2 ^ 52 <= x)%Q).
  { rewrite <- Qpower2_plus. unfold u.
    destruct (Z.max_spec (floorLog2 x - 52) (-1074)) as [[_ ->]|[_ ->]].
    - exact Hnormal.
    - replace (floorLog2 x - 52 + 52) with (floorLog2 x) by ring. exact Hlog. }
  pose proof (roundTiesToEven_near (x / 2 ^ u)) as [Hlo Hhi].
  set (m := inject_Z (roundTiesToEven (x / 2 ^ u))) in *.
  assert (Hdiv : (x / 2 ^ u * 2 ^ u == x)%Q) by (field; lra).
  assert (Hlo' : (x - (1 # 2) * 2 ^ u <= m * 2 ^ u)%Q).
  { rewrite <- Hdiv at 1.
    setoid_replace (x / 2 ^ u * 2 ^ u - (1 # 2) * 2 ^ u)%Q
      with ((x / 2 ^ u - (1 # 2)) * 2 ^ u)%Q by ring.
    apply Qmult_le_compat_r; [exact Hlo | lra]. }
  assert (Hhi' : (m * 2 ^ u <= x + (1 # 2) * 2 ^ u)%Q).
  { rewrite <- Hdiv at 1.
    setoid_replace (x / 2 ^ u * 2 ^ u + (1 # 2) * 2 ^ u)%Q
      with ((x / 2 ^ u + (1 # 2)) * 2 ^ u)%Q by ring.
    apply Qmult_le_compat_r; [exact Hhi | lra]. }
  assert (H53 : (2 ^ 53 == 2 * 2 ^ 52)%Q) by reflexivity.
  assert (Habs : (Qabs (m * 2 ^ u - x) <= (1 # 2) * 2 ^ u)%Q).
  { apply Qabs_Qle_condition. split; lra. }
  rewrite H53.
  apply (Qle_trans _ ((1 # 2) * 2 ^ u * (2 * 2 ^ 52))).
  - apply Qmult_le_compat_r; [exact Habs|]. pose proof (Qpower2_pos 52). lra.
  - setoid_replace ((1 # 2) * 2 ^ u * (2 * 2 ^ 52))%Q with (2 ^ u * 2 ^ 52)%Q by ring.
    exact Hu.
Qed.

Lemma round64_nonneg_eq (x : Q) : (0 < x)%Q -> round64 x = roundPositive x.
Proof.
  intros Hx. unfold round64. apply Qgt_alt in Hx. rewrite Hx. reflexivity.
Qed.

Lemma roundPositive_nonneg (x : Q) : (0 < x)%Q -> (0 <= roundPositive x)%Q.
Proof.
  intros Hx. unfold roundPositive.
  set (u := Z.max (floorLog2 x - 52) (-1074)).
  pose proof (Qpower2_pos u) as Hulp.
  pose proof (roundTiesToEven_near (x / 2 ^ u)) as [Hlo _].
  assert (Hq : (0 < x / 2 ^ u)%Q) by (apply Qlt_shift_div_l; lra).
  assert (Hm : (0 <= inject_Z (roundTiesToEven (x / 2 ^ u)))%Q).
  { change 0%Q with (inject_Z 0). rewrite <- Zle_Qle.
    destruct (Z.le_gt_cases 0 (roundTiesToEven (x / 2 ^ u))) as [H|H]; [exact H|]. exfalso.
    assert (H' : (inject_Z (roundTiesToEven (x / 2 ^ u)) <= inject_Z (-1))%Q)
      by (rewrite <- Zle_Qle; lia).
    change (inject_Z (-1)) with (-1)%Q in H'. lra. }
  apply Qmult_le_0_compat; [exact Hm | lra].
Qed.

Lemma inject_Z_sub (a b : Z) : (inject_Z (a - b) == inject_Z a - inject_Z b)%Q.
Proof.
  unfold Z.sub. rewrite inject_Z_plus, inject_Z_opp. reflexivity.
Qed.

(** The tie argument. *)
Lemma toFixed1_of_near_quotient (t l : Z) (x : Q) :
  0 <= t -> 0 < l -> (0 <= x)%Q ->
  (Qabs (x - inject_Z t / inject_Z l) * (20 * inject_Z l) < 1)%Q ->
  (exists n : Z, toFixed1 x = (inject_Z n / 10)%Q) /\
  (Qabs (toFixed1 x - inject_Z t / inject_Z l) <= 1 # 20)%Q.
Proof.
  intros Ht Hl Hx Hnear. unfold toFixed1.
  assert (Hb : Qle_bool 0 x = true) by (apply Qle_bool_iff; exact Hx).
  rewrite Hb.
  set (n := Qfloor (x * 10 + (1 # 2))).
  split; [exists n; reflexivity|].
  pose proof (Qfloor_le (x * 10 + (1 # 2))) as H1.
  pose proof (Qlt_floor (x * 10 + (1 # 2))) as H2.
  fold n in H1, H2. rewrite inject_Z_plus in H2. change (inject_Z 1) with 1%Q in H2.
  assert (HL : (0 < inject_Z l)%Q) by (change 0%Q with (inject_Z 0); rewrite <- Zlt_Qlt; exact Hl).
  set (q := (inject_Z t / inject_Z l)%Q) in *.
  assert (Hq : (q * inject_Z l == inject_Z t)%Q) by (unfold q; field; lra).
  (* |x - q| * 20 L < 1 *)
  assert (Hxq : (- 1 < (x - q) * (20 * inject_Z l) < 1)%Q).
  { destruct (Qlt_le_dec (x - q) 0) as [Hneg|Hpos].
    - rewrite (Qabs_neg (x - q)) in Hnear by lra.
      split; [lra|]. apply (Qle_lt_trans _ 0); [|lra].
      setoid_replace 0%Q with (0 * (20 * inject_Z l))%Q by ring.
      apply Qmult_le_compat_r; lra.
    - rewrite (Qabs_pos (x - q)) in Hnear by lra.
      split; [|exact Hnear]. apply (Qlt_le_trans _ 0); [lra|].
      apply Qmult_le_0_compat; lra. }
  (* integers: (2n-1) l <= 20 t <= (2n+1) l *)
  assert (Hlow : (2 * n - 1) * l <= 20 * t).
  { destruct (Z.le_gt_cases ((2 * n - 1) * l) (20 * t)) as [H|H]; [exact H|]. exfalso.
    assert (H' : (inject_Z (20 * t + 1) <= inject_Z ((2 * n - 1) * l))%Q)
      by (rewrite <- Zle_Qle; lia).
    rewrite inject_Z_plus, !inject_Z_mult, inject_Z_sub, inject_Z_mult in H'.
    change (inject_Z 20) with 20%Q in H'. change (inject_Z 2) with 2%Q in H'.
    change (inject_Z 1) with 1%Q in H'. rewrite <- Hq in H'.
    assert (H3 : ((2 * inject_Z n - 1) * inject_Z l <= 20 * x * inject_Z l)%Q).
    { apply Qmult_le_compat_r; lra. }
    destruct Hxq as [Hxq1 Hxq2].
    setoid_replace ((x - q) * (20 * inject_Z l))%Q
      with (20 * x * inject_Z l - 20 * (q * inject_Z l))%Q in Hxq2 by ring.
    lra. }
  assert (Hhigh : 20 * t <= (2 * n + 1) * l).
  { destruct (Z.le_gt_cases (20 * t) ((2 * n + 1) * l)) as [H|H]; [exact H|]. exfalso.
    assert (H' : (inject_Z ((2 * n + 1) * l + 1) <= inject_Z (20 * t))%Q)
      by (rewrite <- Zle_Qle; lia).
    rewrite !inject_Z_plus, !inject_Z_mult, inject_Z_plus, inject_Z_mult in H'.
    change (inject_Z 20) with 20%Q in H'. change (inject_Z 2) with 2%Q in H'.
    change (inject_Z 1) with 1%Q in H'. rewrite <- Hq in H'.
    assert (H3 : (20 * x * inject_Z l <= (2 * inject_Z n + 1) * inject_Z l)%Q).
    { apply Qmult_le_compat_r; lra. }
    destruct Hxq as [Hxq1 Hxq2].
    setoid_replace ((x - q) * (20 * inject_Z l))%Q
      with (20 * x * inject_Z l - 20 * (q * inject_Z l))%Q in Hxq1 by ring.
    lra. }
  assert (Hlow' : (inject_Z ((2 * n - 1) * l) <= inject_Z (20 * t))%Q) by (rewrite <- Zle_Qle; exact Hlow).
  assert (Hhigh' : (inject_Z (20 * t) <= inject_Z ((2 * n + 1) * l))%Q) by (rewrite <- Zle_Qle; exact Hhigh).
  rewrite !inject_Z_mult, inject_Z_sub, inject_Z_mult in Hlow'.
  rewrite !inject_Z_mult, inject_Z_plus, inject_Z_mult in Hhigh'.
  change (inject_Z 20) with 20%Q in *. change (inject_Z 2) with 2%Q in *.
  change (inject_Z 1) with 1%Q in *. rewrite <- Hq in Hlow', Hhigh'.
  assert (Hlo : (2 * inject_Z n - 1 <= 20 * q)%Q).
  { apply (Qmult_le_r _ _ (inject_Z l)); [exact HL|]. lra. }
  assert (Hhi : (20 * q <= 2 * inject_Z n + 1)%Q).
  { apply (Qmult_le_r _ _ (inject_Z l)); [exact HL|]. lra. }
  apply Qabs_Qle_condition. unfold Qdiv. change (/ 10)%Q with (1 # 10)%Q. split; lra.
Qed.

Lemma round64_zero (x : Q) : (x == 0)%Q -> round64 x = 0%Q.
Proof.
  intros Hx. unfold round64. apply Qeq_alt in Hx. rewrite Hx. reflexivity.
Qed.

(** The double of a quotient of integers [t / l] is so near to it that no
    number halfway between two tenths lies between them, for [t] below
    [2^53 / 20]. *)
Lemma round64_of_quotient (t l : Z) :
  0 <= t -> 0 < l -> 20 * t < 2 ^ 53 -> l < 2 ^ 32 ->
  (0 <= round64 (inject_Z t / inject_Z l))%Q /\
  (Qabs (round64 (inject_Z t / inject_Z l) - inject_Z t / inject_Z l) * (20 * inject_Z l) < 1)%Q.
Proof.
  intros Ht Hl Hsmall Hlen.
  assert (HL : (0 < inject_Z l)%Q) by (change 0%Q with (inject_Z 0); rewrite <- Zlt_Qlt; exact Hl).
  set (q := (inject_Z t / inject_Z l)%Q).
  assert (Hq : (q * inject_Z l == inject_Z t)%Q) by (unfold q; field; lra).
  destruct (Z.eq_dec t 0) as [->|Hpos].
  - assert (Hzero : (q == 0)%Q) by (unfold q; field; lra).
    rewrite (round64_zero q Hzero). split; [lra|].
    setoid_replace (0 - q)%Q with 0%Q by lra. cbn [Qabs Z.abs Qnum Qden]. lra.
  - assert (Ht1 : (1 <= inject_Z t)%Q) by (change 1%Q with (inject_Z 1); rewrite <- Zle_Qle; lia).
    assert (Hl32 : (inject_Z l <= inject_Z (2 ^ 32))%Q) by (rewrite <- Zle_Qle; lia).
    assert (Hqpos : (0 < q)%Q) by (unfold q; apply Qlt_shift_div_l; lra).
    assert (Hnormal : (2 ^ (-1022) <= q)%Q).
    { apply (Qle_trans _ (1 / inject_Z (2 ^ 32))); [vm_compute; discriminate|].
      unfold q. apply Qle_shift_div_l; [exact HL|].
      apply (Qle_trans _ 1); [|exact Ht1].
      assert (Hc : (0 < 1 / inject_Z (2 ^ 32))%Q) by reflexivity.
      apply (Qle_trans _ (1 / inject_Z (2 ^ 32) * inject_Z (2 ^ 32)));
        [|vm_compute; discriminate].
      apply (proj2 (Qmult_le_l _ _ _ Hc)). exact Hl32. }
    rewrite (round64_nonneg_eq q Hqpos).
    split; [apply roundPositive_nonneg; exact Hqpos|].
    pose proof (roundPositive_near q Hnormal) as Hnear.
    set (d := Qabs (roundPositive q - q)) in *.
    assert (Hd : (0 <= d)%Q) by apply Qabs_nonneg.
    assert (Hsmall' : (inject_Z (20 * t) + 1 <= inject_Z (2 ^ 53))%Q).
    { change 1%Q with (inject_Z 1). rewrite <- inject_Z_plus, <- Zle_Qle. lia. }
    rewrite inject_Z_mult in Hsmall'. change (inject_Z 20) with 20%Q in Hsmall'.
    assert (H53 : (inject_Z (2 ^ 53) == 2 ^ 53)%Q) by reflexivity.
    rewrite H53 in Hsmall'.
    assert (Hscaled : (d * 2 ^ 53 * (20 * inject_Z l) <= q * (20 * inject_Z l))%Q).
    { apply Qmult_le_compat_r; [exact Hnear | lra]. }
    assert (Hrhs : (q * (20 * inject_Z l) == 20 * inject_Z t)%Q) by (rewrite <- Hq; ring).
    rewrite Hrhs in Hscaled.
    assert (Hp : (0 < 2 ^ 53)%Q) by reflexivity.
    apply (Qmult_lt_r _ _ (2 ^ 53) Hp).
    setoid_replace (d * (20 * inject_Z l) * 2 ^ 53)%Q with (d * 2 ^ 53 * (20 * inject_Z l))%Q
      by ring.
    lra.
Qed.

(** One rounding changes a number that is 0 or in the range of the normal
    doubles by at most the unit roundoff, relatively. *)
Lemma round64_relative (x : Q) :
  (x == 0 \/ 2 ^ (-1022) <= x)%Q ->
  (x * (1 - unitRoundoff) <= round64 x <= x * (1 + unitRoundoff))%Q.
Proof.
  intros [Hzero|Hnormal].
  - rewrite (round64_zero x Hzero). rewrite Hzero.
    change unitRoundoff with (1 # 9007199254740992)%Q. lra.
  - assert (Hx : (0 < x)%Q)
      by (apply (Qlt_le_trans _ (2 ^ (-1022))); [apply Qpower2_pos | exact Hnormal]).
    rewrite (round64_nonneg_eq x Hx).
    pose proof (roundPositive_near x Hnormal) as Hnear.
    assert (H53 : (2 ^ 53 == 9007199254740992)%Q) by reflexivity.
    rewrite H53 in Hnear.
    change unitRoundoff with (1 # 9007199254740992)%Q.
    destruct (Qlt_le_dec (roundPositive x - x) 0) as [Hneg|Hpos].
    + rewrite (Qabs_neg (roundPositive x - x)) in Hnear by lra. lra.
    + rewrite (Qabs_pos (roundPositive x - x)) in Hnear by lra. lra.
Qed.

(** [round64] against the binary64 operations of the Standard Library, on
    the quotients of small integers, on the products of small counts and
    prices in hundredths, and on the sums of such prices. *)
Lemma range_In (first : Z) (n : nat) (z : Z) :
  first <= z < first + Z.of_nat n -> In z (range first n).
Proof.
  intros H. unfold range. apply in_map_iff. exists (Z.to_nat (z - first)).
  split; [lia|]. apply in_seq. lia.
Qed.

Lemma forallb_range2 (p : Z -> Z -> bool) (a b : Z) (n m : nat) :
  forallb (fun x => forallb (p x) (range b m)) (range a n) = true ->
  forall x y, a <= x < a + Z.of_nat n -> b <= y < b + Z.of_nat m -> p x y = true.
Proof.
  intros H x y Hx Hy.
  pose proof (proj1 (forallb_forall _ _) H x (range_In a n x Hx)) as Hrow.
  exact (proj1 (forallb_forall _ _) Hrow y (range_In b m y Hy)).
Qed.

Lemma round64_is_the_quotient_of_doubles (t l : Z) :
  0 <= t <= 40 -> 1 <= l <= 31 ->
  (SF2Q (SFdiv 53 1024 (binary64OfZ t) (binary64OfZ l)) == round64 (inject_Z t / inject_Z l))%Q.
Proof.
  intros Ht Hl. apply Qeq_bool_iff.
  apply (forallb_range2
           (fun t l => Qeq_bool (SF2Q (SFdiv 53 1024 (binary64OfZ t) (binary64OfZ l)))
                                (round64 (inject_Z t / inject_Z l)))
           0 1 41 31); [vm_compute; reflexivity | lia | lia].
Qed.

Lemma round64_is_the_product_of_doubles (n cents : Z) :
  0 <= n <= 10 -> 0 <= cents <= 30 ->
  (SF2Q (SFmul 53 1024 (binary64OfZ n) (priceOfCents cents))
   == round64 (inject_Z n * SF2Q (priceOfCents cents)))%Q.
Proof.
  intros Hn Hcents. apply Qeq_bool_iff.
  apply (forallb_range2
           (fun n cents => Qeq_bool (SF2Q (SFmul 53 1024 (binary64OfZ n) (priceOfCents cents)))
                                    (round64 (inject_Z n * SF2Q (priceOfCents cents))))
           0 0 11 31); [vm_compute; reflexivity | lia | lia].
Qed.

Lemma round64_is_the_sum_of_doubles (a b : Z) :
  0 <= a <= 15 -> 0 <= b <= 15 ->
  (SF2Q (SFadd 53 1024 (priceOfCents a) (priceOfCents b))
   == round64 (SF2Q (priceOfCents a) + SF2Q (priceOfCents b)))%Q.
Proof.
  intros Ha Hb. apply Qeq_bool_iff.
  apply (forallb_range2
           (fun a b => Qeq_bool (SF2Q (SFadd 53 1024 (priceOfCents a) (priceOfCents b)))
                                (round64 (SF2Q (priceOfCents a) + SF2Q (priceOfCents b))))
           0 0 16 16); [vm_compute; reflexivity | lia | lia].
Qed.

(** C4, as amended.  On an empty sequence of period buckets the total and
    the daily average are 0 (no division takes place).  The total is the sum
    of the counts.  On a non-empty sequence the daily average is the quotient
    of doubles of the total and the number of buckets, rounded to one decimal
    place by [toFixed(1)]: a multiple of a tenth which, for a total below
    2^53 / 20 and fewer than 2^32 buckets, is at most 1/20 away from the
    total divided by the number of buckets. *)
Theorem trends_total_and_average (periodData : list FilledDay.t) :
  trendsTotal periodData = list_sum (map FilledDay.count periodData) /\
  (periodData = [] -> trendsTotal periodData = 0%nat /\ trendsDailyAverage periodData = 0%Q) /\
  (periodData <> [] ->
   let quotient := (inject_Z (Z.of_nat (trendsTotal periodData))
                    / inject_Z (Z.of_nat (List.length periodData)))%Q in
   trendsDailyAverage periodData = toFixed1 (round64 quotient) /\
   (20 * Z.of_nat (trendsTotal periodData) < 2 ^ 53 ->
    Z.of_nat (List.length periodData) < 2 ^ 32 ->
    (exists n : Z, trendsDailyAverage periodData = (inject_Z n / 10)%Q) /\
    (Qabs (trendsDailyAverage periodData - quotient) <= 1 # 20)%Q)).
Proof.
  split; [|split].
  - unfold trendsTotal. rewrite fold_left_add_counts. reflexivity.
  - intros ->. split; reflexivity.
  - intros Hne quotient.
    assert (Hlen : (0 < List.length periodData)%nat)
      by (destruct periodData; [congruence | simpl; lia]).
    assert (Havg : trendsDailyAverage periodData = toFixed1 (round64 quotient)).
    { unfold trendsDailyAverage. apply Nat.ltb_lt in Hlen. rewrite Hlen. reflexivity. }
    split; [exact Havg|]. intros Hsmall Hshort. rewrite Havg.
    destruct (round64_of_quotient (Z.of_nat (trendsTotal periodData))
                                  (Z.of_nat (List.length periodData)))
      as [Hnonneg Hnear]; try lia.
    apply toFixed1_of_near_quotient; try lia; assumption.
Qed.

(** ** The spending series of the costs screen *)

Lemma getCigaretteCost_resolves (w : World) :
  exists cost, getCigaretteCost w = (Resolved cost, advance w).
Proof.
  unfold getCigaretteCost, tryCatch, bind, getItem, ret, advance.
  destruct (nextCallRejects w); eexists; reflexivity.
Qed.

Lemma getCurrency_resolves (w : World) :
  exists currency, getCurrency w = (Resolved currency, advance w).
Proof.
  unfold getCurrency, tryCatch, getItem, ret, advance.
  destruct (nextCallRejects w); eexists; reflexivity.
Qed.

Lemma allDays_length (today : Z) (timeRange : TimeRange) :
  List.length (allDays today (daysOfRange timeRange)) = Z.to_nat (daysOfRange timeRange).
Proof.
  unfold allDays, eachDayOfInterval. rewrite length_map, length_seq. f_equal. ring.
Qed.

Lemma find_nothing {A : Type} (p : A -> bool) (l : list A) :
  (forall x, In x l -> p x = false) -> find p l = None.
Proof.
  induction l as [|x l IH]; intros H; [reflexivity|].
  cbn [find]. rewrite (H x (or_introl eq_refl)). apply IH.
  intros y Hy. apply H. right. exact Hy.
Qed.

Lemma find_first {A : Type} (p : A -> bool) (earlier later : list A) (x : A) :
  (forall y, In y earlier -> p y = false) -> p x = true ->
  find p (earlier ++ x :: later) = Some x.
Proof.
  induction earlier as [|y earlier IH]; intros Hearlier Hx; cbn [app find].
  - rewrite Hx. reflexivity.
  - rewrite (Hearlier y (or_introl eq_refl)). apply IH; [|exact Hx].
    intros z Hz. apply Hearlier. right. exact Hz.
Qed.

(** The records of [spendingData]: one for each day, whose count is that of
    the first bucket whose date reads as that day, 0 when there is none, and
    whose amount is the product of doubles of the count and the cost. *)
Lemma spendingData_records (cost : Q) (buckets : list DailyData) (days : list Z) :
  List.length (spendingData cost buckets days) = List.length days /\
  map DailySpending.date (spendingData cost buckets days) = days /\
  (forall r, In r (spendingData cost buckets days) ->
             DailySpending.amount r
             = round64 (inject_Z (Z.of_nat (DailySpending.count r)) * cost)) /\
  (forall r, In r (spendingData cost buckets days) ->
             (forall b, In b buckets -> localDay (date b) <> DailySpending.date r) ->
             DailySpending.count r = 0%nat) /\
  (forall r earlier b later,
      In r (spendingData cost buckets days) ->
      buckets = earlier ++ b :: later ->
      (forall b', In b' earlier -> localDay (date b') <> DailySpending.date r) ->
      localDay (date b) = DailySpending.date r ->
      DailySpending.count r = count b).
Proof.
  unfold spendingData. split; [apply length_map|]. split; [|split; [|split]].
  - rewrite map_map. cbn [DailySpending.date]. apply map_id.
  - intros r Hr. apply in_map_iff in Hr. destruct Hr as (day & <- & _). reflexivity.
  - intros r Hr Hnone. apply in_map_iff in Hr. destruct Hr as (day & <- & _).
    cbn [DailySpending.count DailySpending.date] in *. unfold existingOn.
    rewrite find_nothing; [reflexivity|].
    intros b Hb. apply Z.eqb_neq. apply Hnone. exact Hb.
  - intros r earlier b later Hr -> Hearlier Hb.
    apply in_map_iff in Hr. destruct Hr as (day & <- & _).
    cbn [DailySpending.count DailySpending.date] in *. unfold existingOn.
    rewrite (find_first _ earlier later b); [reflexivity | | apply Z.eqb_eq; exact Hb].
    intros b' Hb'. apply Z.eqb_neq. apply Hearlier. exact Hb'.
Qed.

(** ** The charts where the offset of local time does not change *)

Lemma logsByDay_window (offset today days : Z) (logs : list CigaretteLog) :
  (forall t, tz t = offset) ->
  0 <= days ->
  logsByDay today logs days = map (bucketOf logs) (allDays today days).
Proof.
  intros Hfixed Hdays. rewrite logsByDay_of_keys, initCounts_keys.
  rewrite (visitedKeys_fixed offset Hfixed).
  rewrite fold_setZero_fresh by (simpl; apply countdown_NoDup). cbn [app].
  rewrite !map_map. cbn [fst]. unfold bucketOf.
  rewrite (sortByDate_countdown (fun k => logsOn k logs) (localDay today) (Z.to_nat days) 0).
  rewrite (rev_countdown (fun day => {| date := dateOfKey day; count := logsOn day logs |})
                         (localDay today) (Z.to_nat days)).
  unfold allDays, eachDayOfInterval. rewrite map_map.
  replace (localDay today - (localDay today - (days - 1)) + 1) with days by ring.
  apply map_ext. intros j.
  replace (localDay today - (Z.of_nat (Z.to_nat days) - 1) + Z.of_nat j)
    with (localDay today - (days - 1) + Z.of_nat j) by lia.
  reflexivity.
Qed.

Lemma allDays_In (today days day : Z) :
  In day (allDays today days) <-> localDay today - days < day <= localDay today.
Proof.
  unfold allDays, eachDayOfInterval. rewrite in_map_iff. split.
  - intros (j & <- & Hj). apply in_seq in Hj. lia.
  - intros H. exists (Z.to_nat (day - (localDay today - (days - 1)))). split; [lia|].
    apply in_seq. lia.
Qed.

Lemma allDays_existsb (today days day : Z) :
  existsb (Z.eqb day) (allDays today days)
  = (localDay today - days <? day) && (day <=? localDay today).
Proof.
  apply eq_true_iff_eq. rewrite existsb_exists, andb_true_iff, Z.ltb_lt, Z.leb_le. split.
  - intros (x & Hx & E). apply Z.eqb_eq in E. subst x. apply allDays_In. exact Hx.
  - intros H. exists day. split; [apply allDays_In; exact H | apply Z.eqb_refl].
Qed.

(** Where the date of the bucket of day [k] reads as day [k + shift], the
    bucket found for a day is the one of [shift] days before. *)
Lemma existingOn_buckets (shift : Z) (logs : list CigaretteLog) (keys : list Z) (day : Z) :
  (forall k, localDay (dateOfKey k) = k + shift) ->
  existingOn (map (bucketOf logs) keys) day
  = if existsb (Z.eqb (day - shift)) keys then Some (bucketOf logs (day - shift)) else None.
Proof.
  intros Hshift. unfold existingOn.
  induction keys as [|k keys IH]; [reflexivity|].
  cbn [map find existsb bucketOf date]. rewrite Hshift.
  destruct (Z.eqb_spec (k + shift) day) as [E|E].
  - replace (day - shift) with k by lia. rewrite Z.eqb_refl. reflexivity.
  - destruct (Z.eqb_spec (day - shift) k) as [E'|_]; [lia|]. exact IH.
Qed.

Lemma countsFound (shift : Z) (logs : list CigaretteLog) (today days : Z) :
  (forall k, localDay (dateOfKey k) = k + shift) ->
  map (fun day => match existingOn (map (bucketOf logs) (allDays today days)) day with
                  | Some e => count e
                  | None => 0%nat
                  end) (allDays today days)
  = map (fun day => if (localDay today - days <? day - shift)
                         && (day - shift <=? localDay today)
                    then logsOn (day - shift) logs else 0%nat) (allDays today days).
Proof.
  intros Hshift. apply map_ext. intros day.
  rewrite (existingOn_buckets shift logs _ day Hshift), allDays_existsb.
  destruct ((localDay today - days <? day - shift) && (day - shift <=? localDay today));
    reflexivity.
Qed.

Lemma filledData_counts (buckets : list DailyData) (days : list Z) :
  map FilledDay.count (filledData buckets days)
  = map (fun day => match existingOn buckets day with
                    | Some e => count e
                    | None => 0%nat
                    end) days.
Proof.
  unfold filledData. rewrite map_map. reflexivity.
Qed.

Lemma spendingData_counts (cost : Q) (buckets : list DailyData) (days : list Z) :
  map DailySpending.count (spendingData cost buckets days)
  = map (fun day => match existingOn buckets day with
                    | Some e => count e
                    | None => 0%nat
                    end) days.
Proof.
  unfold spendingData. rewrite map_map. reflexivity.
Qed.

Lemma trendsLoadData_chart (today : Z) (timeRange : TimeRange) (w : World) :
  exists screen,
    trendsLoadData today timeRange w = (Resolved screen, advance w) /\
    trendsChart screen
    = map FilledDay.count
          (filledData (logsByDay today (readLogs w) (daysOfRange timeRange))
                      (allDays today (daysOfRange timeRange))).
Proof.
  unfold trendsLoadData, bind. rewrite getLogsByDay_eq.
  eexists. split; reflexivity.
Qed.

Lemma daysOfRange_nonneg (timeRange : TimeRange) : 0 <= daysOfRange timeRange.
Proof.
  destruct timeRange; simpl; lia.
Qed.

(** ** The spending series of the costs screen, as the screen loads it *)

Lemma spendingData_of_each_bucket
      (offset today days : Z) (cost : Q) (logs : list CigaretteLog) :
  (forall t, tz t = offset) ->
  0 <= offset < msPerDay ->
  0 <= days ->
  map (fun r => (DailySpending.date r, DailySpending.count r))
      (spendingData cost (logsByDay today logs days) (allDays today days))
  = map (fun b => (localDay (date b), count b)) (logsByDay today logs days).
Proof.
  intros Hfixed Hoffset Hdays.
  assert (Hshift : forall k, localDay (dateOfKey k) = k + 0).
  { intros k. rewrite (proj1 (localDay_dateOfKey offset k Hfixed) Hoffset). ring. }
  rewrite (logsByDay_window offset today days logs Hfixed Hdays).
  unfold spendingData. rewrite !map_map.
  cbn [DailySpending.date DailySpending.count bucketOf date count].
  apply map_ext_in. intros day Hday.
  rewrite (existingOn_buckets 0 logs _ day Hshift).
  replace (day - 0) with day by ring.
  assert (Hfound : existsb (Z.eqb day) (allDays today days) = true).
  { apply existsb_exists. exists day. split; [exact Hday | apply Z.eqb_refl]. }
  rewrite Hfound, Hshift. cbn [bucketOf count]. f_equal. ring.
Qed.

(** C3, as amended.  [loadData] of the costs screen always resolves.  For a
    cost of 0 it derives no record: the chart is empty and the statistics are
    0.  For any other cost it charts the amounts of one record for each day
    of the window (7 or 30 days); the amount of a record is the product of
    doubles count * cost, not rounded any further; its count is the count of
    the first bucket of [getLogsByDay] whose date reads as the day of the
    record, and 0 when no bucket reads so.  Where local time has a fixed
    offset between 0 and 24 hours, that is one record for each bucket, in
    the order of the buckets, with the day and the count of the bucket. *)
Theorem costs_spending_series (today : Z) (timeRange : TimeRange) (w : World) :
  exists cost buckets screen,
    getCigaretteCost w = (Resolved cost, advance w) /\
    getLogsByDay today (daysOfRange timeRange) (advance (advance w))
    = (Resolved buckets, advance (advance (advance w))) /\
    costsLoadData today timeRange w
    = (Resolved screen,
       if Qeq_bool cost 0 then advance (advance w) else advance (advance (advance w))) /\
    cigaretteCost screen = cost /\
    let days := allDays today (daysOfRange timeRange) in
    let spending := spendingData cost buckets days in
    (Qeq_bool cost 0 = true ->
     chartData screen = [] /\
     stats screen = {| CostsStats.totalSpent := 0; CostsStats.dailyAverage := 0;
                       CostsStats.totalCigarettes := 0 |}) /\
    (Qeq_bool cost 0 = false -> chartData screen = map DailySpending.amount spending) /\
    List.length spending = Z.to_nat (daysOfRange timeRange) /\
    map DailySpending.date spending = days /\
    (forall r, In r spending ->
               DailySpending.amount r
               = round64 (inject_Z (Z.of_nat (DailySpending.count r)) * cost)) /\
    (forall r, In r spending ->
               (forall b, In b buckets -> localDay (date b) <> DailySpending.date r) ->
               DailySpending.count r = 0%nat) /\
    (forall r earlier b later,
        In r spending ->
        buckets = earlier ++ b :: later ->
        (forall b', In b' earlier -> localDay (date b') <> DailySpending.date r) ->
        localDay (date b) = DailySpending.date r ->
        DailySpending.count r = count b) /\
    (forall offset,
        (forall t, tz t = offset) ->
        0 <= offset < msPerDay ->
        map (fun r => (DailySpending.date r, DailySpending.count r)) spending
        = map (fun b => (localDay (date b), count b)) buckets).
Proof.
  destruct (getCigaretteCost_resolves w) as [cost Hcost].
  destruct (getCurrency_resolves (advance w)) as [currency Hcurrency].
  pose proof (getLogsByDay_eq today (daysOfRange timeRange) (advance (advance w))) as Hbuckets.
  set (logs := if nextCallRejects (advance (advance w)) then []
               else storedLogs (disk (advance (advance w)))) in *.
  set (buckets := logsByDay today logs (daysOfRange timeRange)) in *.
  pose proof (spendingData_records cost buckets (allDays today (daysOfRange timeRange)))
    as (Hlen & Hdates & Hamounts & Hnone & Hfirst).
  rewrite allDays_length in Hlen.
  assert (Hload : exists screen,
             costsLoadData today timeRange w
             = (Resolved screen,
                if Qeq_bool cost 0 then advance (advance w)
                else advance (advance (advance w))) /\
             cigaretteCost screen = cost /\
             (Qeq_bool cost 0 = true ->
              chartData screen = [] /\
              stats screen = {| CostsStats.totalSpent := 0; CostsStats.dailyAverage := 0;
                                CostsStats.totalCigarettes := 0 |}) /\
             (Qeq_bool cost 0 = false ->
              chartData screen
              = map DailySpending.amount
                    (spendingData cost buckets (allDays today (daysOfRange timeRange))))).
  { unfold costsLoadData, bind. rewrite Hcost, Hcurrency.
    destruct (Qeq_bool cost 0) eqn:Ezero.
    - eexists. split; [reflexivity|]. split; [reflexivity|].
      split; [intros _; split; reflexivity | discriminate].
    - rewrite Hbuckets. eexists. split; [reflexivity|]. split; [reflexivity|].
      split; [discriminate | intros _; reflexivity]. }
  destruct Hload as (screen & Hscreen & Hcostfield & Hzero & Hchart).
  exists cost, buckets, screen.
  split; [exact Hcost|]. split; [exact Hbuckets|]. split; [exact Hscreen|].
  split; [exact Hcostfield|]. cbv zeta.
  split; [exact Hzero|]. split; [exact Hchart|].
  split; [exact Hlen|]. split; [exact Hdates|]. split; [exact Hamounts|].
  split; [exact Hnone|]. split; [exact Hfirst|].
  intros offset Hfixed Hoffset.
  apply (spendingData_of_each_bucket offset today (daysOfRange timeRange) cost logs Hfixed
           Hoffset (daysOfRange_nonneg timeRange)).
Qed.

(** X19.  East of Greenwich, where the offset of local time is fixed and
    between 0 and 24 hours, the chart of the trends screen has one point for
    each day of the window, oldest first, and the point of a day is the
    number of logs of that local day; the records of the costs screen carry
    the same counts. *)
Theorem charts_show_each_day_east_of_Greenwich
        (offset today : Z) (timeRange : TimeRange) (cost : Q) (w : World) :
  (forall t, tz t = offset) ->
  0 <= offset < msPerDay ->
  let days := daysOfRange timeRange in
  let shown := map (fun day => logsOn day (readLogs w)) (allDays today days) in
  (exists screen,
      trendsLoadData today timeRange w = (Resolved screen, advance w) /\
      trendsChart screen = shown) /\
  map DailySpending.count
      (spendingData cost (logsByDay today (readLogs w) days) (allDays today days))
  = shown.
Proof.
  intros Hfixed Hoffset days shown.
  assert (Hshift : forall k, localDay (dateOfKey k) = k + 0).
  { intros k. rewrite (proj1 (localDay_dateOfKey offset k Hfixed) Hoffset). ring. }
  assert (Hcounts :
            map (fun day =>
                   match existingOn (logsByDay today (readLogs w) days) day with
                   | Some e => count e
                   | None => 0%nat
                   end) (allDays today days) = shown).
  { rewrite (logsByDay_window offset today days _ Hfixed (daysOfRange_nonneg timeRange)).
    rewrite (countsFound 0 _ today days Hshift). unfold shown.
    apply map_ext_in. intros day Hday. apply allDays_In in Hday.
    replace (day - 0) with day by ring.
    destruct (Z.ltb_spec (localDay today - days) day); [|lia].
    destruct (Z.leb_spec day (localDay today)); [reflexivity|lia]. }
  split.
  - destruct (trendsLoadData_chart today timeRange w) as (screen & Hload & Hchart).
    exists screen. split; [exact Hload|]. rewrite Hchart, filledData_counts. exact Hcounts.
  - rewrite spendingData_counts. exact Hcounts.
Qed.

(** X20.  West of Greenwich, where the offset of local time is fixed and
    between -24 hours and 0, the charts are a day off: the point of every day
    before today is the number of logs of the local day after it, and the
    point of today is 0, whatever was logged today. *)
Theorem charts_are_a_day_off_west_of_Greenwich
        (offset today : Z) (timeRange : TimeRange) (cost : Q) (w : World) :
  (forall t, tz t = offset) ->
  - msPerDay <= offset < 0 ->
  let days := daysOfRange timeRange in
  let shown := map (fun day => if day <? localDay today
                               then logsOn (day + 1) (readLogs w) else 0%nat)
                   (allDays today days) in
  (exists screen,
      trendsLoadData today timeRange w = (Resolved screen, advance w) /\
      trendsChart screen = shown) /\
  map DailySpending.count
      (spendingData cost (logsByDay today (readLogs w) days) (allDays today days))
  = shown.
Proof.
  intros Hfixed Hoffset days shown.
  assert (Hshift : forall k, localDay (dateOfKey k) = k + -1).
  { intros k. rewrite (proj2 (localDay_dateOfKey offset k Hfixed) Hoffset). ring. }
  assert (Hcounts :
            map (fun day =>
                   match existingOn (logsByDay today (readLogs w) days) day with
                   | Some e => count e
                   | None => 0%nat
                   end) (allDays today days) = shown).
  { rewrite (logsByDay_window offset today days _ Hfixed (daysOfRange_nonneg timeRange)).
    rewrite (countsFound (-1) _ today days Hshift). unfold shown.
    apply map_ext_in. intros day Hday. apply allDays_In in Hday.
    replace (day - -1) with (day + 1) by ring.
    destruct (Z.ltb_spec (localDay today - days) (day + 1)); [|lia].
    destruct (Z.leb_spec (day + 1) (localDay today));
      destruct (Z.ltb_spec day (localDay today)); cbn [andb]; (reflexivity || lia). }
  split.
  - destruct (trendsLoadData_chart today timeRange w) as (screen & Hload & Hchart).
    exists screen. split; [exact Hload|]. rewrite Hchart, filledData_counts. exact Hcounts.
  - rewrite spendingData_counts. exact Hcounts.
Qed.

(** ** The totals of the costs screen *)

Lemma totalCigarettes_sum (periodData : list DailySpending.t) (start : nat) :
  fold_left (fun sum day => (sum + DailySpending.count day)%nat) periodData start
  = (start + list_sum (map DailySpending.count periodData))%nat.
Proof.
  revert start. induction periodData as [|day periodData IH]; intros start; simpl.
  - lia.
  - rewrite IH. lia.
Qed.

Lemma half_cost_normal (cost x : Q) :
  (2 ^ (-1000) <= cost)%Q -> (cost * (1 # 2) <= x)%Q -> (2 ^ (-1022) <= x)%Q.
Proof.
  intros Hcost H. apply (Qle_trans _ (2 ^ (-1000) * (1 # 2))); [vm_compute; discriminate|].
  apply (Qle_trans _ (cost * (1 # 2))); [|exact H].
  apply Qmult_le_compat_r; [exact Hcost | discriminate].
Qed.

(** Adding the amount of one more day to a sum keeps it near the exact sum,
    with two more roundings. *)
Lemma nearTotal_step (cost K exact x : Q) (c : nat) :
  (2 ^ (-1000) <= cost)%Q ->
  (unitRoundoff <= K)%Q -> (2 * K <= 1)%Q ->
  nearTotal cost K exact x ->
  nearTotal cost (K + unitRoundoff) (exact + inject_Z (Z.of_nat c) * cost)
            (round64 (x + round64 (inject_Z (Z.of_nat c) * cost))).
Proof.
  intros Hnormal HK1 HK2 Hnear.
  assert (Hcost : (0 < cost)%Q)
    by (apply (Qlt_le_trans _ (2 ^ (-1000))); [apply Qpower2_pos | exact Hnormal]).
  set (p := (inject_Z (Z.of_nat c) * cost)%Q).
  set (a := round64 p).
  assert (Hp : (p == 0 /\ a == 0)%Q \/
               (cost <= p /\ p * (1 - unitRoundoff) <= a <= p * (1 + unitRoundoff))%Q).
  { destruct c as [|c].
    - left. assert (Hz : (p == 0)%Q) by (unfold p; simpl; ring).
      split; [exact Hz|]. unfold a. rewrite (round64_zero p Hz). reflexivity.
    - right.
      assert (H1 : (1 <= inject_Z (Z.of_nat (S c)))%Q).
      { change 1%Q with (inject_Z 1). rewrite <- Zle_Qle. lia. }
      assert (Hge : (cost <= p)%Q).
      { unfold p. rewrite <- (Qmult_1_l cost) at 1. apply Qmult_le_compat_r; lra. }
      split; [exact Hge|]. apply round64_relative. right.
      apply (half_cost_normal cost); [exact Hnormal | lra]. }
  change unitRoundoff with (1 # 9007199254740992)%Q in *.
  assert (Hsums : (0 <= exact -> 0 <= p -> exact * (1 - K) <= x <= exact * (1 + 2 * K) ->
                   p * (1 - (1 # 9007199254740992)) <= a <= p * (1 + (1 # 9007199254740992)) ->
                   cost <= exact + p ->
                   (exact + p) * (1 - (K + (1 # 9007199254740992)))
                   <= round64 (x + a)
                   <= (exact + p) * (1 + 2 * (K + (1 # 9007199254740992))))%Q).
  { intros HS0 Hp0 Hx Ha Hge.
    assert (HSK : (0 <= exact * K)%Q) by (apply Qmult_le_0_compat; lra).
    assert (HSK2 : (exact * K <= exact * (1 # 2))%Q).
    { rewrite !(Qmult_comm exact). apply Qmult_le_compat_r; lra. }
    assert (HpK : (p * (1 # 9007199254740992) <= p * K)%Q).
    { rewrite !(Qmult_comm p). apply Qmult_le_compat_r; lra. }
    assert (HpK2 : (p * K <= p * (1 # 2))%Q).
    { rewrite !(Qmult_comm p). apply Qmult_le_compat_r; lra. }
    assert (Hsum : (x + a == 0 \/ 2 ^ (-1022) <= x + a)%Q).
    { right. apply (half_cost_normal cost); [exact Hnormal | lra]. }
    pose proof (round64_relative (x + a) Hsum) as Hr.
    change unitRoundoff with (1 # 9007199254740992)%Q in Hr.
    lra. }
  destruct Hnear as [[HS Hx]|[HS Hx]]; destruct Hp as [[Hp0 Ha]|[Hpc Ha]].
  - left. split; [lra|]. rewrite round64_zero; [reflexivity | lra].
  - right. split; [lra|]. apply Hsums; (lra || (rewrite HS, Hx; lra)).
  - right. split; [lra|]. apply Hsums; (lra || (rewrite Hp0, Ha; lra)).
  - right. split; [lra|]. apply Hsums; lra.
Qed.

Lemma nearTotal_compat (cost K K' exact exact' x : Q) :
  (K == K')%Q -> (exact == exact')%Q -> nearTotal cost K exact x -> nearTotal cost K' exact' x.
Proof.
  intros HK HS [[H1 H2]|[H1 H2]]; [left|right].
  - split; [rewrite <- HS; exact H1 | exact H2].
  - rewrite <- HK, <- HS. split; assumption.
Qed.

Lemma nearTotal_fold (cost : Q) (counts : list nat) (K exact x : Q) :
  (2 ^ (-1000) <= cost)%Q ->
  (unitRoundoff <= K)%Q ->
  (2 * (K + inject_Z (Z.of_nat (List.length counts)) * unitRoundoff) <= 1)%Q ->
  nearTotal cost K exact x ->
  nearTotal cost (K + inject_Z (Z.of_nat (List.length counts)) * unitRoundoff)
            (exact + inject_Z (Z.of_nat (list_sum counts)) * cost)
            (fold_left (fun sum c => round64 (sum + round64 (inject_Z (Z.of_nat c) * cost)))
                       counts x).
Proof.
  intros Hnormal. revert K exact x.
  induction counts as [|c counts IH]; intros K exact x HK1 HK2 Hnear.
  - cbn [fold_left List.length]. apply (nearTotal_compat cost K _ exact _); [| |exact Hnear];
      try change (list_sum (@nil nat)) with 0%nat; change (inject_Z (Z.of_nat 0)) with 0%Q; ring.
  - cbn [fold_left].
    assert (Hu : (0 < unitRoundoff)%Q) by reflexivity.
    assert (Hlen : (0 <= inject_Z (Z.of_nat (List.length counts)))%Q).
    { change 0%Q with (inject_Z 0). rewrite <- Zle_Qle. lia. }
    assert (Hlen' : (inject_Z (Z.of_nat (List.length (c :: counts)))
                     == inject_Z (Z.of_nat (List.length counts)) + 1)%Q).
    { cbn [List.length]. rewrite Nat2Z.inj_succ, <- Z.add_1_r, inject_Z_plus. reflexivity. }
    assert (Hsum' : (inject_Z (Z.of_nat (list_sum (c :: counts)))
                     == inject_Z (Z.of_nat c) + inject_Z (Z.of_nat (list_sum counts)))%Q).
    { change (list_sum (c :: counts)) with (c + list_sum counts)%nat.
      rewrite Nat2Z.inj_add, inject_Z_plus. reflexivity. }
    rewrite Hlen' in HK2.
    assert (Hprod : (0 <= inject_Z (Z.of_nat (List.length counts)) * unitRoundoff)%Q)
      by (apply Qmult_le_0_compat; lra).
    apply (nearTotal_compat cost
             (K + unitRoundoff + inject_Z (Z.of_nat (List.length counts)) * unitRoundoff) _
             (exact + inject_Z (Z.of_nat c) * cost
              + inject_Z (Z.of_nat (list_sum counts)) * cost) _).
    + rewrite Hlen'. ring.
    + rewrite Hsum'. ring.
    + apply IH.
      * lra.
      * lra.
      * apply nearTotal_step; [exact Hnormal | lra | lra | exact Hnear].
Qed.

Lemma totalSpent_of_counts (cost : Q) (periodData : list DailySpending.t) (start : Q) :
  (forall r, In r periodData ->
             DailySpending.amount r
             = round64 (inject_Z (Z.of_nat (DailySpending.count r)) * cost)) ->
  fold_left (fun sum day => round64 (sum + DailySpending.amount day)) periodData start
  = fold_left (fun sum c => round64 (sum + round64 (inject_Z (Z.of_nat c) * cost)))
              (map DailySpending.count periodData) start.
Proof.
  revert start. induction periodData as [|day periodData IH]; intros start Hall; [reflexivity|].
  cbn [fold_left map]. rewrite (Hall day (or_introl eq_refl)).
  apply IH. intros r Hr. apply Hall. right. exact Hr.
Qed.

(** The total spent of a period of at most 30 records is near the number of
    its cigarettes times the cost. *)
Lemma totalSpent_near (cost : Q) (periodData : list DailySpending.t) :
  (2 ^ (-1000) <= cost)%Q ->
  (List.length periodData <= 30)%nat ->
  (forall r, In r periodData ->
             DailySpending.amount r
             = round64 (inject_Z (Z.of_nat (DailySpending.count r)) * cost)) ->
  let exact := (inject_Z (Z.of_nat (totalCigarettes periodData)) * cost)%Q in
  (Qabs (totalSpent periodData - exact) * 2 ^ 47 <= exact)%Q /\
  (totalCigarettes periodData = 0%nat -> (totalSpent periodData == 0)%Q).
Proof.
  intros Hnormal Hshort Hall exact.
  assert (Hcost : (0 < cost)%Q)
    by (apply (Qlt_le_trans _ (2 ^ (-1000))); [apply Qpower2_pos | exact Hnormal]).
  unfold totalSpent. rewrite (totalSpent_of_counts cost periodData 0 Hall).
  assert (Hcig : totalCigarettes periodData = list_sum (map DailySpending.count periodData)).
  { unfold totalCigarettes. rewrite totalCigarettes_sum. reflexivity. }
  set (counts := map DailySpending.count periodData) in *.
  assert (Hlen : List.length counts = List.length periodData) by apply length_map.
  set (n := inject_Z (Z.of_nat (List.length counts))).
  assert (Hn0 : (0 <= n)%Q).
  { unfold n. change 0%Q with (inject_Z 0). rewrite <- Zle_Qle. lia. }
  assert (Hn30 : (n <= 30)%Q).
  { unfold n. change 30%Q with (inject_Z 30). rewrite <- Zle_Qle. lia. }
  assert (Hstart : nearTotal cost unitRoundoff 0 0) by (left; split; reflexivity).
  pose proof (nearTotal_fold cost counts unitRoundoff 0 0 Hnormal (Qle_refl _)) as Hfold.
  fold n in Hfold.
  assert (Hroom : (2 * (unitRoundoff + n * unitRoundoff) <= 1)%Q).
  { change unitRoundoff with (1 # 9007199254740992)%Q. lra. }
  specialize (Hfold Hroom Hstart).
  set (total := fold_left _ counts 0%Q) in *.
  assert (Hexact : (0 + inject_Z (Z.of_nat (list_sum counts)) * cost == exact)%Q).
  { unfold exact. rewrite Hcig. ring. }
  apply (nearTotal_compat cost _ (unitRoundoff + n * unitRoundoff) _ exact) in Hfold;
    [|reflexivity | exact Hexact].
  assert (H47 : (2 ^ 47 == 140737488355328)%Q) by reflexivity.
  rewrite H47. clear Hroom Hstart Hexact H47.
  change unitRoundoff with (1 # 9007199254740992)%Q in Hfold.
  destruct Hfold as [[He Ht]|[He Ht]].
  - split; [|intros _; exact Ht].
    rewrite He, Ht. setoid_replace (0 - 0)%Q with 0%Q by ring. cbn [Qabs Z.abs Qnum Qden]. lra.
  - split.
    + assert (He0 : (0 <= exact)%Q) by lra.
      assert (Hen : (exact * n <= exact * 30)%Q).
      { rewrite !(Qmult_comm exact). apply Qmult_le_compat_r; [exact Hn30 | exact He0]. }
      assert (Hen0 : (0 <= exact * n)%Q) by (apply Qmult_le_0_compat; assumption).
      destruct (Qlt_le_dec (total - exact) 0) as [Hneg|Hpos].
      * rewrite (Qabs_neg (total - exact)) by lra. lra.
      * rewrite (Qabs_pos (total - exact)) by lra. lra.
    + intros Hnone. exfalso.
      assert (Hz : (exact == 0)%Q) by (unfold exact; rewrite Hnone; ring).
      lra.
Qed.

(** X21.  Where [getCigaretteCost] yields a cost in the range of the normal
    doubles (from 2^-1000 to 2^900 here), [loadData] of the costs screen
    resolves, and the total spent it sets is the number of cigarettes it sets
    times the cost up to the rounding of the sum: it differs from that
    product by at most its 2^47th part, and it is 0 when the number of
    cigarettes is 0.  The two need not be equal, each addition and each
    multiplication being rounded. *)
Theorem costs_total_is_count_times_cost
        (today : Z) (timeRange : TimeRange) (cost : Q) (w : World) :
  getCigaretteCost w = (Resolved cost, advance w) ->
  (2 ^ (-1000) <= cost <= 2 ^ 900)%Q ->
  exists screen w',
    costsLoadData today timeRange w = (Resolved screen, w') /\
    cigaretteCost screen = cost /\
    (Qabs (CostsStats.totalSpent (stats screen)
           - inject_Z (Z.of_nat (CostsStats.totalCigarettes (stats screen))) * cost)
     * 2 ^ 47
     <= inject_Z (Z.of_nat (CostsStats.totalCigarettes (stats screen))) * cost)%Q /\
    (CostsStats.totalCigarettes (stats screen) = 0%nat ->
     (CostsStats.totalSpent (stats screen) == 0)%Q).
Proof.
  intros Hcost [Hnormal _].
  assert (Hpos : (0 < cost)%Q)
    by (apply (Qlt_le_trans _ (2 ^ (-1000))); [apply Qpower2_pos | exact Hnormal]).
  assert (Hnonzero : Qeq_bool cost 0 = false).
  { destruct (Qeq_bool cost 0) eqn:E; [|reflexivity].
    apply Qeq_bool_iff in E. lra. }
  destruct (getCurrency_resolves (advance w)) as [currency Hcurrency].
  unfold costsLoadData, bind. rewrite Hcost, Hcurrency, Hnonzero, getLogsByDay_eq.
  eexists; eexists. split; [reflexivity|]. split; [reflexivity|].
  cbn [stats CostsStats.totalSpent CostsStats.totalCigarettes].
  set (spending := spendingData cost _ _).
  assert (Hlen : (List.length spending <= 30)%nat).
  { unfold spending. rewrite (proj1 (spendingData_records cost _ _)), allDays_length.
    destruct timeRange; simpl; lia. }
  assert (Hall : forall p r, In r (filter p spending) ->
                 DailySpending.amount r
                 = round64 (inject_Z (Z.of_nat (DailySpending.count r)) * cost)).
  { intros p r Hr. apply filter_In in Hr. destruct Hr as [Hr _].
    unfold spending, spendingData in Hr. apply in_map_iff in Hr.
    destruct Hr as (day & <- & _). reflexivity. }
  assert (Hshort : forall p, (List.length (filter p spending) <= 30)%nat).
  { intros p. pose proof (filter_length_le p spending). lia. }
  destruct timeRange; apply totalSpent_near;
    [exact Hnormal | apply Hshort | apply Hall | exact Hnormal | apply Hshort | apply Hall].
Qed.

Lemma digitsOnly_uint (d : Decimal.uint) :
  digitsOnly (NilEmpty.string_of_uint d) = NilEmpty.string_of_uint d.
Proof.
  induction d; simpl; try rewrite IHd; reflexivity.
Qed.

(** The decimal text of a number that is not negative has digits only. *)
Lemma digitsOnly_toString (n : Z) : 0 <= n -> digitsOnly (toString n) = toString n.
Proof.
  intros H. unfold toString. destruct n as [|p|p]; [reflexivity| |lia].
  simpl. unfold NilZero.string_of_uint.
  destruct (Pos.to_uint p); try reflexivity; apply digitsOnly_uint.
Qed.

Lemma digitsOnly_idempotent (text : string) : digitsOnly (digitsOnly text) = digitsOnly text.
Proof.
  induction text as [|c rest IH]; [reflexivity|].
  simpl. destruct (isDigit c) eqn:E; [|exact IH].
  simpl. rewrite E, IH. reflexivity.
Qed.

Lemma orZ_of_read (n : Z) : orZ (Some n) 0 = n.
Proof.
  unfold orZ. destruct (Z.eqb_spec n 0) as [->|_]; reflexivity.
Qed.

(** A goal that was saved is the goal that is read, and the text that
    [loadGoal] puts into the field is its text. *)
Lemma saved_goal_is_read (next : Z) (inputValue : string) (w : World) :
  noFaults w ->
  parseInt (toString next) = Some next ->
  exists w1,
    setDailyGoal next w = (Resolved tt, w1) /\
    disk w1 = writeKey GOAL_KEY (toString next) (disk w) /\
    getDailyGoal w1 = (Resolved next, advance w1) /\
    loadGoal inputValue w1 = (Resolved (toString next), advance w1).
Proof.
  intros Hw Hparse.
  assert (Hget : getDailyGoal {| disk := writeKey GOAL_KEY (toString next) (disk w);
                                 faults := tl (faults w) |}
                 = (Resolved next,
                    advance {| disk := writeKey GOAL_KEY (toString next) (disk w);
                               faults := tl (faults w) |})).
  { unfold getDailyGoal, tryCatch, bind, getItem, ret, advance.
    rewrite (noFaults_next _ (noFaults_written GOAL_KEY (toString next) w Hw)).
    cbn [disk readKey writeKey GOAL_KEY dailyGoalItem faults].
    rewrite toString_truthy, Hparse. unfold DEFAULT_GOAL. rewrite orZ_of_read. reflexivity. }
  eexists. split; [|split; [|split]].
  - unfold setDailyGoal, tryCatch, setItem. rewrite (noFaults_next w Hw). reflexivity.
  - reflexivity.
  - exact Hget.
  - unfold loadGoal, tryCatch, bind. rewrite Hget. reflexivity.
Qed.

(** X22.  While AsyncStorage answers, the goal field of the settings screen
    and the store stay in step.  Let the field hold a text whose digits read
    as the goal [g] (an empty or unreadable field reads as 0), let [g],
    [delta] and their sum be safe integers, and let [parseInt] read the
    decimal text of [next = max(0, g + delta)] back.  Then [adjustGoal(delta)]
    leaves the text of [next] in the field, so the minus button stops at 0;
    [getDailyGoal] then yields [next]; [loadGoal] shows the same text when the
    screen is opened again; the field reads as [next] for the next press;
    leaving the field ([onBlur]) stores [next] again; and the stored logs are
    not touched. *)
Theorem adjustGoal_keeps_field_and_store_in_step
        (delta g : Z) (inputValue opened : string) (w : World) :
  noFaults w ->
  orZ (parseInt (digitsOnly inputValue)) 0 = g ->
  safeInteger g -> safeInteger delta -> safeInteger (g + delta) ->
  parseInt (toString (Z.max 0 (g + delta))) = Some (Z.max 0 (g + delta)) ->
  0 <= Z.max 0 (g + delta) /\
  exists w1 w2,
    adjustGoal delta inputValue w = (Resolved (toString (Z.max 0 (g + delta))), w1) /\
    getDailyGoal w1 = (Resolved (Z.max 0 (g + delta)), advance w1) /\
    loadGoal opened w1 = (Resolved (toString (Z.max 0 (g + delta))), advance w1) /\
    storedLogs (disk w1) = storedLogs (disk w) /\
    orZ (parseInt (digitsOnly (toString (Z.max 0 (g + delta))))) 0 = Z.max 0 (g + delta) /\
    onBlur (toString (Z.max 0 (g + delta))) w1 = (Resolved tt, w2) /\
    getDailyGoal w2 = (Resolved (Z.max 0 (g + delta)), advance w2).
Proof.
  intros Hw Hfield _ _ _ Hparse.
  set (next := Z.max 0 (g + delta)) in *.
  assert (Hnext : 0 <= next) by apply Z.le_max_l.
  split; [exact Hnext|].
  destruct (saved_goal_is_read next opened w Hw Hparse) as (w1 & Hset & Hdisk & Hget & Hload).
  assert (Hw1 : noFaults w1).
  { unfold setDailyGoal, tryCatch, setItem in Hset. rewrite (noFaults_next w Hw) in Hset.
    injection Hset as <-. apply (noFaults_written GOAL_KEY (toString next) w Hw). }
  destruct (saved_goal_is_read next opened w1 Hw1 Hparse) as (w2 & Hset2 & _ & Hget2 & _).
  exists w1, w2. split; [|split; [|split; [|split; [|split; [|split]]]]].
  - unfold adjustGoal, tryCatch, bind. rewrite Hfield. fold next. rewrite Hset. reflexivity.
  - exact Hget.
  - exact Hload.
  - rewrite Hdisk. reflexivity.
  - rewrite (digitsOnly_toString next Hnext), Hparse. apply orZ_of_read.
  - unfold onBlur, tryCatch. rewrite Hparse, orZ_of_read, Hset2. reflexivity.
  - exact Hget2.
Qed.

(** X23.  When AsyncStorage rejects the write, the handlers of the goal field
    do not fail and the store stays as it was, but [adjustGoal] has already
    put the text of the new goal into the field: the screen then shows a goal
    that was not saved. *)
Theorem rejected_goal_save_is_still_shown (delta : Z) (inputValue : string) (w : World) :
  nextCallRejects w = true ->
  adjustGoal delta inputValue w
  = (Resolved (toString (Z.max 0 (orZ (parseInt (digitsOnly inputValue)) 0 + delta))),
     advance w) /\
  onBlur inputValue w = (Resolved tt, advance w) /\
  disk (advance w) = disk w.
Proof.
  intros Hreject. split; [|split].
  - unfold adjustGoal, tryCatch, bind, setDailyGoal, tryCatch, setItem, throw, ret, advance.
    rewrite Hreject. reflexivity.
  - unfold onBlur, tryCatch, setDailyGoal, tryCatch, setItem, throw, ret, advance.
    rewrite Hreject. reflexivity.
  - reflexivity.
Qed.

(** X24.  What [onChangeText] leaves in the goal field has digits only,
    whatever was typed or pasted: filtering it again changes nothing, and a
    text of digits, such as the text of a goal, is kept as it is. *)
Theorem onChangeText_keeps_digits_only (text : string) (g : Z) :
  onChangeText (onChangeText text) = onChangeText text /\
  (forall c, In c (list_ascii_of_string (onChangeText text)) -> isDigit c = true) /\
  (0 <= g -> onChangeText (toString g) = toString g).
Proof.
  split; [apply digitsOnly_idempotent|]. split; [|apply digitsOnly_toString].
  unfold onChangeText. induction text as [|c rest IH]; [intros c []|].
  simpl. destruct (isDigit c) eqn:E; [|exact IH].
  intros c' [<-|Hin]; [exact E | apply IH; exact Hin].
Qed.

End Device.

(** * The properties on sample inputs *)

(** C1 at a failing input.  In Berlin at 23:30 on the day on which summer
    time has ended, 24 hours before now is 00:30 of the same calendar day:
    both rounds of the loop for [days = 2] make the key of 2024-10-27, and
    [getLogsByDay(2)] returns one bucket, not two; 2024-10-26 has none. *)
Theorem getLogsByDay_day_lost_when_summer_time_ends :
  localDay berlinAutumn2024 berlinNow = daysFromCivil 2024 10 27 /\
  localDay berlinAutumn2024 (berlinNow - 1 * 24 * 60 * 60 * 1000) = daysFromCivil 2024 10 27 /\
  getLogsByDay berlinAutumn2024 berlinNow 2 (worldWith [] [])
  = (Resolved [ {| date := dateOfKey (daysFromCivil 2024 10 27); count := 0 |} ],
     advance (worldWith [] [])).
Proof.
  repeat split; vm_compute; reflexivity.
Qed.

(** West of Greenwich the date of a bucket, midnight UTC, falls on the
    local calendar day before its key: in New York the buckets of
    [getLogsByDay(3)] read, in local time, as the three days before today. *)
Lemma getLogsByDay_dates_read_a_day_early_in_New_York :
  localDay newYorkWinter newYorkNow = daysFromCivil 2024 1 10 /\
  map (fun b => localDay newYorkWinter (date b)) (logsByDay newYorkWinter newYorkNow [] 3)
  = [daysFromCivil 2024 1 7; daysFromCivil 2024 1 8; daysFromCivil 2024 1 9].
Proof.
  split; vm_compute; reflexivity.
Qed.

(** C2 at a failing input.  Same place and time: the log of noon of
    2024-10-26 lies in the window of two days that ends on 2024-10-27, but the
    counts of [getLogsByDay(2)] add up to 0. *)
Theorem sumOfCounts_misses_a_log_when_summer_time_ends :
  filter (inWindow berlinAutumn2024 berlinNow 2) berlinLogs = berlinLogs /\
  getLogsByDay berlinAutumn2024 berlinNow 2 (worldWith berlinLogs [])
  = (Resolved [ {| date := dateOfKey (daysFromCivil 2024 10 27); count := 0 |} ],
     advance (worldWith berlinLogs [])) /\
  sumOfCounts [ {| date := dateOfKey (daysFromCivil 2024 10 27); count := 0 |} ] = 0%nat.
Proof.
  repeat split; vm_compute; reflexivity.
Qed.

(** C3 fails on the code.  With no cost set (the cost reads as 0) the costs
    screen derives no record, although [getLogsByDay(7)] has seven buckets.
    And in New York, with a cost of one half, the amounts it charts are not
    those of the buckets in their order: the bucket of a day is found for the
    day before, and none for today. *)
Lemma spending_records_do_not_follow_the_buckets :
  (fst (costsLoadData utc notANumber everyDay everyDay sampleNow week (worldWith sampleLogs []))
   = Resolved {| cigaretteCost := 0;
                 chartData := [];
                 stats := {| CostsStats.totalSpent := 0; CostsStats.dailyAverage := 0;
                             CostsStats.totalCigarettes := 0 |} |} /\
   List.length (logsByDay utc sampleNow sampleLogs 7) = 7%nat) /\
  (exists screen,
      fst (costsLoadData newYorkWinter readHalf everyDay everyDay newYorkNow week
                         (worldWithCost sampleLogs "0.5"))
      = Resolved screen /\
      cigaretteCost screen = (1 # 2)%Q /\
      map Qred (chartData screen) = [0; 0; 0; 0; 1; 1 # 2; 0]%Q /\
      map (fun b => Qred (round64 (inject_Z (Z.of_nat (count b)) * (1 # 2))))
          (logsByDay newYorkWinter newYorkNow sampleLogs 7)
      = [0; 0; 0; 0; 0; 1; 1 # 2]%Q).
Proof.
  split; [split; vm_compute; reflexivity|].
  eexists. split; [vm_compute; reflexivity|].
  split; [reflexivity|]. split; vm_compute; reflexivity.
Qed.

(** C4 fails on the code: for one log in three days the daily average is
    0.3, not 1/3. *)
Lemma daily_average_is_rounded :
  trendsTotal oneLogInThreeDays = 1%nat /\
  List.length oneLogInThreeDays = 3%nat /\
  trendsDailyAverage oneLogInThreeDays = (3 # 10)%Q /\
  ~ (trendsDailyAverage oneLogInThreeDays == 1 # 3)%Q.
Proof.
  repeat split; try (vm_compute; reflexivity).
  vm_compute. discriminate.
Qed.

(** For three logs in twenty days the daily average is 0.1: the double of
    3/20 lies below 3/20, and [toFixed(1)] rounds it down. *)
Example daily_average_of_three_logs_in_twenty_days :
  trendsTotal threeLogsInTwentyDays = 3%nat /\
  List.length threeLogsInTwentyDays = 20%nat /\
  (round64 (3 # 20) < 3 # 20)%Q /\
  trendsDailyAverage threeLogsInTwentyDays = (1 # 10)%Q.
Proof.
  repeat split; vm_compute; reflexivity.
Qed.

(** One cigarette on each of seven days at a cost of 0.1: the amounts add up
    to the double 0.7, which lies below the product of doubles 7 * 0.1; both
    are as the binary64 operations of the Standard Library give them. *)
Example seven_times_a_tenth :
  let tenth := SF2Q (priceOfCents 10) in
  let buckets := map (fun k => {| date := dateOfKey k; count := 1 |}) (range 0 7) in
  let periodData := spendingData utc tenth buckets (range 0 7) in
  totalCigarettes periodData = 7%nat /\
  (totalSpent periodData == SF2Q (priceOfCents 70))%Q /\
  (round64 (7 * tenth) == SF2Q (SFmul 53 1024 (binary64OfZ 7) (priceOfCents 10)))%Q /\
  (totalSpent periodData < round64 (7 * tenth))%Q.
Proof.
  cbv zeta. repeat split; vm_compute; reflexivity.
Qed.

(** C6 fails on the code: a negative day count is not refused, the call
    resolves with the empty sequence. *)
Lemma negative_day_count_is_not_refused :
  getLogsByDay utc sampleNow (-1) (worldWith sampleLogs [])
  = (Resolved [], advance (worldWith sampleLogs [])).
Proof.
  vm_compute. reflexivity.
Qed.

(** C7 fails on the code: adding an entry that the collection already holds
    stores it a second time, so two entries have the same id. *)
Lemma addLog_stores_an_entry_twice :
  let entry := {| id := "a"; timestamp := utcInstant 2024 1 9 8 0 |} in
  fst (bind (addLog sampleNow (Some entry)) (fun _ => getLogs) (worldWith [entry] []))
  = Resolved [entry; entry] /\
  occurrences [entry; entry] entry = 2%nat /\
  ~ NoDup (map id [entry; entry]).
Proof.
  cbv zeta. split; [vm_compute; reflexivity|]. split; [vm_compute; reflexivity|].
  intros H. inversion H as [|? ? Hin _]. apply Hin. left. reflexivity.
Qed.

(** Discharges [noFaults] of a world whose list of faults is given. *)
Ltac no_faults := unfold noFaults; simpl; repeat constructor.

(** The scenario of two logs on the day before and one log today, over three
    days, in a zone without offset. *)
Example logsByDay_of_the_sample :
  logsByDay utc sampleNow sampleLogs 3
  = [ {| date := dateOfKey (daysFromCivil 2024 1 8); count := 0 |};
      {| date := dateOfKey (daysFromCivil 2024 1 9); count := 2 |};
      {| date := dateOfKey (daysFromCivil 2024 1 10); count := 1 |} ]
  /\ updateTimeStats utc (firstn 2 sampleLogs)
     = {| morning := 1; afternoon := 1; evening := 0; night := 0 |}.
Proof.
  split; vm_compute; reflexivity.
Qed.

(** [addLog_removeLog_then_getLogs] applies to the sample collection, with
    an entry made from the clock and with the id "a" to remove. *)
Lemma addLog_removeLog_then_getLogs_witness :
  noFaults (worldWith sampleLogs []) /\
  let prior := storedLogs (disk (worldWith sampleLogs [])) in
  let newLog := {| id := toString sampleNow; timestamp := sampleNow |} in
  (exists w1 w2,
      addLog sampleNow None (worldWith sampleLogs []) = (Resolved (prior ++ [newLog]), w1) /\
      getLogs w1 = (Resolved (prior ++ [newLog]), w2)) /\
  occurrences (prior ++ [newLog]) newLog = S (occurrences prior newLog) /\
  ((forall l, In l prior -> id l <> id newLog) ->
   filter (fun l => String.eqb (id l) (id newLog)) (prior ++ [newLog]) = [newLog]) /\
  (exists updatedLogs w1 w2,
      removeLog "a" (worldWith sampleLogs []) = (Resolved updatedLogs, w1) /\
      getLogs w1 = (Resolved updatedLogs, w2) /\
      (forall l, In l updatedLogs <-> In l prior /\ id l <> "a"%string)).
Proof.
  split.
  - no_faults.
  - apply (addLog_removeLog_then_getLogs sampleNow None "a"%string (worldWith sampleLogs [])).
    no_faults.
Defined.

(** [removeLog_twice] applies to the sample collection, with the id "a" of
    one of its entries and with the id "z" that none of them has: removing
    "z" returns the collection unchanged, both times. *)
Lemma removeLog_twice_witness :
  let w := worldWith sampleLogs [] in
  noFaults w /\
  (exists updatedLogs w1 w2,
      removeLog "a" w = (Resolved updatedLogs, w1) /\
      removeLog "a" w1 = (Resolved updatedLogs, w2) /\
      storedLogs (disk w1) = updatedLogs /\
      storedLogs (disk w2) = updatedLogs /\
      ((forall log, In log (storedLogs (disk w)) -> id log <> "a"%string) ->
       updatedLogs = storedLogs (disk w))) /\
  (forall log, In log (storedLogs (disk w)) -> id log <> "z"%string) /\
  (exists w1 w2,
      removeLog "z" w = (Resolved sampleLogs, w1) /\
      removeLog "z" w1 = (Resolved sampleLogs, w2) /\
      storedLogs (disk w1) = sampleLogs /\
      storedLogs (disk w2) = sampleLogs).
Proof.
  cbv zeta.
  assert (Habsent : forall log, In log (storedLogs (disk (worldWith sampleLogs []))) ->
                                id log <> "z"%string).
  { intros log [<-|[<-|[<-|[]]]]; discriminate. }
  split; [no_faults|]. split; [|split; [exact Habsent|]].
  - apply (removeLog_twice "a"%string (worldWith sampleLogs [])). no_faults.
  - destruct (removeLog_twice "z"%string (worldWith sampleLogs []))
      as (updatedLogs & w1 & w2 & Hfirst & Hsecond & Hstored1 & Hstored2 & Hunchanged);
      [no_faults|].
    rewrite (Hunchanged Habsent) in Hfirst, Hsecond, Hstored1, Hstored2.
    exists w1, w2. split; [exact Hfirst|]. split; [exact Hsecond|].
    split; [exact Hstored1 | exact Hstored2].
Defined.

(** [removeLog_removes_every_match] applies to a collection in which two
    entries share the id that is removed. *)
Lemma removeLog_removes_every_match_witness :
  noFaults (worldWith sharedIdLogs []) /\
  exists updatedLogs w',
    removeLog "1" (worldWith sharedIdLogs []) = (Resolved updatedLogs, w') /\
    storedLogs (disk w') = updatedLogs /\
    (forall log, In log updatedLogs -> id log <> "1"%string) /\
    Subsequence updatedLogs (storedLogs (disk (worldWith sharedIdLogs []))) /\
    (forall log, id log <> "1"%string ->
                 occurrences updatedLogs log
                 = occurrences (storedLogs (disk (worldWith sharedIdLogs []))) log).
Proof.
  split.
  - no_faults.
  - apply (removeLog_removes_every_match "1"%string (worldWith sharedIdLogs [])).
    no_faults.
Defined.

(** [logsByDay_fixed_offset] applies to the sample collection in a zone
    without offset. *)
Lemma logsByDay_fixed_offset_witness :
  (forall t, utc t = 0) /\
  0 <= 3 /\
  logsByDay utc sampleNow sampleLogs 3
  = map (bucketOf utc sampleLogs)
        (eachDayOfInterval (localDay utc sampleNow - (3 - 1)) (localDay utc sampleNow)) /\
  List.length (logsByDay utc sampleNow sampleLogs 3) = Z.to_nat 3.
Proof.
  split; [intros t; reflexivity|]. split; [lia|].
  apply (logsByDay_fixed_offset utc 0 sampleNow 3 sampleLogs); [intros t; reflexivity | lia].
Defined.

(** [sumOfCounts_fixed_offset] applies to the sample collection over the
    single day of today: two of the three logs are left out. *)
Lemma sumOfCounts_fixed_offset_witness :
  (forall t, utc t = 0) /\
  0 <= 1 /\
  sumOfCounts (logsByDay utc sampleNow sampleLogs 1)
  = List.length (filter (inWindow utc sampleNow 1) sampleLogs).
Proof.
  split; [intros t; reflexivity|]. split; [lia|].
  apply (sumOfCounts_fixed_offset utc 0 sampleNow 1 sampleLogs); [intros t; reflexivity | lia].
Defined.

(** [setDailyGoal_then_getDailyGoal] applies to a goal of 10 and the
    currency EUR, with the reader of decimal numerals for [parseInt]. *)
Lemma setDailyGoal_then_getDailyGoal_witness :
  noFaults (worldWith sampleLogs []) /\
  safeInteger 10 /\
  parseDecimal (toString 10) = Some 10 /\
  (exists w1 w2,
      setDailyGoal 10 (worldWith sampleLogs []) = (Resolved tt, w1) /\
      getDailyGoal parseDecimal w1 = (Resolved 10, w2) /\
      storedLogs (disk w1) = storedLogs (disk (worldWith sampleLogs []))) /\
  (exists w1 w2,
      setCurrency "EUR" (worldWith sampleLogs []) = (Resolved tt, w1) /\
      getCurrency w1 = (Resolved (Some "EUR"%string), w2) /\
      storedLogs (disk w1) = storedLogs (disk (worldWith sampleLogs []))).
Proof.
  split; [no_faults|]. split; [unfold safeInteger; lia|]. split; [reflexivity|].
  apply (setDailyGoal_then_getDailyGoal parseDecimal 10 "EUR"%string (worldWith sampleLogs []));
    [no_faults | unfold safeInteger; lia | reflexivity].
Defined.

(** [setCigaretteCost_then_getCigaretteCost] applies to a cost of one half. *)
Lemma setCigaretteCost_then_getCigaretteCost_witness :
  noFaults (worldWith sampleLogs []) /\
  textOfHalf (1 # 2)%Q <> EmptyString /\
  readHalf (textOfHalf (1 # 2)%Q) = Some (1 # 2)%Q /\
  exists stored w1 w2,
    setCigaretteCost textOfHalf (1 # 2)%Q (worldWith sampleLogs []) = (Resolved tt, w1) /\
    getCigaretteCost readHalf w1 = (Resolved stored, w2) /\
    (stored == 1 # 2)%Q.
Proof.
  split; [no_faults|]. split; [discriminate|]. split; [reflexivity|].
  apply (setCigaretteCost_then_getCigaretteCost readHalf textOfHalf (1 # 2)%Q
           (worldWith sampleLogs [])); [no_faults | discriminate | reflexivity].
Defined.

(** [welcome_flag_round_trip] applies to the sample world. *)
Lemma welcome_flag_round_trip_witness :
  noFaults (worldWith sampleLogs []) /\
  (exists w1 w2,
      setHasSeenWelcome (worldWith sampleLogs []) = (Resolved tt, w1) /\
      hasSeenWelcome w1 = (Resolved true, w2)) /\
  (exists w1 w2,
      resetWelcome (worldWith sampleLogs []) = (Resolved tt, w1) /\
      hasSeenWelcome w1 = (Resolved false, w2)).
Proof.
  split; [no_faults|]. apply (welcome_flag_round_trip (worldWith sampleLogs [])). no_faults.
Defined.

(** [rejected_read_overwrites_the_store] applies to the sample collection
    with a rejected read followed by an accepted write. *)
Lemma rejected_read_overwrites_the_store_witness :
  nextCallRejects (worldWith sampleLogs [true; false]) = true /\
  nextCallRejects (advance (worldWith sampleLogs [true; false])) = false /\
  (exists w', addLog sampleNow None (worldWith sampleLogs [true; false])
              = (Resolved [defaultLog sampleNow], w') /\
              storedLogs (disk w') = [defaultLog sampleNow]) /\
  (exists w', removeLog "a" (worldWith sampleLogs [true; false]) = (Resolved [], w') /\
              storedLogs (disk w') = []).
Proof.
  split; [reflexivity|]. split; [reflexivity|].
  apply (rejected_read_overwrites_the_store sampleNow None "a"%string
           (worldWith sampleLogs [true; false])); reflexivity.
Defined.

(** [addLog_then_removeLog_restores] applies to the sample collection and an
    entry made from the clock. *)
Lemma addLog_then_removeLog_restores_witness :
  noFaults (worldWith sampleLogs []) /\
  (forall l, In l (storedLogs (disk (worldWith sampleLogs []))) ->
             id l <> id (defaultLog sampleNow)) /\
  exists w1 w2,
    addLog sampleNow None (worldWith sampleLogs [])
    = (Resolved (storedLogs (disk (worldWith sampleLogs [])) ++ [defaultLog sampleNow]), w1) /\
    removeLog (id (defaultLog sampleNow)) w1
    = (Resolved (storedLogs (disk (worldWith sampleLogs []))), w2) /\
    storedLogs (disk w2) = storedLogs (disk (worldWith sampleLogs [])).
Proof.
  assert (Hfresh : forall l, In l (storedLogs (disk (worldWith sampleLogs []))) ->
                             id l <> id (defaultLog sampleNow)).
  { intros l [<-|[<-|[<-|[]]]] H; vm_compute in H; discriminate H. }
  split; [no_faults|]. split; [exact Hfresh|].
  apply (addLog_then_removeLog_restores sampleNow None (worldWith sampleLogs []));
    [no_faults | exact Hfresh].
Defined.

(** [removeLog_order_is_irrelevant] applies to the sample collection. *)
Lemma removeLog_order_is_irrelevant_witness :
  noFaults (worldWith sampleLogs []) /\
  exists la lab lb lba w1 w2 w3 w4,
    removeLog "a" (worldWith sampleLogs []) = (Resolved la, w1) /\
    removeLog "b" w1 = (Resolved lab, w2) /\
    removeLog "b" (worldWith sampleLogs []) = (Resolved lb, w3) /\
    removeLog "a" w3 = (Resolved lba, w4) /\
    lab = lba /\
    storedLogs (disk w2) = lab /\ storedLogs (disk w4) = lba.
Proof.
  split; [no_faults|].
  apply (removeLog_order_is_irrelevant "a"%string "b"%string (worldWith sampleLogs [])).
  no_faults.
Defined.

(** [addLog_at_distinct_instants_keeps_ids_distinct] applies to the sample
    collection and two readings of the clock one millisecond apart. *)
Lemma addLog_at_distinct_instants_keeps_ids_distinct_witness :
  noFaults (worldWith sampleLogs []) /\
  NoDup [sampleNow; sampleNow + 1] /\
  NoDup (map id (storedLogs (disk (worldWith sampleLogs [])))) /\
  (forall now l, In now [sampleNow; sampleNow + 1] ->
                 In l (storedLogs (disk (worldWith sampleLogs []))) ->
                 id l <> toString now) /\
  exists w',
    addLogsAt [sampleNow; sampleNow + 1] (worldWith sampleLogs []) = (Resolved tt, w') /\
    storedLogs (disk w')
    = storedLogs (disk (worldWith sampleLogs [])) ++ map defaultLog [sampleNow; sampleNow + 1] /\
    NoDup (map id (storedLogs (disk w'))).
Proof.
  assert (Hnows : NoDup [sampleNow; sampleNow + 1]).
  { repeat constructor; simpl; intros H; repeat destruct H as [H|H];
      try (vm_compute in H; discriminate H); exact H. }
  assert (Hids : NoDup (map id (storedLogs (disk (worldWith sampleLogs []))))).
  { repeat constructor; simpl; intros H; repeat destruct H as [H|H];
      try discriminate H; exact H. }
  assert (Hfresh : forall now l, In now [sampleNow; sampleNow + 1] ->
                                 In l (storedLogs (disk (worldWith sampleLogs []))) ->
                                 id l <> toString now).
  { intros now l [<-|[<-|[]]] [<-|[<-|[<-|[]]]] H; vm_compute in H; discriminate H. }
  split; [no_faults|]. split; [exact Hnows|]. split; [exact Hids|]. split; [exact Hfresh|].
  apply (addLog_at_distinct_instants_keeps_ids_distinct [sampleNow; sampleNow + 1]
           (worldWith sampleLogs [])); [no_faults | exact Hnows | exact Hids | exact Hfresh].
Defined.

(** [today_bucket_agrees_with_getLogsForDate] applies in Berlin on the day
    on which summer time has ended. *)
Lemma today_bucket_agrees_with_getLogsForDate_witness :
  1 <= 2 /\
  exists todays buckets bucket,
    getLogsForDate berlinAutumn2024 berlinNow (worldWith berlinLogs [])
    = (Resolved todays, advance (worldWith berlinLogs [])) /\
    getLogsByDay berlinAutumn2024 berlinNow 2 (worldWith berlinLogs [])
    = (Resolved buckets, advance (worldWith berlinLogs [])) /\
    In bucket buckets /\
    date bucket = dateOfKey (localDay berlinAutumn2024 berlinNow) /\
    count bucket = List.length todays.
Proof.
  split; [lia|].
  apply (today_bucket_agrees_with_getLogsForDate berlinAutumn2024 berlinNow 2
           (worldWith berlinLogs [])). lia.
Defined.

(** [home_list_follows_the_store] applies to the home screen loaded from the
    sample collection. *)
Lemma home_list_follows_the_store_witness :
  let state := homeOf utc (logsOfToday utc sampleNow sampleLogs) 0 in
  noFaults (worldWith sampleLogs []) /\
  (exists state' w',
      loadTodayData utc parseDecimal sampleNow state (worldWith sampleLogs [])
      = (Resolved state', w') /\
      Home.todayLogs state' = logsOfToday utc sampleNow (storedLogs (disk w'))) /\
  (Home.todayLogs state = logsOfToday utc sampleNow (storedLogs (disk (worldWith sampleLogs []))) ->
   (exists state' w',
       addCigarette utc sampleNow state (worldWith sampleLogs []) = (Resolved state', w') /\
       Home.todayLogs state' = logsOfToday utc sampleNow (storedLogs (disk w')) /\
       Home.count state' = S (List.length (Home.todayLogs state))) /\
   (exists state' w',
       removeCigarette utc "c" state (worldWith sampleLogs []) = (Resolved state', w') /\
       Home.todayLogs state' = logsOfToday utc sampleNow (storedLogs (disk w')))).
Proof.
  cbv zeta. split; [no_faults|].
  apply (home_list_follows_the_store utc parseDecimal sampleNow "c"%string
           (homeOf utc (logsOfToday utc sampleNow sampleLogs) 0) (worldWith sampleLogs [])).
  no_faults.
Defined.

(** [charts_show_each_day_east_of_Greenwich] applies in Kolkata. *)
Lemma charts_show_each_day_east_of_Greenwich_witness :
  let offset := 5 * msPerHour + 30 * msPerMinute in
  let w := worldWith sampleLogs [] in
  let shown := map (fun day => logsOn kolkata day (readLogs w))
                   (allDays kolkata sampleNow (daysOfRange week)) in
  (forall t, kolkata t = offset) /\
  0 <= offset < msPerDay /\
  (exists screen,
      trendsLoadData kolkata everyDay everyDay sampleNow week w = (Resolved screen, advance w) /\
      trendsChart screen = shown) /\
  map DailySpending.count
      (spendingData kolkata (1 # 2)%Q (logsByDay kolkata sampleNow (readLogs w) (daysOfRange week))
                    (allDays kolkata sampleNow (daysOfRange week)))
  = shown.
Proof.
  cbv zeta. split; [intros t; reflexivity|]. split; [unfold msPerDay, msPerHour, msPerMinute; lia|].
  apply (charts_show_each_day_east_of_Greenwich kolkata everyDay everyDay
           (5 * msPerHour + 30 * msPerMinute) sampleNow week (1 # 2)%Q (worldWith sampleLogs []));
    [intros t; reflexivity | unfold msPerDay, msPerHour, msPerMinute; lia].
Defined.

(** [charts_are_a_day_off_west_of_Greenwich] applies in New York. *)
Lemma charts_are_a_day_off_west_of_Greenwich_witness :
  let offset := - 5 * msPerHour in
  let w := worldWith sampleLogs [] in
  let shown := map (fun day => if day <? localDay newYorkWinter newYorkNow
                               then logsOn newYorkWinter (day + 1) (readLogs w) else 0%nat)
                   (allDays newYorkWinter newYorkNow (daysOfRange week)) in
  (forall t, newYorkWinter t = offset) /\
  - msPerDay <= offset < 0 /\
  (exists screen,
      trendsLoadData newYorkWinter everyDay everyDay newYorkNow week w
      = (Resolved screen, advance w) /\
      trendsChart screen = shown) /\
  map DailySpending.count
      (spendingData newYorkWinter (1 # 2)%Q
                    (logsByDay newYorkWinter newYorkNow (readLogs w) (daysOfRange week))
                    (allDays newYorkWinter newYorkNow (daysOfRange week)))
  = shown.
Proof.
  cbv zeta. split; [intros t; reflexivity|]. split; [unfold msPerDay, msPerHour; lia|].
  apply (charts_are_a_day_off_west_of_Greenwich newYorkWinter everyDay everyDay
           (- 5 * msPerHour) newYorkNow week (1 # 2)%Q (worldWith sampleLogs []));
    [intros t; reflexivity | unfold msPerDay, msPerHour; lia].
Defined.

(** [adjustGoal_keeps_field_and_store_in_step] applies to the plus button on a
    field that holds pasted text whose digits read as 12, with the reader of
    decimal numerals for [parseInt]. *)
Lemma adjustGoal_keeps_field_and_store_in_step_witness :
  let w := worldWith sampleLogs [] in
  noFaults w /\
  orZ (parseDecimal (digitsOnly "1 2x")) 0 = 12 /\
  safeInteger 12 /\ safeInteger 1 /\ safeInteger (12 + 1) /\
  parseDecimal (toString (Z.max 0 (12 + 1))) = Some (Z.max 0 (12 + 1)) /\
  0 <= Z.max 0 (12 + 1) /\
  exists w1 w2,
    adjustGoal parseDecimal 1 "1 2x" w = (Resolved (toString (Z.max 0 (12 + 1))), w1) /\
    getDailyGoal parseDecimal w1 = (Resolved (Z.max 0 (12 + 1)), advance w1) /\
    loadGoal parseDecimal "0" w1 = (Resolved (toString (Z.max 0 (12 + 1))), advance w1) /\
    storedLogs (disk w1) = storedLogs (disk w) /\
    orZ (parseDecimal (digitsOnly (toString (Z.max 0 (12 + 1))))) 0 = Z.max 0 (12 + 1) /\
    onBlur parseDecimal (toString (Z.max 0 (12 + 1))) w1 = (Resolved tt, w2) /\
    getDailyGoal parseDecimal w2 = (Resolved (Z.max 0 (12 + 1)), advance w2).
Proof.
  cbv zeta. split; [no_faults|]. split; [reflexivity|].
  split; [unfold safeInteger; lia|]. split; [unfold safeInteger; lia|].
  split; [unfold safeInteger; lia|]. split; [reflexivity|].
  apply (adjustGoal_keeps_field_and_store_in_step parseDecimal 1 12 "1 2x"%string "0"%string
           (worldWith sampleLogs []));
    [no_faults | reflexivity | unfold safeInteger; lia | unfold safeInteger; lia
     | unfold safeInteger; lia | reflexivity].
Defined.

(** [rejected_goal_save_is_still_shown] applies to the plus button on a field
    that shows 9 when the write is rejected: the field shows 10, the store
    still has no goal. *)
Lemma rejected_goal_save_is_still_shown_witness :
  let w := worldWith sampleLogs [true] in
  nextCallRejects w = true /\
  adjustGoal parseDecimal 1 "9" w
  = (Resolved (toString (Z.max 0 (orZ (parseDecimal (digitsOnly "9")) 0 + 1))), advance w) /\
  onBlur parseDecimal "9" w = (Resolved tt, advance w) /\
  disk (advance w) = disk w.
Proof.
  cbv zeta. split; [reflexivity|].
  apply (rejected_goal_save_is_still_shown parseDecimal 1 "9"%string
           (worldWith sampleLogs [true])).
  reflexivity.
Defined.

(** [trends_total_and_average] applies to three logs in twenty days: the
    daily average is within 1/20 of 3/20. *)
Lemma trends_total_and_average_witness :
  let periodData := threeLogsInTwentyDays in
  let quotient := (inject_Z (Z.of_nat (trendsTotal periodData))
                   / inject_Z (Z.of_nat (List.length periodData)))%Q in
  periodData <> [] /\
  20 * Z.of_nat (trendsTotal periodData) < 2 ^ 53 /\
  Z.of_nat (List.length periodData) < 2 ^ 32 /\
  trendsDailyAverage periodData = toFixed1 (round64 quotient) /\
  (exists n : Z, trendsDailyAverage periodData = (inject_Z n / 10)%Q) /\
  (Qabs (trendsDailyAverage periodData - quotient) <= 1 # 20)%Q.
Proof.
  cbv zeta.
  assert (Hne : threeLogsInTwentyDays <> []) by discriminate.
  assert (Hsmall : 20 * Z.of_nat (trendsTotal threeLogsInTwentyDays) < 2 ^ 53)
    by (vm_compute; reflexivity).
  assert (Hshort : Z.of_nat (List.length threeLogsInTwentyDays) < 2 ^ 32)
    by (vm_compute; reflexivity).
  split; [exact Hne|]. split; [exact Hsmall|]. split; [exact Hshort|].
  destruct (trends_total_and_average threeLogsInTwentyDays) as (_ & _ & Hnonempty).
  destruct (Hnonempty Hne) as [Havg Hnear].
  split; [exact Havg|]. exact (Hnear Hsmall Hshort).
Defined.

(** [costs_spending_series] applies in Kolkata, with a cost of one half
    stored: the records are those of the buckets, one for each. *)
Lemma costs_spending_series_witness :
  let w := worldWithCost sampleLogs "0.5" in
  let days := allDays kolkata sampleNow (daysOfRange week) in
  (forall t, kolkata t = 5 * msPerHour + 30 * msPerMinute) /\
  0 <= 5 * msPerHour + 30 * msPerMinute < msPerDay /\
  exists cost buckets,
    getCigaretteCost readHalf w = (Resolved cost, advance w) /\
    getLogsByDay kolkata sampleNow (daysOfRange week) (advance (advance w))
    = (Resolved buckets, advance (advance (advance w))) /\
    map (fun r => (DailySpending.date r, DailySpending.count r))
        (spendingData kolkata cost buckets days)
    = map (fun b => (localDay kolkata (date b), count b)) buckets.
Proof.
  cbv zeta.
  assert (Hfixed : forall t, kolkata t = 5 * msPerHour + 30 * msPerMinute)
    by (intros t; reflexivity).
  assert (Hoffset : 0 <= 5 * msPerHour + 30 * msPerMinute < msPerDay)
    by (unfold msPerDay, msPerHour, msPerMinute; lia).
  split; [exact Hfixed|]. split; [exact Hoffset|].
  destruct (costs_spending_series kolkata readHalf everyDay everyDay sampleNow week
              (worldWithCost sampleLogs "0.5"))
    as (cost & buckets & screen & Hcost & Hbuckets & _ & _ & Hrecords).
  cbv zeta in Hrecords.
  destruct Hrecords as (_ & _ & _ & _ & _ & _ & _ & Heach).
  exists cost, buckets. split; [exact Hcost|]. split; [exact Hbuckets|].
  exact (Heach _ Hfixed Hoffset).
Defined.

(** [costs_total_is_count_times_cost] applies to a stored cost of one half. *)
Lemma costs_total_is_count_times_cost_witness :
  let w := worldWithCost sampleLogs "0.5" in
  getCigaretteCost readHalf w = (Resolved (1 # 2)%Q, advance w) /\
  (2 ^ (-1000) <= 1 # 2 <= 2 ^ 900)%Q /\
  exists screen w',
    costsLoadData utc readHalf everyDay everyDay sampleNow week w = (Resolved screen, w') /\
    cigaretteCost screen = (1 # 2)%Q /\
    (Qabs (CostsStats.totalSpent (stats screen)
           - inject_Z (Z.of_nat (CostsStats.totalCigarettes (stats screen))) * (1 # 2))
     * 2 ^ 47
     <= inject_Z (Z.of_nat (CostsStats.totalCigarettes (stats screen))) * (1 # 2))%Q /\
    (CostsStats.totalCigarettes (stats screen) = 0%nat ->
     (CostsStats.totalSpent (stats screen) == 0)%Q).
Proof.
  cbv zeta. split; [reflexivity|].
  split; [split; vm_compute; discriminate|].
  apply (costs_total_is_count_times_cost utc readHalf everyDay everyDay sampleNow week
           (1 # 2)%Q (worldWithCost sampleLogs "0.5"));
    [reflexivity | split; vm_compute; discriminate].
Defined.
